(** * Butler bootstrap orchestrator: configuration, intent builder,
      manifest deployer, bootstrap watcher and credential repair.

    The development embeds the Go code of
    [internal/adm/bootstrap/orchestrator] (configuration loading, the
    orchestrator's [Run], the intent builders, [watchBootstrap],
    [fixTalosconfigEndpoints]) and of [internal/adm/bootstrap/manifests]
    ([applyResource], [WaitForCRDs], [WaitForDeployment]).

    Untyped Kubernetes objects ([map[string]interface{}]) are finite maps
    from strings to a JSON-like value type.  The API server, the context
    and the ticker are the environment: the API server is a store with
    create / get / update, and every blocking loop consumes a script of
    what the environment shows it at each iteration.  Calls to the logger
    are left out, except the watcher's line on a phase change; what
    [dryRun] prints on standard output is kept. *)

From Stdlib Require Import ZArith List Ascii String Lia Bool.
From stdpp Require Import base option list strings gmap fin_maps pretty.

Local Open Scope string_scope.
Local Open Scope Z_scope.
Local Open Scope list_scope.

Set Warnings "-register-all".

(** ** Untyped objects *)

(** A value stored in an [unstructured.Unstructured] object or returned by
    the YAML decoder: the JSON data model of Go's [interface{}]. *)
Inductive Value : Type :=
| VNull
| VBool (b : bool)
| VInt (n : Z)
| VString (s : string)
| VList (l : list Value)
| VMap (m : gmap string Value).

(** Go's checked type assertions [v.(string)], [v.([]interface{})] and
    [v.(map[string]interface{})] on the result of a map index: a missing
    key indexes to [nil], on which every assertion fails. *)
Definition asString (v : option Value) : option string :=
  match v with Some (VString s) => Some s | _ => None end.

Definition asList (v : option Value) : option (list Value) :=
  match v with Some (VList l) => Some l | _ => None end.

Definition asMap (v : option Value) : option (gmap string Value) :=
  match v with Some (VMap m) => Some m | _ => None end.

(** [s, _ := v.(string)]: the zero value when the assertion fails. *)
Definition stringOrZero (v : option Value) : string :=
  default "" (asString v).

Definition listOrNil (v : option Value) : list Value :=
  default [] (asList v).

(** A [[]string] stored in an untyped object. *)
Definition stringsValue (l : list string) : Value := VList (VString <$> l).


(** ** Errors *)

(** The reason carried by an API status error
    ([k8s.io/apimachinery/pkg/api/errors]). *)
Inductive StatusReason : Type :=
| ReasonAlreadyExists
| ReasonNotFound
| ReasonConflict
| ReasonOther (msg : string).

(** Go [error] values as the code produces and inspects them. *)
Inductive error : Type :=
| Canceled                           (* context.Canceled *)
| DeadlineExceeded                   (* context.DeadlineExceeded *)
| StatusError (r : StatusReason)     (* error returned by the API server *)
| Foreign (msg : string)             (* error of a library outside the repository *)
| ErrorText (msg : string)           (* fmt.Errorf without %w *)
| Wrap (prefix : string) (cause : error).  (* fmt.Errorf(prefix + ": %w", cause) *)

Definition reasonText (r : StatusReason) : string :=
  match r with
  | ReasonAlreadyExists => "already exists"
  | ReasonNotFound => "not found"
  | ReasonConflict => "the object has been modified"
  | ReasonOther msg => msg
  end.

(** [err.Error()]. *)
Fixpoint errorText (e : error) : string :=
  match e with
  | Canceled => "context canceled"
  | DeadlineExceeded => "context deadline exceeded"
  | StatusError r => reasonText r
  | Foreign msg => msg
  | ErrorText msg => msg
  | Wrap prefix cause => prefix +:+ ": " +:+ errorText cause
  end.

(** [errors.IsAlreadyExists]. *)
Definition IsAlreadyExists (e : error) : bool :=
  match e with StatusError ReasonAlreadyExists => true | _ => false end.

(** A Go [(T, error)] result. *)
Inductive result (T : Type) : Type :=
| Ok (v : T)
| Err (e : error).
Arguments Ok {T} v.
Arguments Err {T} e.

(** An occurrence of [sub] inside [s]. *)
Definition contains (s sub : string) : Prop :=
  exists pre post, s = pre +:+ sub +:+ post.

(** ** Configuration model ([config.go]) *)

(** [int32] fields are integers in the [int32] range; the code only
    compares and prints them. *)
Definition int32 := Z.

Record DiskConfig := {
  SizeGB : int32;
  StorageClass : string;
}.

Record NodePoolConfig := {
  Replicas : int32;
  CPU : int32;
  MemoryMB : int32;
  DiskGB : int32;
  ExtraDisks : list DiskConfig;
}.

Record ClusterConfig := {
  Name : string;
  Topology : string;
  ControlPlane : NodePoolConfig;
  Workers : NodePoolConfig;
}.

Record NetworkConfig := {
  PodCIDR : string;
  ServiceCIDR : string;
  VIP : string;
}.

Record TalosConfig := {
  Talos_Version : string;
  Schematic : string;
}.

Record LoadBalancerConfig := {
  LoadBalancer_Type : string;
  AddressPool : string;
}.

Record CAPIConfig := {
  CAPI_Enabled : bool;
  CAPI_Version : string;
}.

Record ButlerControllerConfig := {
  ButlerController_Enabled : bool;
  ButlerController_Version : string;
  ButlerController_Image : string;
}.

Record ConsoleIngressConfig := {
  Ingress_Enabled : bool;
  Host : string;
  ClassName : string;
  TLS : bool;
  TLSSecretName : string;
}.

Record ConsoleAuthConfig := {
  AdminPassword : string;
  JWTSecret : string;
}.

Record ConsoleConfig := {
  Console_Enabled : bool;
  Console_Version : string;
  Ingress : ConsoleIngressConfig;
  Auth : ConsoleAuthConfig;
}.

(** [CNIConfig], [StorageConfig] and [GitOpsConfig] hold one [Type]
    string each. *)
Record AddonsConfig := {
  CNI_Type : string;
  Storage_Type : string;
  LoadBalancer : LoadBalancerConfig;
  GitOps_Type : string;
  CAPI : CAPIConfig;
  ButlerController : ButlerControllerConfig;
  Console : ConsoleConfig;
}.

Record HarvesterProviderConfig := {
  KubeconfigPath : string;
  Harvester_Namespace : string;
  NetworkName : string;
  ImageName : string;
}.

Record NutanixProviderConfig := {
  Nutanix_Endpoint : string;
  Port : int32;
  Nutanix_Insecure : bool;
  Nutanix_Username : string;
  Nutanix_Password : string;
  ClusterUUID : string;
  SubnetUUID : string;
  ImageUUID : string;
  StorageContainerUUID : string;
  Nutanix_HostAliases : list string;
}.

Record ProxmoxProviderConfig := {
  Proxmox_Endpoint : string;
  Proxmox_Insecure : bool;
  Proxmox_Username : string;
  Proxmox_Password : string;
  Nodes : list string;
  Proxmox_Storage : string;
  TemplateID : int32;
  VMIDStart : int32;
  VMIDEnd : int32;
  Proxmox_HostAliases : list string;
}.

(** The Go struct [ProviderConfig]: three optional pointers. *)
Record ProviderSettings := {
  Harvester : option HarvesterProviderConfig;
  Nutanix : option NutanixProviderConfig;
  Proxmox : option ProxmoxProviderConfig;
}.

Record Config := {
  Provider : string;
  Cluster : ClusterConfig;
  Network : NetworkConfig;
  Talos : TalosConfig;
  Addons : AddonsConfig;
  ProviderConfig : ProviderSettings;
}.

(** Field assignments used by [LoadConfig]. *)
Definition set_PodCIDR (v : string) (c : Config) : Config :=
  {| Provider := Provider c; Cluster := Cluster c;
     Network := {| PodCIDR := v; ServiceCIDR := ServiceCIDR (Network c);
                   VIP := VIP (Network c) |};
     Talos := Talos c; Addons := Addons c;
     ProviderConfig := ProviderConfig c |}.

Definition set_ServiceCIDR (v : string) (c : Config) : Config :=
  {| Provider := Provider c; Cluster := Cluster c;
     Network := {| PodCIDR := PodCIDR (Network c); ServiceCIDR := v;
                   VIP := VIP (Network c) |};
     Talos := Talos c; Addons := Addons c;
     ProviderConfig := ProviderConfig c |}.

Definition set_Talos_Version (v : string) (c : Config) : Config :=
  {| Provider := Provider c; Cluster := Cluster c; Network := Network c;
     Talos := {| Talos_Version := v; Schematic := Schematic (Talos c) |};
     Addons := Addons c; ProviderConfig := ProviderConfig c |}.

Definition set_Addons (f : AddonsConfig -> AddonsConfig) (c : Config) : Config :=
  {| Provider := Provider c; Cluster := Cluster c; Network := Network c;
     Talos := Talos c; Addons := f (Addons c);
     ProviderConfig := ProviderConfig c |}.

Definition set_CNI_Type (v : string) (a : AddonsConfig) : AddonsConfig :=
  {| CNI_Type := v; Storage_Type := Storage_Type a;
     LoadBalancer := LoadBalancer a; GitOps_Type := GitOps_Type a;
     CAPI := CAPI a; ButlerController := ButlerController a;
     Console := Console a |}.

Definition set_Storage_Type (v : string) (a : AddonsConfig) : AddonsConfig :=
  {| CNI_Type := CNI_Type a; Storage_Type := v;
     LoadBalancer := LoadBalancer a; GitOps_Type := GitOps_Type a;
     CAPI := CAPI a; ButlerController := ButlerController a;
     Console := Console a |}.

Definition set_LoadBalancer_Type (v : string) (a : AddonsConfig) : AddonsConfig :=
  {| CNI_Type := CNI_Type a; Storage_Type := Storage_Type a;
     LoadBalancer := {| LoadBalancer_Type := v;
                        AddressPool := AddressPool (LoadBalancer a) |};
     GitOps_Type := GitOps_Type a;
     CAPI := CAPI a; ButlerController := ButlerController a;
     Console := Console a |}.

Definition set_GitOps_Type (v : string) (a : AddonsConfig) : AddonsConfig :=
  {| CNI_Type := CNI_Type a; Storage_Type := Storage_Type a;
     LoadBalancer := LoadBalancer a; GitOps_Type := v;
     CAPI := CAPI a; ButlerController := ButlerController a;
     Console := Console a |}.

Definition set_Console (f : ConsoleConfig -> ConsoleConfig) (a : AddonsConfig)
  : AddonsConfig :=
  {| CNI_Type := CNI_Type a; Storage_Type := Storage_Type a;
     LoadBalancer := LoadBalancer a; GitOps_Type := GitOps_Type a;
     CAPI := CAPI a; ButlerController := ButlerController a;
     Console := f (Console a) |}.

Definition set_Console_Version (v : string) (k : ConsoleConfig) : ConsoleConfig :=
  {| Console_Enabled := Console_Enabled k; Console_Version := v;
     Ingress := Ingress k; Auth := Auth k |}.

Definition set_Ingress_Host (v : string) (k : ConsoleConfig) : ConsoleConfig :=
  {| Console_Enabled := Console_Enabled k;
     Console_Version := Console_Version k;
     Ingress := {| Ingress_Enabled := Ingress_Enabled (Ingress k); Host := v;
                   ClassName := ClassName (Ingress k); TLS := TLS (Ingress k);
                   TLSSecretName := TLSSecretName (Ingress k) |};
     Auth := Auth k |}.

Definition set_Cluster (f : ClusterConfig -> ClusterConfig) (c : Config) : Config :=
  {| Provider := Provider c; Cluster := f (Cluster c); Network := Network c;
     Talos := Talos c; Addons := Addons c;
     ProviderConfig := ProviderConfig c |}.

Definition set_Topology (v : string) (k : ClusterConfig) : ClusterConfig :=
  {| Name := Name k; Topology := v; ControlPlane := ControlPlane k;
     Workers := Workers k |}.

Definition set_ControlPlane_Replicas (v : int32) (k : ClusterConfig) : ClusterConfig :=
  {| Name := Name k; Topology := Topology k;
     ControlPlane := {| Replicas := v; CPU := CPU (ControlPlane k);
                        MemoryMB := MemoryMB (ControlPlane k);
                        DiskGB := DiskGB (ControlPlane k);
                        ExtraDisks := ExtraDisks (ControlPlane k) |};
     Workers := Workers k |}.

Definition set_ProviderConfig (f : ProviderSettings -> ProviderSettings)
    (c : Config) : Config :=
  {| Provider := Provider c; Cluster := Cluster c; Network := Network c;
     Talos := Talos c; Addons := Addons c;
     ProviderConfig := f (ProviderConfig c) |}.

Definition set_Nutanix_Port (v : int32) (p : ProviderSettings) : ProviderSettings :=
  {| Harvester := Harvester p;
     Nutanix := (fun n =>
        {| Nutanix_Endpoint := Nutanix_Endpoint n; Port := v;
           Nutanix_Insecure := Nutanix_Insecure n;
           Nutanix_Username := Nutanix_Username n;
           Nutanix_Password := Nutanix_Password n;
           ClusterUUID := ClusterUUID n; SubnetUUID := SubnetUUID n;
           ImageUUID := ImageUUID n;
           StorageContainerUUID := StorageContainerUUID n;
           Nutanix_HostAliases := Nutanix_HostAliases n |}) <$> Nutanix p;
     Proxmox := Proxmox p |}.

Definition set_KubeconfigPath (v : string) (p : ProviderSettings) : ProviderSettings :=
  {| Harvester := (fun h =>
        {| KubeconfigPath := v;
           Harvester_Namespace := Harvester_Namespace h;
           NetworkName := NetworkName h; ImageName := ImageName h |})
        <$> Harvester p;
     Nutanix := Nutanix p;
     Proxmox := Proxmox p |}.

(** Go's [s == t] on strings. *)
Definition streq (s t : string) : bool := bool_decide (s = t).

(** The method [IsSingleNode] of [Config]. *)
Definition IsSingleNode (c : Config) : bool :=
  streq (Topology (Cluster c)) "single-node".

Section LoadConfig.
(** What the process environment and the standard library supply:
    [os.UserHomeDir], [filepath.Join] and the [%q] verb of [fmt]. *)
Variable UserHomeDir : result string.
Variable filepath_Join : string -> string -> string.
Variable Quote : string -> string.

(** [expandPath]: a leading [~] becomes the home directory. *)
Definition expandPath (path : string) : string :=
  match path with
  | String "~" rest =>
      match UserHomeDir with
      | Err _ => path
      | Ok home => filepath_Join home rest
      end
  | _ => path
  end.

(** The blocks of [LoadConfig], one definition per commented block of
    the Go function, in its order. *)

(** "Set defaults". *)
Definition setDefaults (cfg : Config) : Config :=
  let cfg := if streq (PodCIDR (Network cfg)) ""
             then set_PodCIDR "10.244.0.0/16" cfg else cfg in
  let cfg := if streq (ServiceCIDR (Network cfg)) ""
             then set_ServiceCIDR "10.96.0.0/12" cfg else cfg in
  let cfg := if streq (Talos_Version (Talos cfg)) ""
             then set_Talos_Version "v1.9.0" cfg else cfg in
  let cfg := if streq (CNI_Type (Addons cfg)) ""
             then set_Addons (set_CNI_Type "cilium") cfg else cfg in
  let cfg := if streq (Storage_Type (Addons cfg)) ""
             then set_Addons (set_Storage_Type "longhorn") cfg else cfg in
  let cfg := if streq (LoadBalancer_Type (LoadBalancer (Addons cfg))) ""
             then set_Addons (set_LoadBalancer_Type "metallb") cfg else cfg in
  if streq (GitOps_Type (Addons cfg)) ""
  then set_Addons (set_GitOps_Type "flux") cfg else cfg.

(** "Topology defaults": an empty topology is [ha]. *)
Definition defaultTopology (cfg : Config) : Config :=
  if streq (Topology (Cluster cfg)) ""
  then set_Cluster (set_Topology "ha") cfg else cfg.

(** "Single-node topology validation and enforcement", with the warning
    it prints. *)
Definition enforceSingleNode (cfg : Config) : list string * Config :=
  if streq (Topology (Cluster cfg)) "single-node" then
    let replicas := Replicas (ControlPlane (Cluster cfg)) in
    if negb (replicas =? 1) then
      (if 1 <? replicas
       then ["Warning: single-node topology forces controlPlane.replicas=1 (was "
             +:+ pretty replicas +:+ ")"]
       else [],
       set_Cluster (set_ControlPlane_Replicas 1) cfg)
    else ([], cfg)
  else ([], cfg).

(** "Console defaults". *)
Definition consoleDefaults (cfg : Config) : Config :=
  if Console_Enabled (Console (Addons cfg)) then
    let cfg := if streq (Console_Version (Console (Addons cfg))) ""
               then set_Addons (set_Console (set_Console_Version "latest")) cfg
               else cfg in
    if Ingress_Enabled (Ingress (Console (Addons cfg)))
       && streq (Host (Ingress (Console (Addons cfg)))) ""
    then set_Addons (set_Console (set_Ingress_Host
           ("butler." +:+ Name (Cluster cfg) +:+ ".local"))) cfg
    else cfg
  else cfg.

(** "Provider-specific defaults". *)
Definition providerDefaults (cfg : Config) : Config :=
  match Nutanix (ProviderConfig cfg) with
  | Some n =>
      if streq (Provider cfg) "nutanix" && (Port n =? 0)
      then set_ProviderConfig (set_Nutanix_Port 9440) cfg else cfg
  | None => cfg
  end.

(** "Expand home directory in paths". *)
Definition expandPaths (cfg : Config) : Config :=
  match Harvester (ProviderConfig cfg) with
  | Some h =>
      if negb (streq (KubeconfigPath h) "")
      then set_ProviderConfig (set_KubeconfigPath (expandPath (KubeconfigPath h))) cfg
      else cfg
  | None => cfg
  end.

(** [LoadConfig], from the configuration [viper.Unmarshal] produced (or
    its error).  The first component is what the function prints. *)
Definition LoadConfig (unmarshal : result Config) : list string * result Config :=
  match unmarshal with
  | Err e => ([], Err (Wrap "unmarshaling config" e))
  | Ok cfg =>
    let cfg := setDefaults cfg in
    let cfg := defaultTopology cfg in
    (* Validate topology *)
    if negb (streq (Topology (Cluster cfg)) "single-node")
       && negb (streq (Topology (Cluster cfg)) "ha")
    then ([], Err (ErrorText ("invalid topology " +:+ Quote (Topology (Cluster cfg))
                              +:+ ", must be 'single-node' or 'ha'")))
    else
    let '(out, cfg) := enforceSingleNode cfg in
    let cfg := consoleDefaults cfg in
    let cfg := providerDefaults cfg in
    let cfg := expandPaths cfg in
    (out, Ok cfg)
  end.
End LoadConfig.

(** ** Intent builder ([orchestrator.go]) *)

Definition butlerNamespace : string := "butler-system".
Definition kindClusterName : string := "butler-bootstrap".
Definition butlerAPIGroup : string := "butler.butlerlabs.dev".
Definition butlerAPIVersion : string := "v1alpha1".

(** [unstructured.Unstructured]: a wrapper around the object's map. *)
Record Unstructured := { Object : gmap string Value }.

(** A Go map literal [map[string]interface{}{k1: v1, ...}]. *)
Definition mapLit (l : list (string * Value)) : gmap string Value := list_to_map l.

(** [m[k] = v] on a Go map. *)
Definition mapSet (k : string) (v : Value) (m : gmap string Value)
  : gmap string Value := <[k := v]> m.

(** [buildConsoleConfig]. *)
Definition buildConsoleConfig (cfg : ConsoleConfig) : gmap string Value :=
  if negb (Console_Enabled cfg) then
    mapLit [("enabled", VBool false)]
  else
    let result := mapLit [("enabled", VBool true);
                          ("version", VString (Console_Version cfg))] in
    if Ingress_Enabled (Ingress cfg) then
      mapSet "ingress" (VMap (mapLit [
        ("enabled", VBool true);
        ("host", VString (Host (Ingress cfg)));
        ("className", VString (ClassName (Ingress cfg)));
        ("tls", VBool (TLS (Ingress cfg)));
        ("tlsSecretName", VString (TLSSecretName (Ingress cfg)))])) result
    else result.

(** [buildProviderConfigUnstructured].  The Harvester and Nutanix cases
    dereference the provider's settings pointer: on a nil pointer the Go
    code panics, which is [None] here. *)
Definition buildProviderConfigUnstructured (cfg : Config) : option Unstructured :=
  let spec := mapLit [("provider", VString (Provider cfg))] in
  spec ←
    (if streq (Provider cfg) "harvester" then
       h ← Harvester (ProviderConfig cfg);
       let spec := mapSet "credentialsRef" (VMap (mapLit [
         ("name", VString (Name (Cluster cfg) +:+ "-harvester-credentials"));
         ("namespace", VString butlerNamespace);
         ("key", VString "kubeconfig")])) spec in
       Some (mapSet "harvester" (VMap (mapLit [
         ("namespace", VString (Harvester_Namespace h));
         ("networkName", VString (NetworkName h));
         ("imageName", VString (ImageName h))])) spec)
     else if streq (Provider cfg) "nutanix" then
       n ← Nutanix (ProviderConfig cfg);
       let spec := mapSet "credentialsRef" (VMap (mapLit [
         ("name", VString (Name (Cluster cfg) +:+ "-nutanix-credentials"));
         ("namespace", VString butlerNamespace)])) spec in
       Some (mapSet "nutanix" (VMap (mapLit [
         ("endpoint", VString (Nutanix_Endpoint n));
         ("port", VInt (Port n));
         ("insecure", VBool (Nutanix_Insecure n));
         ("clusterUUID", VString (ClusterUUID n));
         ("subnetUUID", VString (SubnetUUID n));
         ("imageUUID", VString (ImageUUID n))])) spec)
     else Some spec);
  Some {| Object := mapLit [
    ("apiVersion", VString (butlerAPIGroup +:+ "/" +:+ butlerAPIVersion));
    ("kind", VString "ProviderConfig");
    ("metadata", VMap (mapLit [
      ("name", VString (Name (Cluster cfg) +:+ "-provider"));
      ("namespace", VString butlerNamespace)]));
    ("spec", VMap spec)] |}.

(** The body of the loop over [cfg.Cluster.Workers.ExtraDisks]. *)
Definition extraDiskValue (disk : DiskConfig) : Value :=
  let d := mapLit [("sizeGB", VInt (SizeGB disk))] in
  VMap (if negb (streq (StorageClass disk) "")
        then mapSet "storageClass" (VString (StorageClass disk)) d
        else d).

(** [buildClusterBootstrapUnstructured]. *)
Definition buildClusterBootstrapUnstructured (cfg : Config) : Unstructured :=
  (* Build cluster spec based on topology *)
  let clusterSpec := mapLit [
    ("name", VString (Name (Cluster cfg)));
    ("topology", VString (Topology (Cluster cfg)));
    ("controlPlane", VMap (mapLit [
      ("replicas", VInt (Replicas (ControlPlane (Cluster cfg))));
      ("cpu", VInt (CPU (ControlPlane (Cluster cfg))));
      ("memoryMB", VInt (MemoryMB (ControlPlane (Cluster cfg))));
      ("diskGB", VInt (DiskGB (ControlPlane (Cluster cfg))))]))] in
  (* Only include workers for non-single-node topologies *)
  let clusterSpec :=
    if negb (IsSingleNode cfg) && (0 <? Replicas (Workers (Cluster cfg))) then
      let extraDisks := extraDiskValue <$> ExtraDisks (Workers (Cluster cfg)) in
      let workersSpec := mapLit [
        ("replicas", VInt (Replicas (Workers (Cluster cfg))));
        ("cpu", VInt (CPU (Workers (Cluster cfg))));
        ("memoryMB", VInt (MemoryMB (Workers (Cluster cfg))));
        ("diskGB", VInt (DiskGB (Workers (Cluster cfg))))] in
      let workersSpec :=
        if (0 <? length extraDisks)%nat
        then mapSet "extraDisks" (VList extraDisks) workersSpec
        else workersSpec in
      mapSet "workers" (VMap workersSpec) clusterSpec
    else clusterSpec in
  {| Object := mapLit [
    ("apiVersion", VString (butlerAPIGroup +:+ "/" +:+ butlerAPIVersion));
    ("kind", VString "ClusterBootstrap");
    ("metadata", VMap (mapLit [
      ("name", VString (Name (Cluster cfg)));
      ("namespace", VString butlerNamespace)]));
    ("spec", VMap (mapLit [
      ("provider", VString (Provider cfg));
      ("providerRef", VMap (mapLit [
        ("name", VString (Name (Cluster cfg) +:+ "-provider"));
        ("namespace", VString butlerNamespace)]));
      ("cluster", VMap clusterSpec);
      ("network", VMap (mapLit [
        ("podCIDR", VString (PodCIDR (Network cfg)));
        ("serviceCIDR", VString (ServiceCIDR (Network cfg)));
        ("vip", VString (VIP (Network cfg)))]));
      ("talos", VMap (mapLit [
        ("version", VString (Talos_Version (Talos cfg)));
        ("schematic", VString (Schematic (Talos cfg)))]));
      ("addons", VMap (mapLit [
        ("cni", VMap (mapLit [("type", VString (CNI_Type (Addons cfg)))]));
        ("storage", VMap (mapLit [("type", VString (Storage_Type (Addons cfg)))]));
        ("loadBalancer", VMap (mapLit [
          ("type", VString (LoadBalancer_Type (LoadBalancer (Addons cfg))));
          ("addressPool", VString (AddressPool (LoadBalancer (Addons cfg))))]));
        ("gitOps", VMap (mapLit [("type", VString (GitOps_Type (Addons cfg)))]));
        ("capi", VMap (mapLit [
          ("enabled", VBool (CAPI_Enabled (CAPI (Addons cfg))));
          ("version", VString (CAPI_Version (CAPI (Addons cfg))))]));
        ("butlerController", VMap (mapLit [
          ("enabled", VBool (ButlerController_Enabled (ButlerController (Addons cfg))));
          ("version", VString (ButlerController_Version (ButlerController (Addons cfg))));
          ("image", VString (ButlerController_Image (ButlerController (Addons cfg))))]));
        ("console", VMap (buildConsoleConfig (Console (Addons cfg))))]))]))] |}.

(** [unstructured.NestedMap]-style access: the map under a path of keys. *)
Fixpoint nestedMap (m : gmap string Value) (path : list string)
  : option (gmap string Value) :=
  match path with
  | [] => Some m
  | k :: rest => m' ← asMap (m !! k); nestedMap m' rest
  end.

(** The [spec.cluster] block of a ClusterBootstrap object. *)
Definition clusterSpecOf (cb : Unstructured) : option (gmap string Value) :=
  nestedMap (Object cb) ["spec"; "cluster"].

(** The [controlPlane] block written by [buildClusterBootstrapUnstructured]. *)
Definition controlPlaneBlock (cfg : Config) : gmap string Value :=
  mapLit [("replicas", VInt (Replicas (ControlPlane (Cluster cfg))));
          ("cpu", VInt (CPU (ControlPlane (Cluster cfg))));
          ("memoryMB", VInt (MemoryMB (ControlPlane (Cluster cfg))));
          ("diskGB", VInt (DiskGB (ControlPlane (Cluster cfg))))].

(** ** Object accessors of [k8s.io/apimachinery]

    The accessors of [unstructured.Unstructured] the code calls, following
    the library: a getter reads a nested string and yields the empty string
    when the path is missing or holds something else. *)

Definition nestedString (m : gmap string Value) (path : list string) (k : string)
  : string :=
  match nestedMap m path with
  | Some m' => stringOrZero (m' !! k)
  | None => ""
  end.

Definition GetKind (u : Unstructured) : string := nestedString (Object u) [] "kind".
Definition GetAPIVersion (u : Unstructured) : string :=
  nestedString (Object u) [] "apiVersion".
Definition GetName (u : Unstructured) : string :=
  nestedString (Object u) ["metadata"] "name".
Definition GetNamespace (u : Unstructured) : string :=
  nestedString (Object u) ["metadata"] "namespace".
Definition GetResourceVersion (u : Unstructured) : string :=
  nestedString (Object u) ["metadata"] "resourceVersion".

(** [SetResourceVersion]: writes [metadata.resourceVersion], creating the
    [metadata] map when the object has none; when [metadata] is not a map
    the library's setter fails and the object stays as it is. *)
Definition SetResourceVersion (rv : string) (u : Unstructured) : Unstructured :=
  match Object u !! "metadata" with
  | None =>
      {| Object := mapSet "metadata"
                     (VMap (mapLit [("resourceVersion", VString rv)])) (Object u) |}
  | Some (VMap md) =>
      {| Object := mapSet "metadata"
                     (VMap (mapSet "resourceVersion" (VString rv) md)) (Object u) |}
  | Some _ => u
  end.

Record GroupVersionKind := { gvk_Group : string; gvk_Version : string; Kind : string }.
Record GroupVersionResource := { Group : string; Version : string; Resource : string }.

Global Instance GroupVersionResource_eq_dec : EqDecision GroupVersionResource.
Proof. solve_decision. Defined.

Global Instance GroupVersionResource_countable : Countable GroupVersionResource.
Proof.
  refine (inj_countable' (fun r => (Group r, Version r, Resource r))
            (fun t => {| Group := t.1.1; Version := t.1.2; Resource := t.2 |}) _).
  by intros [].
Defined.

(** Splits a string at its first [/]. *)
Fixpoint splitSlash (s : string) : option (string * string) :=
  match s with
  | EmptyString => None
  | String c rest =>
      if Ascii.eqb c "/" then Some ("", rest)
      else '(a, b) ← splitSlash rest; Some (String c a, b)
  end.

(** [schema.FromAPIVersionAndKind] on the object's [apiVersion] and [kind]:
    [group/version], a bare [version], or neither when the version string
    has more than one [/]. *)
Definition ObjectGroupVersionKind (u : Unstructured) : GroupVersionKind :=
  let kind := GetKind u in
  match splitSlash (GetAPIVersion u) with
  | None => {| gvk_Group := ""; gvk_Version := GetAPIVersion u; Kind := kind |}
  | Some (g, v) =>
      match splitSlash v with
      | None => {| gvk_Group := g; gvk_Version := v; Kind := kind |}
      | Some _ => {| gvk_Group := ""; gvk_Version := ""; Kind := kind |}
      end
  end.

(** [strings.ToLower] on the ASCII letters a kind consists of. *)
Definition lowerAscii (c : ascii) : ascii :=
  let n := nat_of_ascii c in
  if ((65 <=? n) && (n <=? 90))%nat then ascii_of_nat (n + 32) else c.

Fixpoint ToLower (s : string) : string :=
  match s with
  | EmptyString => EmptyString
  | String c rest => String (lowerAscii c) (ToLower rest)
  end.

(** ** Manifest deployer ([deployer.go]) *)

(** The table of [gvkToGVR]. *)
Definition kindToResource : gmap string string :=
  list_to_map [
    ("Namespace", "namespaces");
    ("ServiceAccount", "serviceaccounts");
    ("ClusterRole", "clusterroles");
    ("ClusterRoleBinding", "clusterrolebindings");
    ("Role", "roles");
    ("RoleBinding", "rolebindings");
    ("Deployment", "deployments");
    ("Service", "services");
    ("ConfigMap", "configmaps");
    ("Secret", "secrets");
    ("CustomResourceDefinition", "customresourcedefinitions")].

(** [gvkToGVR]. *)
Definition gvkToGVR (gvk : GroupVersionKind) : GroupVersionResource :=
  let resource :=
    match kindToResource !! Kind gvk with
    | Some r => r
    | None => ToLower (Kind gvk) +:+ "s"
    end in
  {| Group := gvk_Group gvk; Version := gvk_Version gvk; Resource := resource |}.

(** ** The API server behind the dynamic client

    The substrate the deployer and the orchestrator talk to.  Objects live
    under (resource, namespace, name); the server stamps a new
    [resourceVersion] on every write and refuses an update whose
    [resourceVersion] is not the stored one.  A request can also fail for
    reasons outside the store (network, admission, cancelled context): the
    [faults] script gives, request by request, the injected failure if any.
    Every request is recorded in [actions]. *)

Inductive Action : Type :=
| ActCreate (k : GroupVersionResource * string * string)
| ActGet (k : GroupVersionResource * string * string)
| ActUpdate (k : GroupVersionResource * string * string) (rv : string).

Record APIServer := {
  objects : gmap (GroupVersionResource * string * string) Unstructured;
  revision : N;
  faults : list (option error);
  actions : list Action;
}.

(** [dynamicClient.Resource(gvr)] and [dynamicClient.Resource(gvr).Namespace(ns)]. *)
Inductive ResourceInterface : Type :=
| ClusterScoped (gvr : GroupVersionResource)
| Namespaced (gvr : GroupVersionResource) (ns : string).

Definition keyOf (c : ResourceInterface) (name : string)
  : GroupVersionResource * string * string :=
  match c with
  | ClusterScoped gvr => (gvr, "", name)
  | Namespaced gvr ns => (gvr, ns, name)
  end.

(** Records the request and takes the next entry of the fault script. *)
Definition receive (a : Action) (s : APIServer) : APIServer * option error :=
  ({| objects := objects s; revision := revision s;
      faults := tail (faults s); actions := actions s ++ [a] |},
   mjoin (head (faults s))).

(** Stores [obj] under [k] with a fresh [resourceVersion]. *)
Definition store (k : GroupVersionResource * string * string) (obj : Unstructured)
    (s : APIServer) : APIServer * Unstructured :=
  let stamped := SetResourceVersion (pretty (N.succ (revision s))) obj in
  ({| objects := <[k := stamped]> (objects s); revision := N.succ (revision s);
      faults := faults s; actions := actions s |}, stamped).

Definition Create (c : ResourceInterface) (obj : Unstructured) (s : APIServer)
  : APIServer * result Unstructured :=
  let k := keyOf c (GetName obj) in
  let '(s, fault) := receive (ActCreate k) s in
  match fault with
  | Some e => (s, Err e)
  | None =>
      match objects s !! k with
      | Some _ => (s, Err (StatusError ReasonAlreadyExists))
      | None => let '(s, stamped) := store k obj s in (s, Ok stamped)
      end
  end.

Definition Get (c : ResourceInterface) (name : string) (s : APIServer)
  : APIServer * result Unstructured :=
  let k := keyOf c name in
  let '(s, fault) := receive (ActGet k) s in
  match fault with
  | Some e => (s, Err e)
  | None =>
      match objects s !! k with
      | Some obj => (s, Ok obj)
      | None => (s, Err (StatusError ReasonNotFound))
      end
  end.

Definition Update (c : ResourceInterface) (obj : Unstructured) (s : APIServer)
  : APIServer * result Unstructured :=
  let k := keyOf c (GetName obj) in
  let '(s, fault) := receive (ActUpdate k (GetResourceVersion obj)) s in
  match fault with
  | Some e => (s, Err e)
  | None =>
      match objects s !! k with
      | None => (s, Err (StatusError ReasonNotFound))
      | Some old =>
          if streq (GetResourceVersion obj) (GetResourceVersion old)
          then let '(s, stamped) := store k obj s in (s, Ok stamped)
          else (s, Err (StatusError ReasonConflict))
      end
  end.

(** [applyResource]: creates or updates a single resource.  The result is
    the Go [error], [None] for [nil]. *)
Definition applyResource (obj : Unstructured) (s : APIServer)
  : APIServer * option error :=
  let gvk := ObjectGroupVersionKind obj in
  let gvr := gvkToGVR gvk in
  let client :=
    if negb (streq (GetNamespace obj) "")
    then Namespaced gvr (GetNamespace obj)
    else ClusterScoped gvr in
  (* Try to create first *)
  let '(s, r) := Create client obj s in
  match r with
  | Ok _ => (s, None)
  | Err err =>
      (* If already exists, update *)
      if IsAlreadyExists err then
        (* Get existing to preserve resourceVersion *)
        let '(s, r) := Get client (GetName obj) s in
        match r with
        | Err getErr => (s, Some (Wrap "getting existing resource" getErr))
        | Ok existing =>
            let obj := SetResourceVersion (GetResourceVersion existing) obj in
            let '(s, r) := Update client obj s in
            match r with
            | Err updateErr => (s, Some (Wrap "updating resource" updateErr))
            | Ok _ => (s, None)
            end
        end
      else (s, Some (Wrap "creating resource" err))
  end.

(** The key [applyResource] addresses for [obj]. *)
Definition applyKey (obj : Unstructured) : GroupVersionResource * string * string :=
  (gvkToGVR (ObjectGroupVersionKind obj), GetNamespace obj, GetName obj).

(** ** Submitting the intent objects ([orchestrator.go]) *)

Definition clusterBootstrapGVR : GroupVersionResource :=
  {| Group := butlerAPIGroup; Version := butlerAPIVersion;
     Resource := "clusterbootstraps" |}.

Definition providerConfigGVR : GroupVersionResource :=
  {| Group := butlerAPIGroup; Version := butlerAPIVersion;
     Resource := "providerconfigs" |}.

(** [createProviderConfig]; [None] when building the object panics. *)
Definition createProviderConfig (cfg : Config) (s : APIServer)
  : option (APIServer * option error) :=
  pc ← buildProviderConfigUnstructured cfg;
  let '(s, r) := Create (Namespaced providerConfigGVR butlerNamespace) pc s in
  match r with
  | Err err => Some (s, Some (Wrap "creating ProviderConfig" err))
  | Ok _ => Some (s, None)
  end.

(** [createClusterBootstrap]. *)
Definition createClusterBootstrap (cfg : Config) (s : APIServer)
  : APIServer * option error :=
  let cb := buildClusterBootstrapUnstructured cfg in
  let '(s, r) := Create (Namespaced clusterBootstrapGVR butlerNamespace) cb s in
  match r with
  | Err err => (s, Some (Wrap "creating ClusterBootstrap" err))
  | Ok _ => (s, None)
  end.

(** ** Polling loops

    A loop that polls the API server does not terminate on its own, so
    it is run against a script: what the environment shows the loop at
    each iteration.  The loop consumes one script entry per iteration
    and is [StillPolling] when the script ends before the loop returns.
    What the loop does to the outside is recorded as a trace. *)

Inductive Event : Type :=
| EvCtxCheck                      (* non-blocking look at ctx.Done() *)
| EvWait                          (* blocked until the ticker fires or ctx is done *)
| EvGet (k : GroupVersionResource * string * string)   (* a Get request *)
| EvPhaseChanged (phase : string).                     (* the "phase changed" log line *)

Inductive Polling (R : Type) : Type :=
| Returned (r : R)
| StillPolling.
Arguments Returned {R} r.
Arguments StillPolling {R}.

(** One iteration of [WaitForCRDs] / [WaitForDeployment] as seen from
    outside: the context's error if the context is done by then, and the
    answer to the Get request. *)
Record Poll := {
  ctxErr : option error;
  response : result Unstructured;
}.

(** [unstructured.NestedSlice]: found only when the path leads to a list. *)
Definition nestedSlice (m : gmap string Value) (path : list string) (k : string)
  : option (list Value) :=
  m' ← nestedMap m path; asList (m' !! k).

(** [unstructured.NestedInt64] with its error and found flag dropped: the
    zero value unless the path leads to an integer. *)
Definition nestedInt64 (m : gmap string Value) (path : list string) (k : string) : Z :=
  match nestedMap m path with
  | Some m' => match m' !! k with Some (VInt n) => n | _ => 0 end
  | None => 0
  end.

(** The test inside the loop over [conditions]. *)
Definition isEstablished (c : Value) : bool :=
  match c with
  | VMap cond =>
      match cond !! "type", cond !! "status" with
      | Some (VString t), Some (VString st) =>
          streq t "Established" && streq st "True"
      | _, _ => false
      end
  | _ => false
  end.

Definition crdGVR : GroupVersionResource :=
  {| Group := "apiextensions.k8s.io"; Version := "v1";
     Resource := "customresourcedefinitions" |}.

Definition deployGVR : GroupVersionResource :=
  {| Group := "apps"; Version := "v1"; Resource := "deployments" |}.

(** The inner [for] of [WaitForCRDs] for one name: [Ok rest] is the
    [break] once the definition is established, with the part of the
    script not yet consumed; [Err e] is [return ctx.Err()]. *)
Fixpoint awaitEstablished (name : string) (script : list Poll)
  : list Event * Polling (result (list Poll)) :=
  match script with
  | [] => ([], StillPolling)
  | p :: rest =>
      match ctxErr p with
      | Some e => ([EvCtxCheck], Returned (Err e))
      | None =>
          let again :=
            let '(tr, r) := awaitEstablished name rest in
            (EvCtxCheck :: EvGet (crdGVR, "", name) :: tr, r) in
          match response p with
          | Err _ => again
          | Ok crd =>
              match nestedSlice (Object crd) ["status"] "conditions" with
              | None => again
              | Some conditions =>
                  if existsb isEstablished conditions
                  then ([EvCtxCheck; EvGet (crdGVR, "", name)], Returned (Ok rest))
                  else again
              end
          end
      end
  end.

(** [WaitForCRDs]: the outer loop over the names. *)
Fixpoint WaitForCRDs (names : list string) (script : list Poll)
  : list Event * Polling (option error) :=
  match names with
  | [] => ([], Returned None)
  | name :: names' =>
      match awaitEstablished name script with
      | (tr, StillPolling) => (tr, StillPolling)
      | (tr, Returned (Err e)) => (tr, Returned (Some e))
      | (tr, Returned (Ok rest)) =>
          let '(tr', r) := WaitForCRDs names' rest in ((tr ++ tr')%list, r)
      end
  end.

(** [WaitForDeployment]. *)
Fixpoint WaitForDeployment (namespace name : string) (script : list Poll)
  : list Event * Polling (option error) :=
  match script with
  | [] => ([], StillPolling)
  | p :: rest =>
      match ctxErr p with
      | Some e => ([EvCtxCheck], Returned (Some e))
      | None =>
          let again :=
            let '(tr, r) := WaitForDeployment namespace name rest in
            (EvCtxCheck :: EvGet (deployGVR, namespace, name) :: tr, r) in
          match response p with
          | Err _ => again
          | Ok deploy =>
              let replicas := nestedInt64 (Object deploy) ["spec"] "replicas" in
              let readyReplicas :=
                nestedInt64 (Object deploy) ["status"] "readyReplicas" in
              if (replicas <=? readyReplicas) && (0 <? replicas)
              then ([EvCtxCheck; EvGet (deployGVR, namespace, name)], Returned None)
              else again
          end
      end
  end.

(** A trace is throttled when every Get request after the first one has a
    blocking wait between it and the Get request before it. *)
Fixpoint throttledFrom (waited : bool) (tr : list Event) : bool :=
  match tr with
  | [] => true
  | EvGet _ :: tr' => waited && throttledFrom false tr'
  | EvWait :: tr' => throttledFrom true tr'
  | _ :: tr' => throttledFrom waited tr'
  end.

Definition throttled (tr : list Event) : bool := throttledFrom true tr.



(** ** Bootstrap watcher ([watchBootstrap]) *)

(** A Go [[]byte]. *)
Definition bytes := list Byte.byte.

(** [clusterCredentials]. *)
Record clusterCredentials := {
  kubeconfig : bytes;
  talosconfig : bytes;
  controlPlaneIPs : list string;
  consoleURL : string;
}.

(** What wakes the [select] of [watchBootstrap]: the context being done,
    or a tick, after which the Get request is answered. *)
Inductive Wake : Type :=
| CtxDone (e : error)
| Tick (response : result Unstructured).

(** The loop over [status.machines]: appends the address of every entry
    that is a map with role [control-plane] and a non-empty [ipAddress]. *)
Definition collectControlPlaneIPs (machines : list Value) : list string :=
  fold_left (fun controlPlaneIPs m =>
    match m with
    | VMap machine =>
        if streq (stringOrZero (machine !! "role")) "control-plane" then
          let ip := stringOrZero (machine !! "ipAddress") in
          if negb (streq ip "") then (controlPlaneIPs ++ [ip])%list
          else controlPlaneIPs
        else controlPlaneIPs
    | _ => controlPlaneIPs
    end) machines [].



Section Watcher.
(** [base64.StdEncoding.DecodeString] of the Go standard library. *)
Variable DecodeString : string -> result bytes.

(** The body of the [for] loop of [watchBootstrap], with the loop
    variable [lastPhase]. *)
Fixpoint watchLoop (clusterName lastPhase : string) (script : list Wake)
  : list Event * Polling (result clusterCredentials) :=
  match script with
  | [] => ([], StillPolling)
  | CtxDone e :: _ => ([EvWait], Returned (Err e))
  | Tick resp :: rest =>
      let get := EvGet (clusterBootstrapGVR, butlerNamespace, clusterName) in
      let continue lastPhase log :=
        let '(tr, r) := watchLoop clusterName lastPhase rest in
        ((EvWait :: get :: log ++ tr)%list, r) in
      match resp with
      | Err _ => continue lastPhase []
      | Ok cb =>
          (* Extract status *)
          match asMap (Object cb !! "status") with
          | None => continue lastPhase []
          | Some status =>
              let phase := stringOrZero (status !! "phase") in
              let log := if negb (streq phase lastPhase)
                         then [EvPhaseChanged phase] else [] in
              let lastPhase := if negb (streq phase lastPhase)
                               then phase else lastPhase in
              (* Collect control plane IPs from machine status *)
              let controlPlaneIPs :=
                match asList (status !! "machines") with
                | Some machines => collectControlPlaneIPs machines
                | None => []
                end in
              let done r := ((EvWait :: get :: log)%list, Returned r) in
              if streq phase "Ready" then
                match DecodeString (stringOrZero (status !! "kubeconfig")) with
                | Err err => done (Err (Wrap "decoding kubeconfig" err))
                | Ok kubeconfigBytes =>
                    match DecodeString (stringOrZero (status !! "talosconfig")) with
                    | Err err => done (Err (Wrap "decoding talosconfig" err))
                    | Ok talosconfigBytes =>
                        done (Ok {| kubeconfig := kubeconfigBytes;
                                    talosconfig := talosconfigBytes;
                                    controlPlaneIPs := controlPlaneIPs;
                                    consoleURL := stringOrZero (status !! "consoleURL") |})
                    end
                end
              else if streq phase "Failed" then
                let reason := stringOrZero (status !! "failureReason") in
                let message := stringOrZero (status !! "failureMessage") in
                done (Err (ErrorText ("bootstrap failed: " +:+ reason
                                      +:+ " - " +:+ message)))
              else continue lastPhase log
          end
      end
  end.

(** [watchBootstrap]. *)
Definition watchBootstrap (cfg : Config) (script : list Wake)
  : list Event * Polling (result clusterCredentials) :=
  watchLoop (Name (Cluster cfg)) "" script.
End Watcher.

(** A wake-up at which the watcher keeps polling: a failed Get, an object
    without status, or a phase other than [Ready] and [Failed]. *)
Definition keepsPolling (w : Wake) : bool :=
  match w with
  | CtxDone _ => false
  | Tick (Err _) => true
  | Tick (Ok cb) =>
      match asMap (Object cb !! "status") with
      | None => true
      | Some status =>
          negb (streq (stringOrZero (status !! "phase")) "Ready")
          && negb (streq (stringOrZero (status !! "phase")) "Failed")
      end
  end.

(** A ClusterBootstrap object as the controller publishes it: only its
    [status] block matters to the watcher. *)
Definition withStatus (status : gmap string Value) : Unstructured :=
  {| Object := mapLit [("status", VMap status)] |}.

(** ** Credential persister ([saveClusterCredentials]) *)

Section Persist.
(** [yaml.Unmarshal] into a [map[string]interface{}] and [yaml.Marshal]
    of [sigs.k8s.io/yaml]. *)
Variable yaml_Unmarshal : bytes -> result (gmap string Value).
Variable yaml_Marshal : gmap string Value -> result bytes.

(** The loop over [existingNodes]: the entries that are strings. *)
Definition stringEntries (existingNodes : list Value) : list string :=
  fold_left (fun allNodes n =>
    match n with
    | VString s => (allNodes ++ [s])%list
    | _ => allNodes
    end) existingNodes [].

(** The repair of one context: the block guarded by
    [len(endpoints) == 0]. *)
Definition repairContext (controlPlaneIPs : list string)
    (contextConfig : gmap string Value) : gmap string Value :=
  (* Add control plane IPs as endpoints *)
  let contextConfig := mapSet "endpoints" (stringsValue controlPlaneIPs) contextConfig in
  (* Also add all IPs as nodes for convenience *)
  let allNodes :=
    match asList (contextConfig !! "nodes") with
    | Some existingNodes => stringEntries existingNodes
    | None => []
    end in
  if (length allNodes =? 0)%nat
  then mapSet "nodes" (stringsValue controlPlaneIPs) contextConfig
  else contextConfig.

(** [fixTalosconfigEndpoints].  [contextConfig] is the map stored inside
    [contexts], itself stored inside [config]: a write to it is a write
    to [config], which is what gets marshalled. *)
Definition fixTalosconfigEndpoints (talosconfig : bytes) (clusterName : string)
    (controlPlaneIPs : list string) : bytes :=
  if (length controlPlaneIPs =? 0)%nat then talosconfig else
  (* Parse the talosconfig as a map *)
  match yaml_Unmarshal talosconfig with
  | Err _ => talosconfig
  | Ok config =>
      (* Navigate to contexts.<clusterName>.endpoints *)
      match asMap (config !! "contexts") with
      | None => talosconfig
      | Some contexts =>
          match asMap (contexts !! clusterName) with
          | None => talosconfig
          | Some contextConfig =>
              (* Check if endpoints is empty or missing *)
              let endpoints := listOrNil (contextConfig !! "endpoints") in
              let config :=
                if (length endpoints =? 0)%nat then
                  mapSet "contexts"
                    (VMap (mapSet clusterName
                             (VMap (repairContext controlPlaneIPs contextConfig))
                             contexts))
                    config
                else config in
              (* Marshal back to YAML *)
              match yaml_Marshal config with
              | Err _ => talosconfig
              | Ok fixed => fixed
              end
          end
      end
  end.

(** The environment of [saveClusterCredentials]: the home directory,
    path joining, and whether creating the directory or writing a file
    fails. *)
Variable UserHomeDir : result string.
Variable filepath_Join : string -> string -> string.
Variable MkdirAll : string -> option error.
Variable WriteFile_error : string -> option error.

(** [saveClusterCredentials] on a file system seen as a map from paths
    to contents. *)
Definition saveClusterCredentials (clusterName : string) (creds : clusterCredentials)
    (fs : gmap string bytes) : gmap string bytes * option error :=
  match UserHomeDir with
  | Err err => (fs, Some (Wrap "getting home directory" err))
  | Ok home =>
      let butlerDir := filepath_Join home ".butler" in
      match MkdirAll butlerDir with
      | Some err => (fs, Some (Wrap "creating .butler directory" err))
      | None =>
          (* Save kubeconfig *)
          let kubeconfigPath := filepath_Join butlerDir (clusterName +:+ "-kubeconfig") in
          match WriteFile_error kubeconfigPath with
          | Some err => (fs, Some (Wrap "writing kubeconfig" err))
          | None =>
              let fs := <[kubeconfigPath := kubeconfig creds]> fs in
              (* Fix talosconfig endpoints and save *)
              let talosconfig :=
                fixTalosconfigEndpoints (talosconfig creds) clusterName
                  (controlPlaneIPs creds) in
              let talosconfigPath :=
                filepath_Join butlerDir (clusterName +:+ "-talosconfig") in
              match WriteFile_error talosconfigPath with
              | Some err => (fs, Some (Wrap "writing talosconfig" err))
              | None => (<[talosconfigPath := talosconfig]> fs, None)
              end
          end
      end
  end.
End Persist.

(** The [endpoints] list of a cluster's context in a parsed talosconfig;
    the empty list when the list, the context or [contexts] is missing. *)
Definition endpointsOf (config : gmap string Value) (clusterName : string)
  : list Value :=
  match nestedMap config ["contexts"; clusterName] with
  | Some contextConfig => listOrNil (contextConfig !! "endpoints")
  | None => []
  end.

(** The context of a cluster in a parsed talosconfig. *)
Definition contextOf (config : gmap string Value) (clusterName : string)
  : option (gmap string Value) :=
  nestedMap config ["contexts"; clusterName].

(** ** Orchestrator ([Run], [dryRun]) *)

Record Options := {
  DryRun : bool;
  SkipCleanup : bool;
  Timeout : Z;
  LocalDev : bool;
  RepoRoot : string;
}.

(** A line written to standard output by [dryRun].  A machine request
    line is kept structured; [renderLine] gives its text. *)
Inductive Line : Type :=
| Text (s : string)
| Yaml (obj : gmap string Value)      (* string(yaml.Marshal(obj)) *)
| ControlPlaneRequest (cluster : string) (i cpu memoryMB : int32)
| WorkerRequest (cluster : string) (i cpu memoryMB : int32).

(** [getHostAliases]. *)
Definition getHostAliases (cfg : Config) : list string :=
  if streq (Provider cfg) "nutanix" then
    match Nutanix (ProviderConfig cfg) with
    | Some n => Nutanix_HostAliases n
    | None => []
    end
  else if streq (Provider cfg) "proxmox" then
    match Proxmox (ProviderConfig cfg) with
    | Some p => Proxmox_HostAliases p
    | None => []
    end
  else [].

(** [for i := int32(0); i < n; i++]: the values [i] takes. *)
Definition upto (n : int32) : list int32 := seqZ 0 n.

(** [dryRun]: the lines it prints, given the CA certificates
    [findCACertificates] discovers.  [None] is the panic of
    [buildProviderConfigUnstructured] on a nil settings pointer; otherwise
    the function returns [nil]. *)
Definition dryRun (caCerts : list string) (cfg : Config) : option (list Line) :=
  (* Show topology information *)
  let topology :=
    [Text ""; Text "--- Cluster Topology ---";
     Text ("Topology: " +:+ Topology (Cluster cfg))] ++
    (if IsSingleNode cfg
     then [Text "Mode: Single control plane node running workloads (no workers)";
           Text "Note: Control plane replicas forced to 1, workers ignored"]
     else [Text "Mode: HA with separate control plane and workers"]) in
  (* Show ProviderConfig *)
  pc ← buildProviderConfigUnstructured cfg;
  let providerConfig := [Text ""; Text "--- ProviderConfig ---"; Yaml (Object pc)] in
  (* Show ClusterBootstrap *)
  let cb := buildClusterBootstrapUnstructured cfg in
  let clusterBootstrap := [Text ""; Text "--- ClusterBootstrap ---"; Yaml (Object cb)] in
  (* Show MachineRequests that would be created (topology-aware) *)
  let machineRequests :=
    [Text ""; Text "--- MachineRequests (created by controller) ---"] ++
    ((fun i => ControlPlaneRequest (Name (Cluster cfg)) i
                 (CPU (ControlPlane (Cluster cfg)))
                 (MemoryMB (ControlPlane (Cluster cfg))))
       <$> upto (Replicas (ControlPlane (Cluster cfg)))) ++
    (* Only show workers for non-single-node topologies *)
    (if negb (IsSingleNode cfg)
     then (fun i => WorkerRequest (Name (Cluster cfg)) i
                      (CPU (Workers (Cluster cfg)))
                      (MemoryMB (Workers (Cluster cfg))))
            <$> upto (Replicas (Workers (Cluster cfg)))
     else [Text "(no workers - single-node topology)"]) in
  (* Show CA certificates that would be injected *)
  let certificates :=
    if (0 <? length caCerts)%nat
    then [Text ""; Text "--- CA Certificates (will be injected into KIND) ---"] ++
         ((fun cert => Text ("- " +:+ cert)) <$> caCerts)
    else [] in
  (* Show host aliases that would be injected *)
  let hostAliases := getHostAliases cfg in
  let aliases :=
    if (0 <? length hostAliases)%nat
    then [Text "";
          Text "--- Host Aliases (will be injected into KIND /etc/hosts) ---"] ++
         ((fun alias => Text ("- " +:+ alias)) <$> hostAliases)
    else [] in
  (* Show console configuration *)
  let console :=
    if Console_Enabled (Console (Addons cfg)) then
      [Text ""; Text "--- Butler Console ---";
       Text ("Version: " +:+ Console_Version (Console (Addons cfg)))] ++
      (if Ingress_Enabled (Ingress (Console (Addons cfg))) then
         let scheme := if TLS (Ingress (Console (Addons cfg))) then "https" else "http" in
         [Text ("URL: " +:+ scheme +:+ "://" +:+ Host (Ingress (Console (Addons cfg))))] ++
         (if negb (streq (ClassName (Ingress (Console (Addons cfg)))) "")
          then [Text ("Ingress Class: " +:+ ClassName (Ingress (Console (Addons cfg))))]
          else [])
       else [Text "Access: via port-forward (no ingress configured)"])
    else [] in
  Some (topology ++ providerConfig ++ clusterBootstrap ++ machineRequests
        ++ certificates ++ aliases ++ console)%list.

(** The text of a line, given the YAML encoder. *)
Definition renderLine (marshal : gmap string Value -> string) (l : Line) : string :=
  match l with
  | Text s => s
  | Yaml obj => marshal obj
  | ControlPlaneRequest cluster i cpu memoryMB =>
      "- " +:+ cluster +:+ "-cp-" +:+ pretty i +:+ " (control-plane, "
      +:+ pretty cpu +:+ " CPU, " +:+ pretty memoryMB +:+ " MB RAM)"
  | WorkerRequest cluster i cpu memoryMB =>
      "- " +:+ cluster +:+ "-worker-" +:+ pretty i +:+ " (worker, "
      +:+ pretty cpu +:+ " CPU, " +:+ pretty memoryMB +:+ " MB RAM)"
  end.

Definition isControlPlaneRequest (l : Line) : bool :=
  match l with ControlPlaneRequest _ _ _ _ => true | _ => false end.

Definition isWorkerRequest (l : Line) : bool :=
  match l with WorkerRequest _ _ _ _ => true | _ => false end.

(** What [Run] does to the outside, phase by phase. *)
Inductive Step : Type :=
| PrintLine (l : Line)                 (* a line on standard output *)
| CreateKINDCluster                (* substrate creation *)
| DeleteKINDCluster                (* the deferred cleanup *)
| InjectHostAliases
| BuildAndLoadImages
| CreateClients
| DeployCRDs                       (* manifest deployment *)
| CreateNamespaceAndSecrets
| DeployControllers                (* manifest deployment *)
| SubmitProviderConfig             (* intent-object submission *)
| SubmitClusterBootstrap           (* intent-object submission *)
| WatchBootstrap
| SaveClusterCredentials.


(** How each phase of a run turns out: the phases reach outside the
    process, and [Run] only sequences them. *)
Record World := {
  createKINDCluster : result string;
  kindDelete : option error;
  injectHostAliases : option error;
  buildAndLoadImages : option error;
  createClients : option error;
  deployCRDs : option error;
  createNamespaceAndSecrets : option error;
  deployControllers : option error;
  submitProviderConfig : option error;
  submitClusterBootstrap : option error;
  watchOutcome : result clusterCredentials;
  saveOutcome : option error;
  caCertificates : list string;
}.

(** How a Go function leaves: with its returned [error] ([None] for
    [nil]) or by a panic. *)
Inductive Exit : Type :=
| Return (err : option error)
| Panic.

(** A run of fallible phases: the steps taken, and [inl] when a phase
    made the function leave. *)
Definition Phases (A : Type) : Type := list Step * (Exit + A).

Definition phases_ret {A : Type} (a : A) : Phases A := ([], inr a).

Definition phases_bind {A B : Type} (m : Phases A) (k : A -> Phases B) : Phases B :=
  match m with
  | (tr, inl exit) => (tr, inl exit)
  | (tr, inr a) => let '(tr', r) := k a in ((tr ++ tr')%list, r)
  end.

Notation "x <-- m ;; k" := (phases_bind m (fun x => k))
  (at level 100, m at next level, right associativity).
Notation "m ;;; k" := (phases_bind m (fun _ => k))
  (at level 100, right associativity).

(** [if err := phase(...); err != nil { return fmt.Errorf("what: %w", err) }]. *)
Definition phase (step : Step) (outcome : option error) (what : string) : Phases unit :=
  ([step], match outcome with
           | Some err => inl (Return (Some (Wrap what err)))
           | None => inr tt
           end).

(** [Run]. *)
Definition Run (options : Options) (w : World) (cfg : Config) : list Step * Exit :=
  if DryRun options then
    match dryRun (caCertificates w) cfg with
    | Some lines => (PrintLine <$> lines, Return None)
    | None => ([], Panic)
    end
  else
    (* Phase 1: Create KIND cluster *)
    match createKINDCluster w with
    | Err err => ([CreateKINDCluster], Return (Some (Wrap "creating KIND cluster" err)))
    | Ok kubeconfigPath =>
        let '(tr, r) :=
          (* Inject host aliases: a failure is only logged *)
          (if (0 <? length (getHostAliases cfg))%nat
           then ([InjectHostAliases], inr tt) else phases_ret tt) ;;;
          (* Build and load images in local dev mode *)
          (if LocalDev options
           then phase BuildAndLoadImages (buildAndLoadImages w) "building/loading images"
           else phases_ret tt) ;;;
          phase CreateClients (createClients w) "creating clients" ;;;
          phase DeployCRDs (deployCRDs w) "deploying CRDs" ;;;
          phase CreateNamespaceAndSecrets (createNamespaceAndSecrets w)
            "creating namespace/secrets" ;;;
          phase DeployControllers (deployControllers w) "deploying controllers" ;;;
          (match buildProviderConfigUnstructured cfg with
           | None => ([], inl Panic)
           | Some _ => phase SubmitProviderConfig (submitProviderConfig w)
                         "creating ProviderConfig"
           end) ;;;
          phase SubmitClusterBootstrap (submitClusterBootstrap w)
            "creating ClusterBootstrap" ;;;
          creds <-- (match watchOutcome w with
                     | Err err => ([WatchBootstrap],
                                   inl (Return (Some (Wrap "watching bootstrap" err))))
                     | Ok creds => ([WatchBootstrap], inr creds)
                     end) ;;
          phase SaveClusterCredentials (saveOutcome w) "saving cluster credentials" in
        (* the deferred cleanup runs however the body left *)
        let cleanup := if negb (SkipCleanup options) then [DeleteKINDCluster] else [] in
        ((CreateKINDCluster :: tr ++ cleanup)%list,
         match r with
         | inl exit => exit
         | inr _ => Return None
         end)
    end.


(** ** Sample data

    Concrete inputs on which the definitions above are run in the
    examples that follow. *)

Definition samplePool (replicas : int32) : NodePoolConfig :=
  {| Replicas := replicas; CPU := 4; MemoryMB := 8192; DiskGB := 50;
     ExtraDisks := [] |}.

(** A Harvester configuration with the given topology and replica
    counts, everything else left for [LoadConfig] to default. *)
Definition sampleConfig (topology : string) (controlPlane workers : int32) : Config :=
  {| Provider := "harvester";
     Cluster := {| Name := "mgmt"; Topology := topology;
                   ControlPlane := samplePool controlPlane;
                   Workers := samplePool workers |};
     Network := {| PodCIDR := ""; ServiceCIDR := ""; VIP := "10.0.0.10" |};
     Talos := {| Talos_Version := ""; Schematic := "" |};
     Addons := {| CNI_Type := ""; Storage_Type := "";
                  LoadBalancer := {| LoadBalancer_Type := "";
                                     AddressPool := "10.0.0.50-10.0.0.60" |};
                  GitOps_Type := "";
                  CAPI := {| CAPI_Enabled := false; CAPI_Version := "" |};
                  ButlerController := {| ButlerController_Enabled := false;
                                         ButlerController_Version := "";
                                         ButlerController_Image := "" |};
                  Console := {| Console_Enabled := false; Console_Version := "";
                                Ingress := {| Ingress_Enabled := false; Host := "";
                                              ClassName := ""; TLS := false;
                                              TLSSecretName := "" |};
                                Auth := {| AdminPassword := ""; JWTSecret := "" |} |} |};
     ProviderConfig :=
       {| Harvester := Some {| KubeconfigPath := "~/harvester.yaml";
                               Harvester_Namespace := "default";
                               NetworkName := "default/vlan1";
                               ImageName := "default/talos" |};
          Nutanix := None; Proxmox := None |} |}.

(** A manifest document: the [butler-system] namespace. *)
Definition sampleManifest : Unstructured :=
  {| Object := mapLit [
       ("apiVersion", VString "v1");
       ("kind", VString "Namespace");
       ("metadata", VMap (mapLit [("name", VString "butler-system")]))] |}.

(** An API server with nothing stored and no failure scheduled. *)
Definition emptyServer : APIServer :=
  {| objects := ∅; revision := 0; faults := []; actions := [] |}.

(** Deployments as the API server reports them. *)
Definition sampleDeployment (replicas readyReplicas : Z) : Unstructured :=
  {| Object := mapLit [
       ("spec", VMap (mapLit [("replicas", VInt replicas)]));
       ("status", VMap (mapLit [("readyReplicas", VInt readyReplicas)]))] |}.

(** A definition with the given [Established] condition status. *)
Definition sampleCRD (established : string) : Unstructured :=
  {| Object := mapLit [
       ("status", VMap (mapLit [
          ("conditions", VList [VMap (mapLit [
             ("type", VString "Established");
             ("status", VString established)])])]))] |}.

Definition live (response : result Unstructured) : Poll :=
  {| ctxErr := None; response := response |}.

(** Statuses of the ClusterBootstrap object along a provisioning. *)
Definition sampleMachines : Value :=
  VList [
    VMap (mapLit [("name", VString "mgmt-cp-0"); ("role", VString "control-plane");
                  ("ipAddress", VString "10.0.0.11")]);
    VMap (mapLit [("name", VString "mgmt-worker-0"); ("role", VString "worker");
                  ("ipAddress", VString "10.0.0.21")]);
    VMap (mapLit [("name", VString "mgmt-cp-1"); ("role", VString "control-plane");
                  ("ipAddress", VString "")]);
    VMap (mapLit [("name", VString "mgmt-cp-2"); ("role", VString "control-plane");
                  ("ipAddress", VString "10.0.0.13")])].

Definition statusInPhase (phase : string) : gmap string Value :=
  mapLit [("phase", VString phase); ("machines", sampleMachines)].

Definition readyStatus (kubeconfigField talosconfigField : string)
  : gmap string Value :=
  mapLit [("phase", VString "Ready"); ("machines", sampleMachines);
          ("kubeconfig", VString kubeconfigField);
          ("talosconfig", VString talosconfigField);
          ("consoleURL", VString "https://butler.mgmt.local")].

Definition failedStatus : gmap string Value :=
  mapLit [("phase", VString "Failed");
          ("failureReason", VString "QuotaExceeded");
          ("failureMessage", VString "no IP addresses available")].

(** The bytes of an ASCII string. *)
Definition bytesOf (s : string) : bytes := list_byte_of_string s.

(** A decoder that knows the payloads of the examples and, like the
    real one, refuses text outside the base64 alphabet. *)
Definition sampleDecode (s : string) : result bytes :=
  if streq s "" then Ok []
  else if streq s "a3ViZQ==" then Ok (bytesOf "kube")
  else if streq s "dGFsb3M=" then Ok (bytesOf "talos")
  else Err (Foreign "illegal base64 data at input byte 0").

(** A talosconfig as decoded from YAML, with the given [endpoints] entry
    (absent for [None]) in the context of cluster [mgmt]. *)
Definition sampleTalosconfig (endpoints : option Value) : gmap string Value :=
  let context := mapLit [("ca", VString "LS0t")] in
  let context :=
    match endpoints with
    | Some v => mapSet "endpoints" v context
    | None => context
    end in
  mapLit [("context", VString "mgmt");
          ("contexts", VMap (mapLit [("mgmt", VMap context)]))].

(** A YAML codec for the examples: every non-empty input decodes to the
    given configuration, and encoding never fails. *)
Definition sampleUnmarshal (config : gmap string Value) (b : bytes)
  : result (gmap string Value) :=
  match b with
  | [] => Err (Foreign "yaml: empty document")
  | _ => Ok config
  end.

Definition sampleMarshal (config : gmap string Value) : result bytes :=
  Ok (bytesOf "encoded").

Definition sampleOptions (dryRun : bool) : Options :=
  {| DryRun := dryRun; SkipCleanup := false; Timeout := 1800;
     LocalDev := false; RepoRoot := "" |}.

(** A world in which every phase succeeds. *)
Definition sampleWorld : World :=
  {| createKINDCluster := Ok "/tmp/kubeconfig";
     kindDelete := None;
     injectHostAliases := None;
     buildAndLoadImages := None;
     createClients := None;
     deployCRDs := None;
     createNamespaceAndSecrets := None;
     deployControllers := None;
     submitProviderConfig := None;
     submitClusterBootstrap := None;
     watchOutcome := Ok {| kubeconfig := bytesOf "kube"; talosconfig := [];
                           controlPlaneIPs := ["10.0.0.11"]; consoleURL := "" |};
     saveOutcome := None;
     caCertificates := [] |}.

(** Path joining and quoting for the examples. *)
Definition sampleJoin (dir file : string) : string := dir +:+ "/" +:+ file.

Definition sampleQuote (s : string) : string :=
  String (ascii_of_nat 34) (s +:+ String (ascii_of_nat 34) "").

(** A file system on which nothing fails. *)
Definition sampleMkdirAll (path : string) : option error := None.
Definition sampleWriteFile (path : string) : option error := None.

(** * Further code of the two packages *)

(** ** Manifest deployer: files and documents ([deployer.go]) *)

(** [strings.HasSuffix]. *)
Definition HasSuffix (s suffix : string) : bool :=
  (String.length suffix <=? String.length s)%nat
  && streq (substring (String.length s - String.length suffix)
              (String.length suffix) s) suffix.

(** An entry of a directory listing ([fs.DirEntry]). *)
Record DirEntry := {
  entry_Name : string;
  entry_IsDir : bool;
}.

(** A read-only file system ([fs.FS]) as the deployer uses it:
    [fs.ReadDir] and [fs.ReadFile]. *)
Record FS := {
  fs_ReadDir : string -> result (list DirEntry);
  fs_ReadFile : string -> result bytes;
}.

Section Deployer.
(** The YAML machinery of [k8s.io/apimachinery/pkg/util/yaml]:
    the results of the successive [reader.Read()] calls on a file's bytes
    up to [io.EOF], and [yaml.Unmarshal] of one document; and
    [bytes.TrimSpace] of the standard library. *)
Variable YAMLReader_Read : bytes -> list (result bytes).
Variable yaml_Unmarshal : bytes -> result (gmap string Value).
Variable TrimSpace : bytes -> bytes.

(** The embedded manifests, declared in another file of the package. *)
Variable CRDs : FS.
Variable Controllers : FS.

(** The loop of [applyYAML] over what the reader returns. *)
Fixpoint applyDocuments (docs : list (result bytes)) (s : APIServer)
  : APIServer * option error :=
  match docs with
  | [] => (s, None)
  | Err err :: _ => (s, Some (Wrap "reading YAML document" err))
  | Ok doc :: rest =>
      (* Skip empty documents *)
      if (length (TrimSpace doc) =? 0)%nat then applyDocuments rest s
      else
        (* Parse the document *)
        match yaml_Unmarshal doc with
        | Err err => (s, Some (Wrap "unmarshaling YAML" err))
        | Ok object =>
            let obj := {| Object := object |} in
            (* Skip if no kind (comments-only documents) *)
            if streq (GetKind obj) "" then applyDocuments rest s
            else
              let '(s, r) := applyResource obj s in
              match r with
              | Some err =>
                  (s, Some (Wrap ("applying " +:+ GetKind obj +:+ " " +:+ GetName obj)
                              err))
              | None => applyDocuments rest s
              end
        end
  end.

(** [applyYAML]. *)
Definition applyYAML (data : bytes) (s : APIServer) : APIServer * option error :=
  applyDocuments (YAMLReader_Read data) s.

(** [deployFile]. *)
Definition deployFile (fsys : FS) (path : string) (s : APIServer)
  : APIServer * option error :=
  match fs_ReadFile fsys path with
  | Err err => (s, Some (Wrap "reading file" err))
  | Ok data => applyYAML data s
  end.

(** The loop of [deployFromFS] over the directory entries. *)
Fixpoint deployEntries (fsys : FS) (dir : string) (entries : list DirEntry)
    (s : APIServer) : APIServer * option error :=
  match entries with
  | [] => (s, None)
  | entry :: rest =>
      if entry_IsDir entry then deployEntries fsys dir rest s
      else if negb (HasSuffix (entry_Name entry) ".yaml")
              && negb (HasSuffix (entry_Name entry) ".yml")
      then deployEntries fsys dir rest s
      else
        let path := dir +:+ "/" +:+ entry_Name entry in
        let '(s, r) := deployFile fsys path s in
        match r with
        | Some err => (s, Some (Wrap ("deploying " +:+ path) err))
        | None => deployEntries fsys dir rest s
        end
  end.

(** [deployFromFS]. *)
Definition deployFromFS (fsys : FS) (dir : string) (s : APIServer)
  : APIServer * option error :=
  match fs_ReadDir fsys dir with
  | Err err => (s, Some (Wrap ("reading directory " +:+ dir) err))
  | Ok entries => deployEntries fsys dir entries s
  end.

(** The method [DeployCRDs] of [Deployer]. *)
Definition Deployer_DeployCRDs (s : APIServer) : APIServer * option error :=
  deployFromFS CRDs "crds" s.

(** The method [DeployControllers] of [Deployer]. *)
Definition Deployer_DeployControllers (provider : string) (s : APIServer)
  : APIServer * option error :=
  (* Deploy bootstrap controller (always needed) *)
  let '(s, r) := deployFile Controllers "controllers/butler-bootstrap.yaml" s in
  match r with
  | Some err => (s, Some (Wrap "deploying butler-bootstrap" err))
  | None =>
      (* Deploy provider-specific controller *)
      let providerFile := "controllers/butler-provider-" +:+ provider +:+ ".yaml" in
      let '(s, r) := deployFile Controllers providerFile s in
      match r with
      | Some err => (s, Some (Wrap ("deploying butler-provider-" +:+ provider) err))
      | None => (s, None)
      end
  end.

(** The names [deployCRDs] of the orchestrator waits for. *)
Definition crdNames : list string :=
  ["machinerequests.butler.butlerlabs.dev";
   "providerconfigs.butler.butlerlabs.dev";
   "clusterbootstraps.butler.butlerlabs.dev"].

(** [deployCRDs] of the orchestrator: deploy, then wait for the
    definitions against the script of the wait. *)
Definition deployCRDs_phase (s : APIServer) (script : list Poll)
  : APIServer * list Event * Polling (option error) :=
  let '(s, r) := Deployer_DeployCRDs s in
  match r with
  | Some err => (s, [], Returned (Some (Wrap "deploying CRDs" err)))
  | None =>
      match WaitForCRDs crdNames script with
      | (tr, Returned (Some err)) => (s, tr, Returned (Some (Wrap "waiting for CRDs" err)))
      | (tr, Returned None) => (s, tr, Returned None)
      | (tr, StillPolling) => (s, tr, StillPolling)
      end
  end.

(** [deployControllers] of the orchestrator: deploy, then wait for the
    bootstrap controller and then for the provider's controller, each
    wait against the script of what it is shown. *)
Definition deployControllers_phase (cfg : Config) (s : APIServer)
    (script1 script2 : list Poll)
  : APIServer * list Event * Polling (option error) :=
  let '(s, r) := Deployer_DeployControllers (Provider cfg) s in
  match r with
  | Some err => (s, [], Returned (Some (Wrap "deploying controllers" err)))
  | None =>
      (* Wait for bootstrap controller *)
      match WaitForDeployment butlerNamespace "butler-bootstrap-controller" script1 with
      | (tr, StillPolling) => (s, tr, StillPolling)
      | (tr, Returned (Some err)) =>
          (s, tr, Returned (Some (Wrap "waiting for butler-bootstrap-controller" err)))
      | (tr, Returned None) =>
          (* Wait for provider controller *)
          let providerDeployment := "butler-provider-" +:+ Provider cfg in
          match WaitForDeployment butlerNamespace providerDeployment script2 with
          | (tr', Returned (Some err)) =>
              (s, tr ++ tr',
               Returned (Some (Wrap ("waiting for " +:+ providerDeployment) err)))
          | (tr', Returned None) => (s, tr ++ tr', Returned None)
          | (tr', StillPolling) => (s, tr ++ tr', StillPolling)
          end
      end
  end.
End Deployer.

(** ** Configuration: console URL ([config.go]) *)

(** The method [GetConsoleURL] of [Config]. *)
Definition GetConsoleURL (c : Config) : string :=
  if negb (Console_Enabled (Console (Addons c))) then ""
  else if Ingress_Enabled (Ingress (Console (Addons c))) then
    let scheme := if TLS (Ingress (Console (Addons c))) then "https" else "http" in
    scheme +:+ "://" +:+ Host (Ingress (Console (Addons c)))
  else "".

(** ** Orchestrator: namespace and secrets ([createNamespaceAndSecrets]) *)

(** [strings.Contains]. *)
Fixpoint Contains (s substr : string) : bool :=
  if String.prefix substr s then true
  else match s with
       | EmptyString => false
       | String _ rest => Contains rest substr
       end.

Definition namespacesGVR : GroupVersionResource :=
  {| Group := ""; Version := "v1"; Resource := "namespaces" |}.

Definition secretsGVR : GroupVersionResource :=
  {| Group := ""; Version := "v1"; Resource := "secrets" |}.

(** The typed objects the function builds, as the maps they serialize to;
    a [[]byte] value is kept as the string of its bytes. *)
Definition butlerNamespaceObject : Unstructured :=
  {| Object := mapLit [
       ("metadata", VMap (mapLit [("name", VString butlerNamespace)]))] |}.

Definition harvesterSecret (cfg : Config) (kubeconfigData : bytes) : Unstructured :=
  {| Object := mapLit [
       ("metadata", VMap (mapLit [
          ("name", VString (Name (Cluster cfg) +:+ "-harvester-credentials"));
          ("namespace", VString butlerNamespace)]));
       ("type", VString "Opaque");
       ("data", VMap (mapLit [
          ("kubeconfig", VString (string_of_list_byte kubeconfigData))]))] |}.

Definition nutanixSecret (cfg : Config) (n : NutanixProviderConfig) : Unstructured :=
  {| Object := mapLit [
       ("metadata", VMap (mapLit [
          ("name", VString (Name (Cluster cfg) +:+ "-nutanix-credentials"));
          ("namespace", VString butlerNamespace)]));
       ("type", VString "Opaque");
       ("stringData", VMap (mapLit [
          ("username", VString (Nutanix_Username n));
          ("password", VString (Nutanix_Password n))]))] |}.

Section Secrets.
(** [os.ReadFile]. *)
Variable ReadFile : string -> result bytes.

(** [err != nil && !strings.Contains(err.Error(), "already exists")] on the
    result of a create. *)
Definition createFailed (r : result Unstructured) : option error :=
  match r with
  | Ok _ => None
  | Err err => if negb (Contains (errorText err) "already exists")
               then Some err else None
  end.

(** [createNamespaceAndSecrets]; [None] is the panic on a nil settings
    pointer of the provider. *)
Definition createNamespaceAndSecrets_phase (cfg : Config) (s : APIServer)
  : option (APIServer * option error) :=
  (* Create namespace *)
  let '(s, r) := Create (ClusterScoped namespacesGVR) butlerNamespaceObject s in
  match createFailed r with
  | Some err => Some (s, Some (Wrap "creating namespace" err))
  | None =>
      (* Create provider credentials secret based on provider type *)
      if streq (Provider cfg) "harvester" then
        h ← Harvester (ProviderConfig cfg);
        (* Read kubeconfig file for Harvester *)
        match ReadFile (KubeconfigPath h) with
        | Err err => Some (s, Some (Wrap "reading Harvester kubeconfig" err))
        | Ok kubeconfigData =>
            let '(s, r) := Create (Namespaced secretsGVR butlerNamespace)
                             (harvesterSecret cfg kubeconfigData) s in
            match createFailed r with
            | Some err => Some (s, Some (Wrap "creating Harvester secret" err))
            | None => Some (s, None)
            end
        end
      else if streq (Provider cfg) "nutanix" then
        n ← Nutanix (ProviderConfig cfg);
        let '(s, r) := Create (Namespaced secretsGVR butlerNamespace)
                         (nutanixSecret cfg n) s in
        match createFailed r with
        | Some err => Some (s, Some (Wrap "creating Nutanix secret" err))
        | None => Some (s, None)
        end
      else Some (s, None)
  end.
End Secrets.

(** ** Orchestrator: CA certificates and the KIND cluster *)

Definition envCACertPath : string := "BUTLER_CA_CERT_PATH".
Definition defaultCACertDir : string := ".butler/certificates".

Section Certificates.
(** The process environment and the host's file system: [os.Getenv],
    [os.Stat] (whether the path is a directory, or the error),
    [os.ReadDir], [os.UserHomeDir] and [filepath.Join]. *)
Variable Getenv : string -> string.
Variable Stat_IsDir : string -> result bool.
Variable ReadDir : string -> result (list DirEntry).
Variable UserHomeDir : result string.
Variable filepath_Join : string -> string -> string.

(** The loop of [scanCertDirectory] over the entries. *)
Definition certEntries (dir : string) (entries : list DirEntry) : list string :=
  fold_left (fun certs entry =>
    if entry_IsDir entry then certs
    else
      let name := entry_Name entry in
      if HasSuffix name ".crt" || HasSuffix name ".pem"
      then certs ++ [filepath_Join dir name]
      else certs) entries [].

(** [scanCertDirectory]. *)
Definition scanCertDirectory (dir : string) : list string :=
  match ReadDir dir with
  | Err _ => []
  | Ok entries => certEntries dir entries
  end.

(** [findCACertificates]. *)
Definition findCACertificates : list string :=
  let certs := [] in
  (* Check environment variable first *)
  let certs :=
    let envPath := Getenv envCACertPath in
    if negb (streq envPath "") then
      match Stat_IsDir envPath with
      | Ok true => certs ++ scanCertDirectory envPath
      | Ok false => certs ++ [envPath]
      | Err _ => certs
      end
    else certs in
  (* Check default directory ~/.butler/certificates/ *)
  match UserHomeDir with
  | Ok home =>
      let certDir := filepath_Join home defaultCACertDir in
      match Stat_IsDir certDir with
      | Ok true => certs ++ scanCertDirectory certDir
      | _ => certs
      end
  | Err _ => certs
  end.
End Certificates.

(** A line break. *)
Definition newline : string := String (ascii_of_nat 10) "".

(** The container path [buildKINDConfig] mounts the [i]-th certificate at. *)
Definition containerPath (i : nat) : string :=
  "/usr/local/share/ca-certificates/butler-custom-" +:+ pretty (Z.of_nat i) +:+ ".crt".

(** The mount entry of one certificate. *)
Definition mountEntry (i : nat) (certPath : string) : string :=
  "      - hostPath: " +:+ certPath +:+ newline
  +:+ "        containerPath: " +:+ containerPath i +:+ newline
  +:+ "        readOnly: true" +:+ newline.

(** The string builder after the loop over the certificates. *)
Definition mountEntries (caCerts : list string) : string :=
  fold_left String.append (imap mountEntry caCerts) "".

(** [buildKINDConfig]. *)
Definition buildKINDConfig (caCerts : list string) : string :=
  if (length caCerts =? 0)%nat then
    (* No custom certs, use minimal config *)
    "kind: Cluster" +:+ newline
    +:+ "apiVersion: kind.x-k8s.io/v1alpha4" +:+ newline
    +:+ "nodes:" +:+ newline
    +:+ "  - role: control-plane" +:+ newline
  else
    "kind: Cluster" +:+ newline
    +:+ "apiVersion: kind.x-k8s.io/v1alpha4" +:+ newline
    +:+ "nodes:" +:+ newline
    +:+ "  - role: control-plane" +:+ newline
    +:+ "    extraMounts:" +:+ newline
    +:+ mountEntries caCerts.

(** What [createKINDCluster] does to the outside. *)
Inductive KindStep : Type :=
| KindList
| KindKubeConfig
| KindWriteKubeconfig (path : string)
| KindPatchCoreDNS (kubeconfigPath : string)
| KindCreateTemp
| KindWriteConfig (config : string)
| KindCreate (name : string)
| KindTuneNode
| KindInstallCACertificates
| KindRemoveTemp.

(** How each of those turns out. *)
Record KindWorld := {
  kind_List : result (list string);
  kind_KubeConfig : result string;
  kind_WriteKubeconfig : option error;
  kind_patchCoreDNS : option error;
  kind_CreateTemp : option error;
  kind_WriteString : option error;
  kind_Create : option error;
  kind_tuneKINDNode : option error;
  kind_installCACertificates : option error;
  kind_caCerts : list string;
}.

(** [getKINDKubeconfig]. *)
Definition getKINDKubeconfig (w : KindWorld) : list KindStep * result string :=
  match kind_KubeConfig w with
  | Err err => ([KindKubeConfig], Err (Wrap "getting kubeconfig" err))
  | Ok _ =>
      (* Write to temp file *)
      let kubeconfigPath := "/tmp/kind-kubeconfig" in
      match kind_WriteKubeconfig w with
      | Some err => ([KindKubeConfig; KindWriteKubeconfig kubeconfigPath],
                     Err (Wrap "writing kubeconfig" err))
      | None => ([KindKubeConfig; KindWriteKubeconfig kubeconfigPath],
                 Ok kubeconfigPath)
      end
  end.

(** [for _, c := range clusters { if c == kindClusterName ... } ]. *)
Definition clusterExists (clusters : list string) : bool :=
  existsb (fun c => streq c kindClusterName) clusters.

(** [createKINDCluster]. *)
Definition createKINDCluster_phase (w : KindWorld) : list KindStep * result string :=
  (* Check if cluster already exists *)
  match kind_List w with
  | Err err => ([KindList], Err (Wrap "listing clusters" err))
  | Ok clusters =>
      if clusterExists clusters then
        match getKINDKubeconfig w with
        | (tr, Err err) => (KindList :: tr, Err err)
        | (tr, Ok kubeconfigPath) =>
            (* Ensure CoreDNS is patched even for existing cluster *)
            (KindList :: tr ++ [KindPatchCoreDNS kubeconfigPath], Ok kubeconfigPath)
        end
      else
        (* Discover CA certificates, build KIND config *)
        let caCerts := kind_caCerts w in
        let kindConfig := buildKINDConfig caCerts in
        (* Write KIND config to temp file *)
        match kind_CreateTemp w with
        | Some err => ([KindList; KindCreateTemp],
                       Err (Wrap "creating temp config file" err))
        | None =>
            (* from here on the deferred os.Remove runs at every return *)
            match kind_WriteString w with
            | Some err =>
                ([KindList; KindCreateTemp; KindWriteConfig kindConfig; KindRemoveTemp],
                 Err (Wrap "writing KIND config" err))
            | None =>
                (* Create cluster with config *)
                match kind_Create w with
                | Some err =>
                    ([KindList; KindCreateTemp; KindWriteConfig kindConfig;
                      KindCreate kindClusterName; KindRemoveTemp],
                     Err (Wrap "creating cluster" err))
                | None =>
                    (* Tune kernel parameters; install CA certificates if we
                       mounted any: failures are only logged *)
                    let fixups :=
                      KindTuneNode ::
                      (if (0 <? length caCerts)%nat
                       then [KindInstallCACertificates] else []) in
                    let created :=
                      [KindList; KindCreateTemp; KindWriteConfig kindConfig;
                       KindCreate kindClusterName] ++ fixups in
                    match getKINDKubeconfig w with
                    | (tr, Err err) => (created ++ tr ++ [KindRemoveTemp], Err err)
                    | (tr, Ok kubeconfigPath) =>
                        (* Fix CoreDNS: a failure is only logged *)
                        (created ++ tr ++ [KindPatchCoreDNS kubeconfigPath;
                                           KindRemoveTemp],
                         Ok kubeconfigPath)
                    end
                end
            end
        end
  end.

(** ** Reading aids for the properties *)

(** A field after defaulting: the default when it was empty. *)
Definition orDefault (v default : string) : string :=
  if streq v "" then default else v.

(** The warning [LoadConfig] prints for [replicas] control-plane replicas
    in single-node topology. *)
Definition replicasWarning (replicas : int32) : string :=
  "Warning: single-node topology forces controlPlane.replicas=1 (was "
  +:+ pretty replicas +:+ ")".

(** A configuration on which the blocks of [LoadConfig] have nothing left
    to do (path expansion apart). *)
Definition settled (c : Config) : Prop :=
  PodCIDR (Network c) <> ""
  /\ ServiceCIDR (Network c) <> ""
  /\ Talos_Version (Talos c) <> ""
  /\ CNI_Type (Addons c) <> ""
  /\ Storage_Type (Addons c) <> ""
  /\ LoadBalancer_Type (LoadBalancer (Addons c)) <> ""
  /\ GitOps_Type (Addons c) <> ""
  /\ (Topology (Cluster c) = "ha"
      \/ (Topology (Cluster c) = "single-node"
          /\ Replicas (ControlPlane (Cluster c)) = 1))
  /\ (Console_Enabled (Console (Addons c)) = true ->
        Console_Version (Console (Addons c)) <> ""
        /\ (Ingress_Enabled (Ingress (Console (Addons c))) = true ->
              Host (Ingress (Console (Addons c))) <> ""))
  /\ (Provider c = "nutanix" ->
        forall n, Nutanix (ProviderConfig c) = Some n -> Port n <> 0).

(** One conditional assignment of the "Set defaults" block:
    [if get(cfg) == "" { set(cfg, d) }]. *)
Definition defaulting (get : Config -> string) (set : string -> Config -> Config)
    (d : string) (c : Config) : Config :=
  if streq (get c) "" then set d c else c.

(** ** Further sample data *)

(** The HA sample with the console and its ingress switched on. *)
Definition sampleConsoleConfig (host : string) (tls : bool) : Config :=
  let c := sampleConfig "ha" 3 2 in
  {| Provider := Provider c; Cluster := Cluster c; Network := Network c;
     Talos := Talos c;
     Addons := {| CNI_Type := CNI_Type (Addons c);
                  Storage_Type := Storage_Type (Addons c);
                  LoadBalancer := LoadBalancer (Addons c);
                  GitOps_Type := GitOps_Type (Addons c);
                  CAPI := CAPI (Addons c);
                  ButlerController := ButlerController (Addons c);
                  Console := {| Console_Enabled := true; Console_Version := "";
                                Ingress := {| Ingress_Enabled := true; Host := host;
                                              ClassName := "nginx"; TLS := tls;
                                              TLSSecretName := "" |};
                                Auth := {| AdminPassword := ""; JWTSecret := "" |} |} |};
     ProviderConfig := ProviderConfig c |}.

(** ** Further reading aids *)

(** An object whose [metadata] can take a [resourceVersion]: it is a
    mapping, or absent. *)
Definition metadataWritable (obj : Unstructured) : bool :=
  match Object obj !! "metadata" with
  | None | Some (VMap _) => true
  | Some _ => false
  end.

(** A directory entry [deployFromFS] deploys. *)
Definition isManifest (entry : DirEntry) : bool :=
  negb (entry_IsDir entry)
  && (HasSuffix (entry_Name entry) ".yaml" || HasSuffix (entry_Name entry) ".yml").

(** The phases of the "phase changed" log lines of a trace, in order. *)
Definition phaseLog (tr : list Event) : list string :=
  omap (fun e => match e with EvPhaseChanged phase => Some phase | _ => None end) tr.

(** A poll at which [WaitForCRDs] leaves its inner loop: the context is
    not done and the answer carries an [Established] condition with
    status [True]. *)
Definition showsEstablished (p : Poll) : bool :=
  match ctxErr p, response p with
  | None, Ok crd =>
      match nestedSlice (Object crd) ["status"] "conditions" with
      | Some conditions => existsb isEstablished conditions
      | None => false
      end
  | _, _ => false
  end.

(** A poll at which [WaitForDeployment] returns [nil]. *)
Definition showsReady (p : Poll) : bool :=
  match ctxErr p, response p with
  | None, Ok deploy =>
      (nestedInt64 (Object deploy) ["spec"] "replicas"
         <=? nestedInt64 (Object deploy) ["status"] "readyReplicas")
      && (0 <? nestedInt64 (Object deploy) ["spec"] "replicas")
  | _, _ => false
  end.

(** No two neighbours of the list are equal. *)
Fixpoint distinctNeighbours (l : list string) : Prop :=
  match l with
  | a :: (b :: _) as rest => a <> b /\ distinctNeighbours rest
  | _ => True
  end.

(** The configuration with every secret blanked: the user names and
    passwords of the providers and the console's admin password and
    token-signing secret. *)
Definition redacted (c : Config) : Config :=
  {| Provider := Provider c; Cluster := Cluster c; Network := Network c;
     Talos := Talos c;
     Addons :=
       {| CNI_Type := CNI_Type (Addons c);
          Storage_Type := Storage_Type (Addons c);
          LoadBalancer := LoadBalancer (Addons c);
          GitOps_Type := GitOps_Type (Addons c);
          CAPI := CAPI (Addons c);
          ButlerController := ButlerController (Addons c);
          Console :=
            {| Console_Enabled := Console_Enabled (Console (Addons c));
               Console_Version := Console_Version (Console (Addons c));
               Ingress := Ingress (Console (Addons c));
               Auth := {| AdminPassword := ""; JWTSecret := "" |} |} |};
     ProviderConfig :=
       {| Harvester := Harvester (ProviderConfig c);
          Nutanix :=
            (fun n =>
               {| Nutanix_Endpoint := Nutanix_Endpoint n; Port := Port n;
                  Nutanix_Insecure := Nutanix_Insecure n;
                  Nutanix_Username := ""; Nutanix_Password := "";
                  ClusterUUID := ClusterUUID n; SubnetUUID := SubnetUUID n;
                  ImageUUID := ImageUUID n;
                  StorageContainerUUID := StorageContainerUUID n;
                  Nutanix_HostAliases := Nutanix_HostAliases n |})
            <$> Nutanix (ProviderConfig c);
          Proxmox :=
            (fun p =>
               {| Proxmox_Endpoint := Proxmox_Endpoint p;
                  Proxmox_Insecure := Proxmox_Insecure p;
                  Proxmox_Username := ""; Proxmox_Password := "";
                  Nodes := Nodes p; Proxmox_Storage := Proxmox_Storage p;
                  TemplateID := TemplateID p; VMIDStart := VMIDStart p;
                  VMIDEnd := VMIDEnd p;
                  Proxmox_HostAliases := Proxmox_HostAliases p |})
            <$> Proxmox (ProviderConfig c) |} |}.

(** A directory entry [scanCertDirectory] takes. *)
Definition isCertificate (entry : DirEntry) : bool :=
  negb (entry_IsDir entry)
  && (HasSuffix (entry_Name entry) ".crt" || HasSuffix (entry_Name entry) ".pem").

(** The steps of [createKINDCluster] that only read the cluster or fix it
    up: none of them creates a cluster or a file of the configuration. *)
Definition reusesCluster (step : KindStep) : bool :=
  match step with
  | KindList | KindKubeConfig | KindWriteKubeconfig _ | KindPatchCoreDNS _ => true
  | _ => false
  end.

Definition isCreateRequest (a : Action) : bool :=
  match a with ActCreate _ => true | _ => false end.

Section DocumentAids.
Variable yaml_Unmarshal : bytes -> result (gmap string Value).
Variable TrimSpace : bytes -> bytes.

(** Every document the reader returns that parses to an object has a
    [metadata] that can take a [resourceVersion]. *)
Definition writable (docs : list (result bytes)) : Prop :=
  forall doc object, In (Ok doc) docs -> yaml_Unmarshal doc = Ok object ->
    metadataWritable {| Object := object |} = true.

(** A document [applyYAML] passes over: blank, or without a kind. *)
Definition passedOver (d : result bytes) : bool :=
  match d with
  | Err _ => false
  | Ok doc =>
      (length (TrimSpace doc) =? 0)%nat
      || match yaml_Unmarshal doc with
         | Ok object => streq (GetKind {| Object := object |}) ""
         | Err _ => false
         end
  end.
End DocumentAids.

(** A manifest file for the examples: the reader finds one document and a
    blank one after it, and the document decodes to the namespace
    manifest. *)
Definition sampleReader (data : bytes) : list (result bytes) := [Ok data; Ok []].
Definition sampleParse (doc : bytes) : result (gmap string Value) :=
  Ok (Object sampleManifest).
Definition sampleTrim (b : bytes) : bytes := b.

(** A Nutanix configuration. *)
Definition sampleNutanixConfig (username password : string) : Config :=
  let c := sampleConfig "ha" 3 2 in
  {| Provider := "nutanix"; Cluster := Cluster c; Network := Network c;
     Talos := Talos c; Addons := Addons c;
     ProviderConfig :=
       {| Harvester := None;
          Nutanix := Some {| Nutanix_Endpoint := "https://prism.example.org";
                             Port := 9440; Nutanix_Insecure := false;
                             Nutanix_Username := username;
                             Nutanix_Password := password;
                             ClusterUUID := "c-1"; SubnetUUID := "s-1";
                             ImageUUID := "i-1"; StorageContainerUUID := "";
                             Nutanix_HostAliases := ["10.0.0.2 prism.example.org"] |};
          Proxmox := None |} |}.

(** A host on which KIND already runs the bootstrap cluster. *)
Definition sampleKindWorld (clusters : list string) : KindWorld :=
  {| kind_List := Ok clusters;
     kind_KubeConfig := Ok "apiVersion: v1";
     kind_WriteKubeconfig := None;
     kind_patchCoreDNS := None;
     kind_CreateTemp := None;
     kind_WriteString := None;
     kind_Create := None;
     kind_tuneKINDNode := None;
     kind_installCACertificates := None;
     kind_caCerts := [] |}.

(** An embedded directory with a note and one manifest that cannot be
    read. *)
Definition sampleEntries : list DirEntry :=
  [{| entry_Name := "README.md"; entry_IsDir := false |};
   {| entry_Name := "crd.yaml"; entry_IsDir := false |}].

Definition sampleFS : FS :=
  {| fs_ReadDir := fun _ => Ok sampleEntries;
     fs_ReadFile := fun _ => Err (Foreign "file does not exist") |}.

(** A file reader for the examples. *)
Definition sampleReadFile (path : string) : result bytes := Ok (bytesOf "kubeconfig").

(** What the wait loops are shown in the examples: the first definition
    missing at the first poll; a deployment with one of two replicas
    ready, then both. *)
Definition sampleCRDScript : list Poll :=
  [live (Err (StatusError ReasonNotFound)); live (Ok (sampleCRD "True"));
   live (Ok (sampleCRD "True")); live (Ok (sampleCRD "True"))].

Definition sampleDeploymentScript : list Poll :=
  [live (Ok (sampleDeployment 2 1)); live (Ok (sampleDeployment 2 2))].

(** * Properties *)

(** ** Configuration and intent builder *)

Lemma streq_true (s t : string) : streq s t = true <-> s = t.
Proof. unfold streq. apply bool_decide_eq_true. Qed.

Lemma streq_refl (s : string) : streq s s = true.
Proof. by apply streq_true. Qed.

(** In single-node topology the cluster block is the three keys [name],
    [topology] and [controlPlane] only. *)
Lemma clusterSpecOf_single_node (cfg : Config) :
  IsSingleNode cfg = true ->
  clusterSpecOf (buildClusterBootstrapUnstructured cfg) =
    Some (mapLit [("name", VString (Name (Cluster cfg)));
                  ("topology", VString (Topology (Cluster cfg)));
                  ("controlPlane", VMap (controlPlaneBlock cfg))]).
Proof.
  intros Hs. unfold buildClusterBootstrapUnstructured. rewrite Hs. reflexivity.
Qed.

Section LoadConfigFacts.
Variable UserHomeDir : result string.
Variable filepath_Join : string -> string -> string.
Variable Quote : string -> string.

Local Ltac split_ifs :=
  repeat match goal with
         | |- context [if ?b then _ else _] => destruct b
         | |- context [match ?o with Some _ => _ | None => _ end] => destruct o
         end; reflexivity.

Lemma Cluster_setDefaults (cfg : Config) :
  Cluster (setDefaults cfg) = Cluster cfg.
Proof. unfold setDefaults. cbv zeta. split_ifs. Qed.

Lemma Cluster_consoleDefaults (cfg : Config) :
  Cluster (consoleDefaults cfg) = Cluster cfg.
Proof. unfold consoleDefaults. cbv zeta. split_ifs. Qed.

Lemma Cluster_providerDefaults (cfg : Config) :
  Cluster (providerDefaults cfg) = Cluster cfg.
Proof. unfold providerDefaults. split_ifs. Qed.

Lemma Cluster_expandPaths (cfg : Config) :
  Cluster (expandPaths UserHomeDir filepath_Join cfg) = Cluster cfg.
Proof. unfold expandPaths. split_ifs. Qed.

(** The enforcement block leaves a single-node configuration with one
    control-plane replica and the same topology. *)
Lemma enforceSingleNode_single (cfg : Config) :
  Topology (Cluster cfg) = "single-node" ->
  Topology (Cluster (enforceSingleNode cfg).2) = "single-node"
  /\ Replicas (ControlPlane (Cluster (enforceSingleNode cfg).2)) = 1.
Proof.
  intros Ht. unfold enforceSingleNode. rewrite Ht, streq_refl. cbv zeta.
  destruct (Z.eqb_spec (Replicas (ControlPlane (Cluster cfg))) 1) as [E|E];
    simpl; auto.
Qed.

(** Outside single-node topology the enforcement block changes nothing. *)
Lemma enforceSingleNode_other (cfg : Config) :
  Topology (Cluster cfg) <> "single-node" ->
  enforceSingleNode cfg = ([], cfg).
Proof.
  intros Ht. unfold enforceSingleNode.
  destruct (streq (Topology (Cluster cfg)) "single-node") eqn:E; [|done].
  by apply streq_true in E.
Qed.

(** C1. For every configuration whose topology is [single-node],
    [LoadConfig] succeeds with [cluster.controlPlane.replicas] equal to 1
    whatever the input value was, and the ClusterBootstrap object built
    from the loaded configuration has a cluster block with no [workers]
    key at all, its [controlPlane.replicas] being 1.  The object built
    from the configuration as it was before loading has no [workers] key
    either. *)
Theorem single_node_forces_one_replica_and_no_workers (raw : Config) :
  Topology (Cluster raw) = "single-node" ->
  (exists out cfg cs cp,
    LoadConfig UserHomeDir filepath_Join Quote (Ok raw) = (out, Ok cfg)
    /\ IsSingleNode cfg = true
    /\ Replicas (ControlPlane (Cluster cfg)) = 1
    /\ clusterSpecOf (buildClusterBootstrapUnstructured cfg) = Some cs
    /\ cs !! "workers" = None
    /\ nestedMap cs ["controlPlane"] = Some cp
    /\ cp !! "replicas" = Some (VInt 1))
  /\ (exists cs,
    clusterSpecOf (buildClusterBootstrapUnstructured raw) = Some cs
    /\ cs !! "workers" = None).
Proof.
  intros Ht. split; [|
    eexists; split;
      [apply clusterSpecOf_single_node; unfold IsSingleNode; by rewrite Ht
      |reflexivity]].
  unfold LoadConfig. cbv zeta.
  assert (Hd : Topology (Cluster (defaultTopology (setDefaults raw))) = "single-node").
  { unfold defaultTopology. rewrite Cluster_setDefaults, Ht.
    destruct (streq "single-node" "") eqn:E; [|by rewrite Cluster_setDefaults].
    by apply streq_true in E. }
  rewrite Hd. simpl (negb (streq "single-node" "single-node") && _).
  cbv iota.
  destruct (enforceSingleNode_single _ Hd) as [Ht' Hr].
  destruct (enforceSingleNode (defaultTopology (setDefaults raw))) as [out cfg1].
  simpl in Ht', Hr.
  set (cfg := expandPaths _ _ _).
  assert (Hc : Cluster cfg = Cluster cfg1).
  { subst cfg. by rewrite Cluster_expandPaths, Cluster_providerDefaults,
      Cluster_consoleDefaults. }
  assert (Hs : IsSingleNode cfg = true).
  { unfold IsSingleNode. rewrite Hc, Ht'. reflexivity. }
  exists out, cfg. eexists. exists (controlPlaneBlock cfg).
  split; [reflexivity|]. split; [exact Hs|]. split; [by rewrite Hc|].
  split; [by apply clusterSpecOf_single_node|].
  split; [reflexivity|]. split; [reflexivity|].
  unfold controlPlaneBlock. rewrite Hc, Hr. reflexivity.
Qed.
End LoadConfigFacts.

(** ** Object accessors *)

Lemma SetResourceVersion_twice (a b : string) (u : Unstructured) :
  SetResourceVersion a (SetResourceVersion b u) = SetResourceVersion a u.
Proof.
  unfold SetResourceVersion, mapSet, mapLit.
  destruct (Object u !! "metadata") as [[]|] eqn:E; simpl; rewrite ?E; try done.
  - rewrite lookup_insert_eq. by rewrite !insert_insert_eq.
  - rewrite lookup_insert_eq. simpl. by rewrite !insert_insert_eq.
Qed.

Lemma nestedString_SetResourceVersion (rv : string) (u : Unstructured)
    (path : list string) (k : string) :
  (path = [] \/ (path = ["metadata"] /\ k <> "resourceVersion")) ->
  nestedString (Object (SetResourceVersion rv u)) path k
  = nestedString (Object u) path k.
Proof.
  intros Hp. unfold SetResourceVersion, mapSet, mapLit.
  destruct (Object u !! "metadata") as [[]|] eqn:E; try done;
    destruct Hp as [->|[-> Hk]]; unfold nestedString; simpl; rewrite ?E; simpl.
  all: rewrite ?lookup_insert_eq; simpl.
  all: try (rewrite lookup_insert_ne by done; done).
  all: destruct (decide (k = "metadata")) as [->|Hne];
    [rewrite lookup_insert_eq, E; done | rewrite lookup_insert_ne by done; done].
Qed.

Lemma GetName_SetResourceVersion (rv : string) (u : Unstructured) :
  GetName (SetResourceVersion rv u) = GetName u.
Proof. apply nestedString_SetResourceVersion. right. done. Qed.

Lemma GetNamespace_SetResourceVersion (rv : string) (u : Unstructured) :
  GetNamespace (SetResourceVersion rv u) = GetNamespace u.
Proof. apply nestedString_SetResourceVersion. right. done. Qed.

Lemma GroupVersionKind_SetResourceVersion (rv : string) (u : Unstructured) :
  ObjectGroupVersionKind (SetResourceVersion rv u) = ObjectGroupVersionKind u.
Proof.
  unfold ObjectGroupVersionKind, GetKind, GetAPIVersion.
  by rewrite !nestedString_SetResourceVersion by (by left).
Qed.

Lemma applyKey_SetResourceVersion (rv : string) (u : Unstructured) :
  applyKey (SetResourceVersion rv u) = applyKey u.
Proof.
  unfold applyKey.
  by rewrite GroupVersionKind_SetResourceVersion,
    GetNamespace_SetResourceVersion, GetName_SetResourceVersion.
Qed.

(** Reading back a version written on top of a stamped copy of the same
    object gives that version: what [applyResource] relies on when it
    carries the stored version onto the object it is about to send. *)
Lemma carried_version_matches (a : string) (u : Unstructured) :
  let existing := SetResourceVersion a u in
  GetResourceVersion (SetResourceVersion (GetResourceVersion existing) u)
  = GetResourceVersion existing.
Proof.
  unfold GetResourceVersion, SetResourceVersion, nestedString, mapSet, mapLit.
  destruct (Object u !! "metadata") as [[]|] eqn:E; simpl; rewrite ?E; simpl;
    rewrite ?lookup_insert_eq; simpl; rewrite ?lookup_insert_eq; try done.
  all: rewrite ?E; try done.
Qed.

(** ** Manifest deployer: create-or-update *)

(** The client [applyResource] picks addresses the object's own key. *)
Lemma keyOf_apply_client (obj : Unstructured) :
  keyOf (if negb (streq (GetNamespace obj) "")
         then Namespaced (gvkToGVR (ObjectGroupVersionKind obj)) (GetNamespace obj)
         else ClusterScoped (gvkToGVR (ObjectGroupVersionKind obj)))
        (GetName obj)
  = applyKey obj.
Proof.
  unfold applyKey. destruct (streq (GetNamespace obj) "") eqn:E; simpl; [|done].
  apply streq_true in E. by rewrite E.
Qed.

(** On a healthy server that has no object under the key, [applyResource]
    creates it with one request. *)
Lemma applyResource_fresh (obj : Unstructured) (s : APIServer) :
  faults s = [] ->
  objects s !! applyKey obj = None ->
  applyResource obj s =
    ({| objects := <[applyKey obj :=
                      SetResourceVersion (pretty (N.succ (revision s))) obj]> (objects s);
        revision := N.succ (revision s);
        faults := [];
        actions := actions s ++ [ActCreate (applyKey obj)] |}, None).
Proof.
  intros Hf Hk. unfold applyResource, Create. cbv zeta.
  rewrite keyOf_apply_client. unfold receive. rewrite Hf. simpl.
  rewrite Hk. reflexivity.
Qed.

(** On a healthy server that already stores a stamped copy of the object,
    [applyResource] sends create, get, update: the update carries the
    stored [resourceVersion] and replaces the object in place. *)
Lemma applyResource_existing (obj : Unstructured) (s : APIServer) (v : string) :
  faults s = [] ->
  objects s !! applyKey obj = Some (SetResourceVersion v obj) ->
  applyResource obj s =
    ({| objects := <[applyKey obj :=
                      SetResourceVersion (pretty (N.succ (revision s))) obj]> (objects s);
        revision := N.succ (revision s);
        faults := [];
        actions := actions s ++
          [ActCreate (applyKey obj); ActGet (applyKey obj);
           ActUpdate (applyKey obj) (GetResourceVersion (SetResourceVersion v obj))] |},
     None).
Proof.
  intros Hf Hk. unfold applyResource, Create. cbv zeta.
  rewrite keyOf_apply_client. unfold receive. rewrite Hf. simpl.
  rewrite Hk. simpl. unfold Get. rewrite keyOf_apply_client.
  unfold receive. simpl. rewrite Hk.
  unfold Update. rewrite GetName_SetResourceVersion, keyOf_apply_client.
  unfold receive. simpl. rewrite Hk.
  rewrite carried_version_matches, streq_refl.
  unfold store. simpl. rewrite SetResourceVersion_twice.
  rewrite <- !app_assoc. reflexivity.
Qed.

(** A successful [applyResource] on a healthy server leaves a stamped copy
    of the object under its key, and the server healthy. *)
Lemma applyResource_success_stores (obj : Unstructured) (s s1 : APIServer) :
  faults s = [] ->
  applyResource obj s = (s1, None) ->
  faults s1 = []
  /\ objects s1 !! applyKey obj
     = Some (SetResourceVersion (pretty (revision s1)) obj).
Proof.
  intros Hf. unfold applyResource, Create. cbv zeta.
  rewrite keyOf_apply_client. unfold receive. rewrite Hf. simpl.
  destruct (objects s !! applyKey obj) as [old|] eqn:Hk; simpl.
  - unfold Get. rewrite keyOf_apply_client. unfold receive. simpl. rewrite Hk.
    unfold Update. rewrite GetName_SetResourceVersion, keyOf_apply_client.
    unfold receive. simpl. rewrite Hk.
    destruct (streq _ _); simpl; [|done].
    intros [= <-]. simpl. rewrite lookup_insert_eq.
    by rewrite SetResourceVersion_twice.
  - intros [= <-]. simpl. by rewrite lookup_insert_eq.
Qed.

(** C3. Applying the same manifest object twice in succession to a healthy
    API server is idempotent: once the first application has returned no
    error, the second one returns no error, it attempts the creation, is
    told the object exists, fetches it and sends one update that carries
    the fetched [resourceVersion]; the set of stored objects is the same
    as after the first application (no duplicate), and the object under the
    key is the manifest object with a new version stamp. *)
Theorem applyResource_twice_idempotent (obj : Unstructured) (s0 s1 : APIServer) :
  faults s0 = [] ->
  applyResource obj s0 = (s1, None) ->
  exists s2 existing,
    applyResource obj s1 = (s2, None)
    /\ objects s1 !! applyKey obj = Some existing
    /\ actions s2 = (actions s1 ++
         [ActCreate (applyKey obj); ActGet (applyKey obj);
          ActUpdate (applyKey obj) (GetResourceVersion existing)])%list
    /\ dom (objects s2) = dom (objects s1)
    /\ size (objects s2) = size (objects s1)
    /\ objects s2 !! applyKey obj
       = Some (SetResourceVersion (pretty (revision s2)) obj)
    /\ (forall k, k <> applyKey obj -> objects s2 !! k = objects s1 !! k).
Proof.
  intros Hf H1.
  destruct (applyResource_success_stores obj s0 s1 Hf H1) as [Hf1 Hk1].
  eexists. exists (SetResourceVersion (pretty (revision s1)) obj).
  split; [by apply applyResource_existing|]. simpl.
  split; [done|]. split; [done|].
  assert (Hd : dom (<[applyKey obj :=
                      SetResourceVersion (pretty (N.succ (revision s1))) obj]>
                    (objects s1)) = dom (objects s1)).
  { rewrite dom_insert_L. apply subseteq_union_1_L, singleton_subseteq_l.
    by apply elem_of_dom_2 in Hk1. }
  split; [done|]. split.
  - rewrite <- !size_dom. by rewrite Hd.
  - split; [by rewrite lookup_insert_eq|].
    intros k Hne. by rewrite lookup_insert_ne.
Qed.

(** ** Intent objects are create-once *)

Lemma GetName_clusterBootstrap (cfg : Config) :
  GetName (buildClusterBootstrapUnstructured cfg) = Name (Cluster cfg).
Proof. reflexivity. Qed.

Lemma GetName_providerConfig (cfg : Config) (pc : Unstructured) :
  buildProviderConfigUnstructured cfg = Some pc ->
  GetName pc = Name (Cluster cfg) +:+ "-provider".
Proof.
  unfold buildProviderConfigUnstructured.
  destruct (streq (Provider cfg) "harvester");
    [destruct (Harvester (ProviderConfig cfg)); [|done]|
     destruct (streq (Provider cfg) "nutanix");
       [destruct (Nutanix (ProviderConfig cfg)); [|done]|]];
    simpl; by intros [= <-].
Qed.

(** What one [Create] request does to the server, whatever its outcome:
    one more recorded action, one fault-script entry consumed, and the
    store unchanged unless the request succeeded. *)
Lemma Create_cases (c : ResourceInterface) (obj : Unstructured) (s : APIServer) :
  let k := keyOf c (GetName obj) in
  let s' := (Create c obj s).1 in
  actions s' = (actions s ++ [ActCreate k])%list
  /\ match mjoin (head (faults s)), objects s !! k with
     | Some e, _ => (Create c obj s).2 = Err e /\ objects s' = objects s
     | None, Some _ =>
         (Create c obj s).2 = Err (StatusError ReasonAlreadyExists)
         /\ objects s' = objects s
     | None, None =>
         exists stamped, (Create c obj s).2 = Ok stamped
           /\ objects s' = <[k := stamped]> (objects s)
     end.
Proof.
  unfold Create, receive. cbv zeta.
  destruct (mjoin (head (faults s))) as [e|]; simpl; [done|].
  destruct (objects s !! keyOf c (GetName obj)); simpl; [done|].
  split; [done|]. by eexists.
Qed.

(** C8. The two intent objects are create-once.  [createClusterBootstrap]
    and [createProviderConfig] each send exactly one request to the API
    server, a creation; whenever that creation fails they return an error
    wrapping the failure, and when an object of the same name already
    exists the error wraps "already exists" and the store is left as it
    was: no get, no update, no reuse. *)
Theorem intent_objects_create_once (cfg : Config) (s : APIServer) :
  (let k := (clusterBootstrapGVR, butlerNamespace, Name (Cluster cfg)) in
   let client := Namespaced clusterBootstrapGVR butlerNamespace in
   let out := createClusterBootstrap cfg s in
   actions out.1 = (actions s ++ [ActCreate k])%list
   /\ (forall e, (Create client (buildClusterBootstrapUnstructured cfg) s).2 = Err e ->
         out.2 = Some (Wrap "creating ClusterBootstrap" e))
   /\ (mjoin (head (faults s)) = None -> is_Some (objects s !! k) ->
         out.2 = Some (Wrap "creating ClusterBootstrap" (StatusError ReasonAlreadyExists))
         /\ objects out.1 = objects s))
  /\ (forall pc, buildProviderConfigUnstructured cfg = Some pc ->
      let k := (providerConfigGVR, butlerNamespace, Name (Cluster cfg) +:+ "-provider") in
      let client := Namespaced providerConfigGVR butlerNamespace in
      exists out, createProviderConfig cfg s = Some out
      /\ actions out.1 = (actions s ++ [ActCreate k])%list
      /\ (forall e, (Create client pc s).2 = Err e ->
            out.2 = Some (Wrap "creating ProviderConfig" e))
      /\ (mjoin (head (faults s)) = None -> is_Some (objects s !! k) ->
            out.2 = Some (Wrap "creating ProviderConfig" (StatusError ReasonAlreadyExists))
            /\ objects out.1 = objects s)).
Proof.
  split.
  - cbv zeta. unfold createClusterBootstrap.
    pose proof (Create_cases (Namespaced clusterBootstrapGVR butlerNamespace)
                  (buildClusterBootstrapUnstructured cfg) s) as Hc.
    cbv zeta in Hc. rewrite GetName_clusterBootstrap in Hc.
    destruct (Create _ _ s) as [s' r]. simpl in Hc. destruct Hc as [Ha Hc].
    split; [by destruct r|]. split.
    + intros e. simpl. by intros ->.
    + intros Hf [old Hk]. simpl in Hk. rewrite Hf, Hk in Hc.
      destruct Hc as [-> Ho]. done.
  - intros pc Hpc. cbv zeta. unfold createProviderConfig. rewrite Hpc. simpl.
    pose proof (Create_cases (Namespaced providerConfigGVR butlerNamespace) pc s) as Hc.
    cbv zeta in Hc. rewrite (GetName_providerConfig cfg pc Hpc) in Hc.
    destruct (Create _ pc s) as [s' r]. simpl in Hc. destruct Hc as [Ha Hc].
    destruct r as [v|e0]; eexists; (split; [reflexivity|]); simpl.
    + split; [done|]. split; [done|].
      intros Hf [old Hk]. simpl in Hk. rewrite Hf, Hk in Hc. by destruct Hc.
    + split; [done|]. split; [by intros e [= ->]|].
      intros Hf [old Hk]. simpl in Hk. rewrite Hf, Hk in Hc.
      destruct Hc as [[= ->] Ho]. done.
Qed.

(** ** Polling loops *)











Section WatcherFacts.
Variable DecodeString : string -> result bytes.

Lemma watchLoop_app (name lastPhase : string) (pre : list Wake) (tr : list Event) :
  watchLoop DecodeString name lastPhase pre = (tr, StillPolling) ->
  exists lastPhase', forall rest,
    watchLoop DecodeString name lastPhase (pre ++ rest) =
      ((tr ++ (watchLoop DecodeString name lastPhase' rest).1)%list,
       (watchLoop DecodeString name lastPhase' rest).2).
Proof.
  revert lastPhase tr. induction pre as [|w pre IH]; intros lastPhase tr; simpl.
  - intros [= <-]. exists lastPhase. intros rest.
    by destruct (watchLoop DecodeString name lastPhase rest).
  - destruct w as [e|resp]; [done|].
    assert (Hcont : forall lp log tr1,
      (let '(tr0, r) := watchLoop DecodeString name lp pre in
       ((EvWait :: EvGet (clusterBootstrapGVR, butlerNamespace, name)
          :: log ++ tr0)%list, r)) = (tr1, StillPolling) ->
      exists lastPhase', forall rest,
        (let '(tr0, r) := watchLoop DecodeString name lp (pre ++ rest) in
         ((EvWait :: EvGet (clusterBootstrapGVR, butlerNamespace, name)
            :: log ++ tr0)%list, r)) =
        ((tr1 ++ (watchLoop DecodeString name lastPhase' rest).1)%list,
         (watchLoop DecodeString name lastPhase' rest).2)).
    { intros lp log tr1.
      destruct (watchLoop DecodeString name lp pre) as [tr0 r0] eqn:E0.
      intros [= <- ->]. destruct (IH lp tr0 E0) as [lp' Hlp'].
      exists lp'. intros rest. rewrite Hlp'. simpl.
      by rewrite (assoc_L (++)). }
    destruct resp as [cb|e]; [|exact (Hcont lastPhase [] tr)].
    destruct (asMap (Object cb !! "status")) as [status|];
      [|exact (Hcont lastPhase [] tr)].
    cbv zeta.
    destruct (streq (stringOrZero (status !! "phase")) "Ready").
    { destruct (DecodeString _); [|done]. by destruct (DecodeString _). }
    destruct (streq (stringOrZero (status !! "phase")) "Failed"); [done|].
    apply Hcont.
Qed.

End WatcherFacts.

(** ** Bootstrap watcher *)

Lemma streq_false (s t : string) : streq s t = false <-> s <> t.
Proof. unfold streq. apply bool_decide_eq_false. Qed.



Lemma append_assoc (a b c : string) : (a +:+ b) +:+ c = a +:+ b +:+ c.
Proof.
  induction a as [|x a IH]; [done|].
  change (String x ((a +:+ b) +:+ c) = String x (a +:+ b +:+ c)). by rewrite IH.
Qed.

Lemma append_empty_r (a : string) : a +:+ "" = a.
Proof.
  induction a as [|x a IH]; [done|].
  change (String x (a +:+ "") = String x a). by rewrite IH.
Qed.

Lemma contains_middle (a sub b : string) : contains (a +:+ sub +:+ b) sub.
Proof. by exists a, b. Qed.

Lemma contains_end (a sub : string) : contains (a +:+ sub) sub.
Proof. exists a, "". by rewrite append_empty_r. Qed.

Section WatcherResults.
Variable DecodeString : string -> result bytes.

(** What the watcher returns on a tick that shows phase [Failed]. *)
Lemma watchLoop_failed (name lastPhase : string) (cb : Unstructured)
    (status : gmap string Value) (rest : list Wake) :
  asMap (Object cb !! "status") = Some status ->
  stringOrZero (status !! "phase") = "Failed" ->
  (watchLoop DecodeString name lastPhase (Tick (Ok cb) :: rest)).2 =
    Returned (Err (ErrorText ("bootstrap failed: "
      +:+ stringOrZero (status !! "failureReason") +:+ " - "
      +:+ stringOrZero (status !! "failureMessage")))).
Proof. intros Hs Hp. simpl. rewrite Hs. cbv zeta. rewrite Hp. reflexivity. Qed.


(** C4. Whenever the watcher, still polling, is shown a status whose
    phase is [Failed] with failure reason [r] and failure message [m], it
    returns the error [bootstrap failed: r - m]: the text of the error
    contains both strings unmodified. *)
Theorem failed_phase_error_carries_reason_and_message
    (cfg : Config) (pre post : list Wake) (cb : Unstructured)
    (status : gmap string Value) (r m : string) :
  (watchBootstrap DecodeString cfg pre).2 = StillPolling ->
  asMap (Object cb !! "status") = Some status ->
  status !! "phase" = Some (VString "Failed") ->
  status !! "failureReason" = Some (VString r) ->
  status !! "failureMessage" = Some (VString m) ->
  exists e,
    (watchBootstrap DecodeString cfg (pre ++ Tick (Ok cb) :: post)).2
      = Returned (Err e)
    /\ errorText e = "bootstrap failed: " +:+ r +:+ " - " +:+ m
    /\ contains (errorText e) r
    /\ contains (errorText e) m.
Proof.
  intros Hpre Hs Hp Hr Hm. unfold watchBootstrap in *.
  destruct (watchLoop DecodeString (Name (Cluster cfg)) "" pre) as [tr r0] eqn:E.
  simpl in Hpre. subst r0.
  destruct (watchLoop_app DecodeString _ _ _ _ E) as [lp Hlp].
  rewrite Hlp. cbn [snd].
  rewrite (watchLoop_failed _ lp cb status post Hs) by (by rewrite Hp).
  rewrite Hr, Hm. simpl stringOrZero.
  eexists. split; [reflexivity|]. simpl errorText.
  split; [done|]. split.
  - apply contains_middle.
  - rewrite <- !append_assoc. apply contains_end.
Qed.

End WatcherResults.




Section Cancellation.
Variable DecodeString : string -> result bytes.

End Cancellation.

(** ** Credential persister *)

Section PersistFacts.
Variable yaml_Unmarshal : bytes -> result (gmap string Value).
Variable yaml_Marshal : gmap string Value -> result bytes.
Variable UserHomeDir : result string.
Variable filepath_Join : string -> string -> string.
Variable MkdirAll : string -> option error.
Variable WriteFile_error : string -> option error.

Local Abbreviation fix_endpoints := (fixTalosconfigEndpoints yaml_Unmarshal yaml_Marshal).

Lemma length_zero_iff_nil {A : Type} (l : list A) :
  (length l =? 0)%nat = true <-> l = [].
Proof. destruct l; simpl; split; done. Qed.

(** The repair writes the addresses as the endpoints and touches nothing
    but [endpoints] and [nodes]. *)
Lemma repairContext_endpoints (ips : list string) (ctx : gmap string Value) :
  repairContext ips ctx !! "endpoints" = Some (stringsValue ips)
  /\ forall k, k <> "endpoints" -> k <> "nodes" ->
       repairContext ips ctx !! k = ctx !! k.
Proof.
  unfold repairContext, mapSet. cbv zeta.
  destruct (_ =? _)%nat; split.
  - rewrite lookup_insert_ne by done. apply lookup_insert_eq.
  - intros k H1 H2. by rewrite !lookup_insert_ne.
  - apply lookup_insert_eq.
  - intros k H1 H2. by rewrite lookup_insert_ne.
Qed.

(** With no [nodes] entry, the repair writes the addresses as nodes too. *)
Lemma repairContext_nodes (ips : list string) (ctx : gmap string Value) :
  ctx !! "nodes" = None ->
  repairContext ips ctx !! "nodes" = Some (stringsValue ips).
Proof.
  intros Hn. unfold repairContext, mapSet. cbv zeta.
  rewrite lookup_insert_ne by done. rewrite Hn. simpl.
  apply lookup_insert_eq.
Qed.

(** The shape of [contextOf]. *)
Lemma contextOf_Some (config : gmap string Value) (name : string)
    (ctx : gmap string Value) :
  contextOf config name = Some ctx <->
  exists contexts, asMap (config !! "contexts") = Some contexts
                   /\ asMap (contexts !! name) = Some ctx.
Proof.
  unfold contextOf. simpl. split.
  - destruct (asMap (config !! "contexts")) as [contexts|]; simpl; [|done].
    destruct (asMap (contexts !! name)) as [c|] eqn:E; simpl; [|done].
    intros [= <-]. by exists contexts.
  - intros (contexts & -> & Hc). simpl. by rewrite Hc.
Qed.

Lemma contextOf_None (config : gmap string Value) (name : string) :
  contextOf config name = None <->
  asMap (config !! "contexts") = None
  \/ exists contexts, asMap (config !! "contexts") = Some contexts
                      /\ asMap (contexts !! name) = None.
Proof.
  unfold contextOf. simpl. split.
  - destruct (asMap (config !! "contexts")) as [contexts|]; simpl; [|by left].
    destruct (asMap (contexts !! name)) as [c|] eqn:E; simpl; [done|].
    intros _. right. by exists contexts.
  - intros [->|(contexts & -> & Hc)]; simpl; [done|]. by rewrite Hc.
Qed.

(** The function on a talosconfig that parses and has the context. *)
Lemma fix_endpoints_parsed (tc : bytes) (name : string) (ips : list string)
    (config contexts ctx : gmap string Value) :
  ips <> [] ->
  yaml_Unmarshal tc = Ok config ->
  asMap (config !! "contexts") = Some contexts ->
  asMap (contexts !! name) = Some ctx ->
  fix_endpoints tc name ips =
    match yaml_Marshal
            (if (length (listOrNil (ctx !! "endpoints")) =? 0)%nat
             then mapSet "contexts"
                    (VMap (mapSet name (VMap (repairContext ips ctx)) contexts)) config
             else config) with
    | Ok fixed => fixed
    | Err _ => tc
    end.
Proof.
  intros Hips Hu Hc Hx. unfold fixTalosconfigEndpoints.
  destruct (length ips =? 0)%nat eqn:E; [by apply length_zero_iff_nil in E|].
  rewrite Hu, Hc, Hx. cbv zeta.
  by destruct (yaml_Marshal _).
Qed.

(** C6. The repair of the talosconfig is non-destructive.  For a
    talosconfig that parses and has the cluster's context, and a
    non-empty list of collected control-plane addresses, what the
    function returns is the YAML encoding of a configuration that: when
    the context's endpoints list was empty or missing, has exactly the
    collected addresses as endpoints, every other context and every
    other key of the context except [nodes] being as before; and when
    the endpoints list was non-empty, is the parsed configuration itself,
    untouched. *)
Theorem fixTalosconfigEndpoints_non_destructive
    (tc : bytes) (name : string) (ips : list string)
    (config ctx : gmap string Value) :
  ips <> [] ->
  yaml_Unmarshal tc = Ok config ->
  contextOf config name = Some ctx ->
  exists config',
    fix_endpoints tc name ips =
      match yaml_Marshal config' with Ok fixed => fixed | Err _ => tc end
    /\ (endpointsOf config name = [] ->
          endpointsOf config' name = VString <$> ips
          /\ (exists ctx', contextOf config' name = Some ctx'
                /\ forall k, k <> "endpoints" -> k <> "nodes" -> ctx' !! k = ctx !! k)
          /\ (forall other, other <> name ->
                contextOf config' other = contextOf config other)
          /\ (forall k, k <> "contexts" -> config' !! k = config !! k))
    /\ (endpointsOf config name <> [] -> config' = config)
    /\ (forall kc url fs home,
          UserHomeDir = Ok home ->
          MkdirAll (filepath_Join home ".butler") = None ->
          (forall path, WriteFile_error path = None) ->
          saveClusterCredentials yaml_Unmarshal yaml_Marshal UserHomeDir
            filepath_Join MkdirAll WriteFile_error name
            {| kubeconfig := kc; talosconfig := tc; controlPlaneIPs := ips;
               consoleURL := url |} fs
          = (<[filepath_Join (filepath_Join home ".butler") (name +:+ "-talosconfig") :=
                 match yaml_Marshal config' with Ok fixed => fixed | Err _ => tc end]>
               (<[filepath_Join (filepath_Join home ".butler") (name +:+ "-kubeconfig") :=
                    kc]> fs),
             None)).
Proof.
  intros Hips Hu Hctx.
  assert (Hsave : forall out, fix_endpoints tc name ips = out ->
    forall kc url fs home,
      UserHomeDir = Ok home ->
      MkdirAll (filepath_Join home ".butler") = None ->
      (forall path, WriteFile_error path = None) ->
      saveClusterCredentials yaml_Unmarshal yaml_Marshal UserHomeDir
        filepath_Join MkdirAll WriteFile_error name
        {| kubeconfig := kc; talosconfig := tc; controlPlaneIPs := ips;
           consoleURL := url |} fs
      = (<[filepath_Join (filepath_Join home ".butler") (name +:+ "-talosconfig") := out]>
           (<[filepath_Join (filepath_Join home ".butler") (name +:+ "-kubeconfig") :=
                kc]> fs),
         None)).
  { intros out <- kc url fs home Hh Hm Hw. unfold saveClusterCredentials.
    rewrite Hh, Hm, !Hw. reflexivity. }
  revert Hsave.
  pose proof Hctx as Hctx0.
  apply contextOf_Some in Hctx as (contexts & Hc & Hx).
  rewrite (fix_endpoints_parsed tc name ips config contexts ctx Hips Hu Hc Hx).
  assert (He : endpointsOf config name = listOrNil (ctx !! "endpoints")).
  { unfold endpointsOf. fold (contextOf config name). by rewrite Hctx0. }
  rewrite He. intros Hsave.
  destruct (length (listOrNil (ctx !! "endpoints")) =? 0)%nat eqn:E.
  - eexists. split; [reflexivity|].
    split; [|split; [by apply length_zero_iff_nil in E|by apply Hsave]].
    intros _.
    assert (Hnew : contextOf
      (mapSet "contexts" (VMap (mapSet name (VMap (repairContext ips ctx)) contexts))
         config) name = Some (repairContext ips ctx)).
    { unfold contextOf, mapSet. simpl. rewrite lookup_insert_eq. simpl.
      by rewrite lookup_insert_eq. }
    split; [|split; [|split]].
    + unfold endpointsOf. fold (contextOf (mapSet "contexts"
        (VMap (mapSet name (VMap (repairContext ips ctx)) contexts)) config) name).
      rewrite Hnew. by rewrite (proj1 (repairContext_endpoints ips ctx)).
    + exists (repairContext ips ctx). split; [done|].
      apply repairContext_endpoints.
    + intros other Hne. unfold contextOf, mapSet. simpl.
      rewrite lookup_insert_eq, Hc. simpl. by rewrite lookup_insert_ne.
    + intros k Hk. unfold mapSet. by rewrite lookup_insert_ne.
  - exists config. split; [reflexivity|]. split; [|split; [done|by apply Hsave]].
    intros Hnil. rewrite Hnil in E. done.
Qed.

(** C10. [fixTalosconfigEndpoints] returns its input unchanged when the
    list of collected addresses is empty, when the talosconfig does not
    parse, and when the configuration has no [contexts] map or no map for
    the cluster under it.  When it repairs an empty endpoints list of a
    context that has no [nodes] entry, the configuration it encodes has
    the collected addresses as the context's [nodes] as well as its
    [endpoints]. *)
Theorem fixTalosconfigEndpoints_frame (tc : bytes) (name : string) :
  fix_endpoints tc name [] = tc
  /\ (forall ips e, yaml_Unmarshal tc = Err e -> fix_endpoints tc name ips = tc)
  /\ (forall ips config,
        yaml_Unmarshal tc = Ok config -> contextOf config name = None ->
        fix_endpoints tc name ips = tc)
  /\ (forall ips config ctx,
        ips <> [] ->
        yaml_Unmarshal tc = Ok config ->
        contextOf config name = Some ctx ->
        endpointsOf config name = [] ->
        ctx !! "nodes" = None ->
        exists config' ctx',
          fix_endpoints tc name ips =
            match yaml_Marshal config' with Ok fixed => fixed | Err _ => tc end
          /\ contextOf config' name = Some ctx'
          /\ ctx' !! "nodes" = Some (stringsValue ips)
          /\ ctx' !! "endpoints" = Some (stringsValue ips)).
Proof.
  split; [done|]. split; [|split].
  - intros ips e He. unfold fixTalosconfigEndpoints. rewrite He.
    by destruct (_ =? _)%nat.
  - intros ips config Hu Hn. unfold fixTalosconfigEndpoints. rewrite Hu.
    destruct (_ =? _)%nat; [done|].
    apply contextOf_None in Hn as [->|(contexts & -> & ->)]; done.
  - intros ips config ctx Hips Hu Hctx He Hn.
    pose proof Hctx as Hctx0.
    apply contextOf_Some in Hctx as (contexts & Hc & Hx).
    rewrite (fix_endpoints_parsed tc name ips config contexts ctx Hips Hu Hc Hx).
    assert (He' : listOrNil (ctx !! "endpoints") = []).
    { rewrite <- He. unfold endpointsOf. fold (contextOf config name).
      by rewrite Hctx0. }
    rewrite He'. simpl (length [] =? 0)%nat. cbv iota.
    eexists. exists (repairContext ips ctx).
    split; [reflexivity|]. split; [|split].
    + unfold contextOf, mapSet. simpl. rewrite lookup_insert_eq. simpl.
      by rewrite lookup_insert_eq.
    + by apply repairContext_nodes.
    + apply repairContext_endpoints.
Qed.
End PersistFacts.

(** ** Deployer wait loops and throttling *)

(** The deployer's wait loops never block between two requests: no trace
    of theirs has a wait in it. *)
Lemma awaitEstablished_never_waits (name : string) (script : list Poll) :
  EvWait ∉ (awaitEstablished name script).1.
Proof.
  induction script as [|p script IH]; simpl; [by apply not_elem_of_nil|].
  destruct (ctxErr p); simpl.
  { intros H. apply list_elem_of_singleton in H. done. }
  assert (Hagain : EvWait ∉
    (let '(tr, r) := awaitEstablished name script in
     (EvCtxCheck :: EvGet (crdGVR, "", name) :: tr, r)).1).
  { destruct (awaitEstablished name script) as [tr r]. simpl in *.
    rewrite !not_elem_of_cons. done. }
  destruct (response p) as [crd|e]; [|done].
  destruct (nestedSlice _ _ _); [|done].
  destruct (existsb _ _); [|done].
  simpl. rewrite !not_elem_of_cons. split; [done|]. split; [done|].
  apply not_elem_of_nil.
Qed.

Lemma WaitForCRDs_never_waits (names : list string) (script : list Poll) :
  EvWait ∉ (WaitForCRDs names script).1.
Proof.
  revert script. induction names as [|name names IH]; intros script; simpl.
  { apply not_elem_of_nil. }
  pose proof (awaitEstablished_never_waits name script) as H.
  destruct (awaitEstablished name script) as [tr [[remaining|e]|]]; simpl in *;
    try done.
  specialize (IH remaining). destruct (WaitForCRDs names remaining) as [tr1 r1].
  simpl in *. rewrite elem_of_app. tauto.
Qed.

Lemma WaitForDeployment_never_waits (ns name : string) (script : list Poll) :
  EvWait ∉ (WaitForDeployment ns name script).1.
Proof.
  induction script as [|p script IH]; simpl; [by apply not_elem_of_nil|].
  destruct (ctxErr p); simpl.
  { intros H. apply list_elem_of_singleton in H. done. }
  assert (Hagain : EvWait ∉
    (let '(tr, r) := WaitForDeployment ns name script in
     (EvCtxCheck :: EvGet (deployGVR, ns, name) :: tr, r)).1).
  { destruct (WaitForDeployment ns name script) as [tr r]. simpl in *.
    rewrite !not_elem_of_cons. done. }
  destruct (response p) as [deploy|e]; [|done].
  destruct (_ && _); [|done].
  simpl. rewrite !not_elem_of_cons. split; [done|]. split; [done|].
  apply not_elem_of_nil.
Qed.

(** The bootstrap watcher, for comparison, blocks on its ticker before
    every request: all its traces are throttled. *)
Lemma watchLoop_throttled (DecodeString : string -> result bytes)
    (name lastPhase : string) (script : list Wake) (b : bool) :
  throttledFrom b (watchLoop DecodeString name lastPhase script).1 = true.
Proof.
  revert lastPhase b. induction script as [|w script IH]; intros lastPhase b;
    simpl; [done|].
  destruct w as [e|resp]; [done|].
  assert (Hlog : forall (c : bool) (ph : string) (tr : list Event),
    throttledFrom false tr = true ->
    throttledFrom false ((if c then [EvPhaseChanged ph] else []) ++ tr) = true).
  { by intros [] ph tr H. }
  assert (Hcont : forall lp (c : bool) (ph : string),
    throttledFrom b
      (let '(tr0, r) := watchLoop DecodeString name lp script in
       (EvWait :: EvGet (clusterBootstrapGVR, butlerNamespace, name)
          :: (if c then [EvPhaseChanged ph] else []) ++ tr0, r)).1 = true).
  { intros lp c ph. specialize (IH lp false).
    destruct (watchLoop DecodeString name lp script) as [tr0 r0]. simpl in *.
    by apply Hlog. }
  destruct resp as [cb|e]; [|exact (Hcont lastPhase false "")].
  destruct (asMap (Object cb !! "status")) as [status|];
    [|exact (Hcont lastPhase false "")].
  cbv zeta.
  destruct (streq (stringOrZero (status !! "phase")) "Ready").
  { destruct (DecodeString _); [destruct (DecodeString _)|]; simpl;
      by destruct (negb _). }
  destruct (streq (stringOrZero (status !! "phase")) "Failed").
  { simpl. by destruct (negb _). }
  apply Hcont.
Qed.

(** C2 (the code does not have the property). A deployment that is not
    ready at the first check and ready at the second: [WaitForDeployment]
    sends its two Get requests with only a non-blocking look at the
    context between them, and so does [WaitForCRDs] for a definition
    established at the second check.  Neither trace is throttled. *)
Theorem deployer_wait_loops_poll_without_pause :
  WaitForDeployment butlerNamespace "butler-bootstrap-controller"
    [live (Ok (sampleDeployment 1 0)); live (Ok (sampleDeployment 1 1))]
  = ([EvCtxCheck;
      EvGet (deployGVR, butlerNamespace, "butler-bootstrap-controller");
      EvCtxCheck;
      EvGet (deployGVR, butlerNamespace, "butler-bootstrap-controller")],
     Returned None)
  /\ throttled
       (WaitForDeployment butlerNamespace "butler-bootstrap-controller"
          [live (Ok (sampleDeployment 1 0)); live (Ok (sampleDeployment 1 1))]).1
     = false
  /\ WaitForCRDs ["providerconfigs.butler.butlerlabs.dev"]
       [live (Ok (sampleCRD "False")); live (Ok (sampleCRD "True"))]
     = ([EvCtxCheck;
         EvGet (crdGVR, "", "providerconfigs.butler.butlerlabs.dev");
         EvCtxCheck;
         EvGet (crdGVR, "", "providerconfigs.butler.butlerlabs.dev")],
        Returned None)
  /\ throttled
       (WaitForCRDs ["providerconfigs.butler.butlerlabs.dev"]
          [live (Ok (sampleCRD "False")); live (Ok (sampleCRD "True"))]).1
     = false.
Proof. repeat split; vm_compute; reflexivity. Qed.

(** ** Dry run *)





(** Outside dry-run mode the first thing [Run] does is create the
    substrate. *)
Lemma Run_creates_substrate (options : Options) (w : World) (cfg : Config) :
  DryRun options = false ->
  exists rest, (Run options w cfg).1 = CreateKINDCluster :: rest.
Proof.
  intros Hd. unfold Run. rewrite Hd.
  destruct (createKINDCluster w); [|by eexists].
  destruct (phases_bind _ _). by eexists.
Qed.


(** ** The watcher keeps polling through non-terminal observations *)

Lemma watchLoop_keeps_polling (DecodeString : string -> result bytes)
    (name lastPhase : string) (script : list Wake) :
  forallb keepsPolling script = true ->
  (watchLoop DecodeString name lastPhase script).2 = StillPolling.
Proof.
  revert lastPhase. induction script as [|w script IH]; intros lastPhase; simpl;
    [done|].
  intros H. apply andb_true_iff in H as [Hw Hs].
  destruct w as [e|[cb|e]]; simpl in Hw; [done| |].
  - destruct (asMap (Object cb !! "status")) as [status|].
    + cbv zeta. apply andb_true_iff in Hw as [H1 H2].
      apply negb_true_iff in H1, H2. rewrite H1, H2.
      specialize (IH (if negb (streq (stringOrZero (status !! "phase")) lastPhase)
                      then stringOrZero (status !! "phase") else lastPhase) Hs).
      by destruct (watchLoop _ _ _ script).
    + specialize (IH lastPhase Hs). by destruct (watchLoop _ _ _ script).
  - specialize (IH lastPhase Hs). by destruct (watchLoop _ _ _ script).
Qed.

(** ** The theorems at concrete inputs *)

(** A single-node configuration asking for three control-plane replicas
    and two workers. *)
Lemma single_node_sample :
  Topology (Cluster (sampleConfig "single-node" 3 2)) = "single-node"
  /\ (exists out cfg cs cp,
      LoadConfig (Ok "/home/op") sampleJoin sampleQuote
        (Ok (sampleConfig "single-node" 3 2)) = (out, Ok cfg)
      /\ IsSingleNode cfg = true
      /\ Replicas (ControlPlane (Cluster cfg)) = 1
      /\ clusterSpecOf (buildClusterBootstrapUnstructured cfg) = Some cs
      /\ cs !! "workers" = None
      /\ nestedMap cs ["controlPlane"] = Some cp
      /\ cp !! "replicas" = Some (VInt 1))
  /\ (exists cs,
      clusterSpecOf (buildClusterBootstrapUnstructured
                       (sampleConfig "single-node" 3 2)) = Some cs
      /\ cs !! "workers" = None).
Proof.
  split; [reflexivity|].
  exact (single_node_forces_one_replica_and_no_workers
           (Ok "/home/op") sampleJoin sampleQuote
           (sampleConfig "single-node" 3 2) eq_refl).
Defined.

(** The namespace manifest applied twice to an empty API server. *)
Lemma apply_twice_sample :
  faults emptyServer = []
  /\ applyResource sampleManifest emptyServer
     = ((applyResource sampleManifest emptyServer).1, None)
  /\ exists s2 existing,
      applyResource sampleManifest (applyResource sampleManifest emptyServer).1
        = (s2, None)
      /\ objects (applyResource sampleManifest emptyServer).1
           !! applyKey sampleManifest = Some existing
      /\ actions s2 = actions (applyResource sampleManifest emptyServer).1 ++
           [ActCreate (applyKey sampleManifest); ActGet (applyKey sampleManifest);
            ActUpdate (applyKey sampleManifest) (GetResourceVersion existing)]
      /\ dom (objects s2) = dom (objects (applyResource sampleManifest emptyServer).1)
      /\ size (objects s2) = size (objects (applyResource sampleManifest emptyServer).1)
      /\ objects s2 !! applyKey sampleManifest
         = Some (SetResourceVersion (pretty (revision s2)) sampleManifest)
      /\ (forall k, k <> applyKey sampleManifest ->
            objects s2 !! k
            = objects (applyResource sampleManifest emptyServer).1 !! k).
Proof.
  split; [reflexivity|].
  assert (H : applyResource sampleManifest emptyServer
              = ((applyResource sampleManifest emptyServer).1, None))
    by (vm_compute; reflexivity).
  split; [exact H|].
  exact (applyResource_twice_idempotent sampleManifest emptyServer
           (applyResource sampleManifest emptyServer).1 eq_refl H).
Defined.

(** The watcher shown [Pending] and then the failure of the spec's
    example. *)
Lemma failed_phase_sample :
  (watchBootstrap sampleDecode (sampleConfig "ha" 3 2)
     [Tick (Ok (withStatus (statusInPhase "Pending")))]).2 = StillPolling
  /\ asMap (Object (withStatus failedStatus) !! "status") = Some failedStatus
  /\ failedStatus !! "phase" = Some (VString "Failed")
  /\ failedStatus !! "failureReason" = Some (VString "QuotaExceeded")
  /\ failedStatus !! "failureMessage" = Some (VString "no IP addresses available")
  /\ exists e,
      (watchBootstrap sampleDecode (sampleConfig "ha" 3 2)
         ([Tick (Ok (withStatus (statusInPhase "Pending")))]
          ++ Tick (Ok (withStatus failedStatus)) :: [])).2 = Returned (Err e)
      /\ errorText e
         = "bootstrap failed: " +:+ "QuotaExceeded" +:+ " - "
           +:+ "no IP addresses available"
      /\ contains (errorText e) "QuotaExceeded"
      /\ contains (errorText e) "no IP addresses available".
Proof.
  assert (H1 : (watchBootstrap sampleDecode (sampleConfig "ha" 3 2)
                  [Tick (Ok (withStatus (statusInPhase "Pending")))]).2
               = StillPolling) by reflexivity.
  assert (H2 : asMap (Object (withStatus failedStatus) !! "status")
               = Some failedStatus) by reflexivity.
  assert (H3 : failedStatus !! "phase" = Some (VString "Failed")) by reflexivity.
  assert (H4 : failedStatus !! "failureReason" = Some (VString "QuotaExceeded"))
    by reflexivity.
  assert (H5 : failedStatus !! "failureMessage"
               = Some (VString "no IP addresses available")) by reflexivity.
  repeat (split; [assumption|]).
  exact (failed_phase_error_carries_reason_and_message sampleDecode
           (sampleConfig "ha" 3 2)
           [Tick (Ok (withStatus (statusInPhase "Pending")))] []
           (withStatus failedStatus) failedStatus
           "QuotaExceeded" "no IP addresses available" H1 H2 H3 H4 H5).
Defined.


(** What the watcher returns on that script. *)
Example ready_phase_sample_result :
  (watchBootstrap sampleDecode (sampleConfig "ha" 3 2)
     [Tick (Ok (withStatus (statusInPhase "Pending")));
      Tick (Ok (withStatus (statusInPhase "Provisioning-Machines")));
      Tick (Ok (withStatus (readyStatus "a3ViZQ==" "dGFsb3M=")))]).2
  = Returned (Ok {| kubeconfig := bytesOf "kube";
                    talosconfig := bytesOf "talos";
                    controlPlaneIPs := ["10.0.0.11"; "10.0.0.13"];
                    consoleURL := "https://butler.mgmt.local" |}).
Proof. reflexivity. Qed.

(** A payload that is not base64 makes the watcher fail. *)
Example ready_phase_bad_payload :
  (watchBootstrap sampleDecode (sampleConfig "ha" 3 2)
     [Tick (Ok (withStatus (readyStatus "not base64!" "dGFsb3M=")))]).2
  = Returned (Err (Wrap "decoding kubeconfig"
                     (Foreign "illegal base64 data at input byte 0"))).
Proof. reflexivity. Qed.

(** A talosconfig without endpoints, repaired with two addresses. *)
Lemma repair_sample :
  let tc := bytesOf "context: mgmt" in
  let ips := ["10.0.0.11"; "10.0.0.13"] in
  let config := sampleTalosconfig None in
  let ctx := mapLit [("ca", VString "LS0t")] in
  ips <> []
  /\ sampleUnmarshal config tc = Ok config
  /\ contextOf config "mgmt" = Some ctx
  /\ exists config',
      fixTalosconfigEndpoints (sampleUnmarshal config) sampleMarshal tc "mgmt" ips =
        match sampleMarshal config' with Ok fixed => fixed | Err _ => tc end
      /\ (endpointsOf config "mgmt" = [] ->
            endpointsOf config' "mgmt" = VString <$> ips
            /\ (exists ctx', contextOf config' "mgmt" = Some ctx'
                  /\ forall k, k <> "endpoints" -> k <> "nodes" -> ctx' !! k = ctx !! k)
            /\ (forall other, other <> "mgmt" ->
                  contextOf config' other = contextOf config other)
            /\ (forall k, k <> "contexts" -> config' !! k = config !! k))
      /\ (endpointsOf config "mgmt" <> [] -> config' = config)
      /\ (forall kc url fs home,
            Ok "/home/op" = Ok home ->
            sampleMkdirAll (sampleJoin home ".butler") = None ->
            (forall path, sampleWriteFile path = None) ->
            saveClusterCredentials (sampleUnmarshal config) sampleMarshal
              (Ok "/home/op") sampleJoin sampleMkdirAll sampleWriteFile "mgmt"
              {| kubeconfig := kc; talosconfig := tc; controlPlaneIPs := ips;
                 consoleURL := url |} fs
            = (<[sampleJoin (sampleJoin home ".butler") ("mgmt" +:+ "-talosconfig") :=
                   match sampleMarshal config' with Ok fixed => fixed | Err _ => tc end]>
                 (<[sampleJoin (sampleJoin home ".butler") ("mgmt" +:+ "-kubeconfig") :=
                      kc]> fs),
               None)).
Proof.
  cbv zeta.
  assert (H1 : ["10.0.0.11"; "10.0.0.13"] <> @nil string) by discriminate.
  assert (H2 : sampleUnmarshal (sampleTalosconfig None) (bytesOf "context: mgmt")
               = Ok (sampleTalosconfig None)) by reflexivity.
  assert (H3 : contextOf (sampleTalosconfig None) "mgmt"
               = Some (mapLit [("ca", VString "LS0t")])) by reflexivity.
  repeat (split; [assumption|]).
  exact (fixTalosconfigEndpoints_non_destructive
           (sampleUnmarshal (sampleTalosconfig None)) sampleMarshal
           (Ok "/home/op") sampleJoin sampleMkdirAll sampleWriteFile
           (bytesOf "context: mgmt") "mgmt" ["10.0.0.11"; "10.0.0.13"]
           (sampleTalosconfig None) (mapLit [("ca", VString "LS0t")]) H1 H2 H3).
Defined.

(** A talosconfig that already lists an endpoint keeps its list. *)
Example repair_keeps_endpoints :
  let config := sampleTalosconfig (Some (VList [VString "192.168.1.5"])) in
  endpointsOf config "mgmt" = [VString "192.168.1.5"]
  /\ forall marshal tc,
      fixTalosconfigEndpoints (sampleUnmarshal config) marshal
        (Byte.x61 :: tc) "mgmt" ["10.0.0.11"]
      = match marshal config with Ok fixed => fixed | Err _ => Byte.x61 :: tc end.
Proof.
  cbv zeta. split; [reflexivity|]. intros marshal tc.
  rewrite (fix_endpoints_parsed _ marshal (Byte.x61 :: tc) "mgmt" ["10.0.0.11"]
             (sampleTalosconfig (Some (VList [VString "192.168.1.5"])))
             (mapLit [("mgmt", VMap (mapLit [
                ("endpoints", VList [VString "192.168.1.5"]);
                ("ca", VString "LS0t")]))])
             (mapLit [("endpoints", VList [VString "192.168.1.5"]);
                      ("ca", VString "LS0t")])); done.
Qed.


(** The request lines of that dry run, and of a single-node one. *)
Example dry_run_sample_lines :
  (List.filter (fun l => isControlPlaneRequest l || isWorkerRequest l)
     <$> dryRun [] (sampleConfig "ha" 3 2))
  = Some [ControlPlaneRequest "mgmt" 0 4 8192; ControlPlaneRequest "mgmt" 1 4 8192;
          ControlPlaneRequest "mgmt" 2 4 8192;
          WorkerRequest "mgmt" 0 4 8192; WorkerRequest "mgmt" 1 4 8192]
  /\ (List.filter (fun l => isControlPlaneRequest l || isWorkerRequest l)
        <$> dryRun [] (sampleConfig "single-node" 1 2))
     = Some [ControlPlaneRequest "mgmt" 0 4 8192]
  /\ renderLine (fun _ => "") (WorkerRequest "mgmt" 1 4 8192)
     = "- mgmt-worker-1 (worker, 4 CPU, 8192 MB RAM)".
Proof. repeat split; vm_compute; reflexivity. Qed.

(** A real run of the same configuration goes through every phase and
    cleans up. *)
Example real_run_sample :
  Run (sampleOptions false) sampleWorld (sampleConfig "ha" 3 2)
  = ([CreateKINDCluster; CreateClients; DeployCRDs; CreateNamespaceAndSecrets;
      DeployControllers; SubmitProviderConfig; SubmitClusterBootstrap;
      WatchBootstrap; SaveClusterCredentials; DeleteKINDCluster],
     Return None).
Proof. vm_compute. reflexivity. Qed.

(** Sending an update without the stored version is refused: the
    server's check is what makes carrying the version forward necessary. *)
Example blind_update_conflicts :
  (Update (ClusterScoped (gvkToGVR (ObjectGroupVersionKind sampleManifest)))
     sampleManifest (applyResource sampleManifest emptyServer).1).2
  = Err (StatusError ReasonConflict).
Proof. vm_compute. reflexivity. Qed.

(** A second submission of an intent object fails and stores nothing new. *)
Example second_submission_fails :
  let s1 := (createClusterBootstrap (sampleConfig "ha" 3 2) emptyServer).1 in
  (createClusterBootstrap (sampleConfig "ha" 3 2) emptyServer).2 = None
  /\ (createClusterBootstrap (sampleConfig "ha" 3 2) s1).2
     = Some (Wrap "creating ClusterBootstrap" (StatusError ReasonAlreadyExists))
  /\ size (objects (createClusterBootstrap (sampleConfig "ha" 3 2) s1).1) = 1%nat.
Proof. repeat split; vm_compute; reflexivity. Qed.

(** The watcher, cancelled while the cluster is still provisioning,
    returns the context's error as it is. *)
Example cancelled_watch_sample :
  watchBootstrap sampleDecode (sampleConfig "ha" 3 2)
    [Tick (Ok (withStatus (statusInPhase "Pending"))); CtxDone Canceled]
  = ([EvWait; EvGet (clusterBootstrapGVR, butlerNamespace, "mgmt");
      EvPhaseChanged "Pending"; EvWait],
     Returned (Err Canceled))
  /\ (WaitForDeployment butlerNamespace "butler-provider-harvester"
        [live (Ok (sampleDeployment 1 0));
         {| ctxErr := Some DeadlineExceeded;
            response := Err DeadlineExceeded |}]).2
     = Returned (Some DeadlineExceeded).
Proof. repeat split; vm_compute; reflexivity. Qed.

(** * Further properties *)

Set Warnings "-clear-no-such-hyp".

(** ** Loading the configuration *)

Section LoadConfigMore.
Variable UserHomeDir : result string.
Variable filepath_Join : string -> string -> string.
Variable Quote : string -> string.

Local Abbreviation load := (LoadConfig UserHomeDir filepath_Join Quote).
Local Abbreviation expand := (expandPaths UserHomeDir filepath_Join).

(** Splits on a conditional whose test has no conditional inside. *)
Local Ltac split_inner_if :=
  match goal with
  | |- context [if ?b then _ else _] =>
      lazymatch b with
      | context [if _ then _ else _] => fail
      | _ => destruct b eqn:?
      end
  end.

(** What [LoadConfig] returns once the topology is accepted. *)
Lemma LoadConfig_accepted (raw : Config) :
  let c0 := defaultTopology (setDefaults raw) in
  negb (streq (Topology (Cluster c0)) "single-node")
    && negb (streq (Topology (Cluster c0)) "ha") = false ->
  load (Ok raw) =
    ((enforceSingleNode c0).1,
     Ok (expand (providerDefaults (consoleDefaults (enforceSingleNode c0).2)))).
Proof.
  cbv zeta. intros Hv. unfold LoadConfig. cbv zeta. rewrite Hv.
  by destruct (enforceSingleNode _).
Qed.

Lemma Topology_defaulted (raw : Config) :
  Topology (Cluster (defaultTopology (setDefaults raw)))
  = orDefault (Topology (Cluster raw)) "ha".
Proof.
  unfold defaultTopology, orDefault. rewrite Cluster_setDefaults.
  destruct (streq (Topology (Cluster raw)) ""); [done|].
  by rewrite Cluster_setDefaults.
Qed.

Lemma Cluster_enforceSingleNode_other (cfg : Config) :
  Topology (Cluster cfg) <> "single-node" -> enforceSingleNode cfg = ([], cfg).
Proof.
  intros Ht. unfold enforceSingleNode.
  destruct (streq (Topology (Cluster cfg)) "single-node") eqn:E; [|done].
  by apply streq_true in E.
Qed.

(** What a successful [LoadConfig] returned, block by block. *)
Lemma LoadConfig_Ok_inv (raw cfg : Config) (out : list string) :
  load (Ok raw) = (out, Ok cfg) ->
  out = (enforceSingleNode (defaultTopology (setDefaults raw))).1
  /\ cfg = expand (providerDefaults (consoleDefaults
             (enforceSingleNode (defaultTopology (setDefaults raw))).2))
  /\ (Topology (Cluster (defaultTopology (setDefaults raw))) = "single-node"
      \/ Topology (Cluster (defaultTopology (setDefaults raw))) = "ha").
Proof.
  unfold LoadConfig. generalize (setDefaults raw). intros cs. cbv zeta.
  generalize (defaultTopology cs). intros c0.
  destruct (streq (Topology (Cluster c0)) "single-node") eqn:E1;
    destruct (streq (Topology (Cluster c0)) "ha") eqn:E2; simpl;
    try discriminate;
    destruct (enforceSingleNode c0) as [o c1]; simpl; intros [= <- <-];
    (split; [reflexivity|split; [reflexivity|]]).
  - left. by apply streq_true in E1.
  - left. by apply streq_true in E1.
  - right. by apply streq_true in E2.
Qed.

(** What each block of [LoadConfig] leaves alone. *)
Local Ltac stage_cases :=
  cbv zeta;
  repeat first
    [ split_inner_if
    | match goal with
      | |- context [match ?o with Some _ => _ | None => _ end] => destruct o eqn:?
      end ];
  simpl; repeat split; reflexivity.

Lemma defaultTopology_frame (c : Config) :
  Provider (defaultTopology c) = Provider c
  /\ Network (defaultTopology c) = Network c
  /\ Talos (defaultTopology c) = Talos c
  /\ Addons (defaultTopology c) = Addons c
  /\ ProviderConfig (defaultTopology c) = ProviderConfig c.
Proof. unfold defaultTopology. stage_cases. Qed.

Lemma enforceSingleNode_frame (c : Config) :
  Provider (enforceSingleNode c).2 = Provider c
  /\ Network (enforceSingleNode c).2 = Network c
  /\ Talos (enforceSingleNode c).2 = Talos c
  /\ Addons (enforceSingleNode c).2 = Addons c
  /\ ProviderConfig (enforceSingleNode c).2 = ProviderConfig c.
Proof. unfold enforceSingleNode. stage_cases. Qed.

Lemma consoleDefaults_frame (c : Config) :
  Provider (consoleDefaults c) = Provider c
  /\ Network (consoleDefaults c) = Network c
  /\ Talos (consoleDefaults c) = Talos c
  /\ ProviderConfig (consoleDefaults c) = ProviderConfig c
  /\ CNI_Type (Addons (consoleDefaults c)) = CNI_Type (Addons c)
  /\ Storage_Type (Addons (consoleDefaults c)) = Storage_Type (Addons c)
  /\ LoadBalancer (Addons (consoleDefaults c)) = LoadBalancer (Addons c)
  /\ GitOps_Type (Addons (consoleDefaults c)) = GitOps_Type (Addons c)
  /\ CAPI (Addons (consoleDefaults c)) = CAPI (Addons c)
  /\ ButlerController (Addons (consoleDefaults c)) = ButlerController (Addons c).
Proof. unfold consoleDefaults. stage_cases. Qed.

Lemma providerDefaults_frame (c : Config) :
  Provider (providerDefaults c) = Provider c
  /\ Network (providerDefaults c) = Network c
  /\ Talos (providerDefaults c) = Talos c
  /\ Addons (providerDefaults c) = Addons c.
Proof. unfold providerDefaults. stage_cases. Qed.

Lemma expandPaths_frame (c : Config) :
  Provider (expand c) = Provider c
  /\ Network (expand c) = Network c
  /\ Talos (expand c) = Talos c
  /\ Addons (expand c) = Addons c.
Proof. unfold expandPaths. stage_cases. Qed.

(** The "Set defaults" block is its seven conditional assignments in
    sequence. *)
Lemma setDefaults_chain (c : Config) :
  setDefaults c =
    defaulting (fun c => GitOps_Type (Addons c))
      (fun v => set_Addons (set_GitOps_Type v)) "flux"
    (defaulting (fun c => LoadBalancer_Type (LoadBalancer (Addons c)))
      (fun v => set_Addons (set_LoadBalancer_Type v)) "metallb"
    (defaulting (fun c => Storage_Type (Addons c))
      (fun v => set_Addons (set_Storage_Type v)) "longhorn"
    (defaulting (fun c => CNI_Type (Addons c))
      (fun v => set_Addons (set_CNI_Type v)) "cilium"
    (defaulting (fun c => Talos_Version (Talos c)) set_Talos_Version "v1.9.0"
    (defaulting (fun c => ServiceCIDR (Network c)) set_ServiceCIDR "10.96.0.0/12"
    (defaulting (fun c => PodCIDR (Network c)) set_PodCIDR "10.244.0.0/16" c)))))).
Proof. reflexivity. Qed.

(** One conditional assignment, field by field. *)
Local Ltac one_assignment :=
  intros c; unfold defaulting, orDefault;
  destruct c as [p cl [pod svc vip] [tv sch]
                 [cni sto [lbt pool] git capi bc con] pcfg];
  cbn; destruct (streq _ ""); repeat split; reflexivity.

Lemma defaulting_PodCIDR (d : string) : forall c,
  let c' := defaulting (fun c => PodCIDR (Network c)) set_PodCIDR d c in
  Provider c' = Provider c /\ ProviderConfig c' = ProviderConfig c
  /\ Talos c' = Talos c /\ Addons c' = Addons c
  /\ Network c' = {| PodCIDR := orDefault (PodCIDR (Network c)) d;
                     ServiceCIDR := ServiceCIDR (Network c);
                     VIP := VIP (Network c) |}.
Proof. one_assignment. Qed.

Lemma defaulting_ServiceCIDR (d : string) : forall c,
  let c' := defaulting (fun c => ServiceCIDR (Network c)) set_ServiceCIDR d c in
  Provider c' = Provider c /\ ProviderConfig c' = ProviderConfig c
  /\ Talos c' = Talos c /\ Addons c' = Addons c
  /\ Network c' = {| PodCIDR := PodCIDR (Network c);
                     ServiceCIDR := orDefault (ServiceCIDR (Network c)) d;
                     VIP := VIP (Network c) |}.
Proof. one_assignment. Qed.

Lemma defaulting_Talos_Version (d : string) : forall c,
  let c' := defaulting (fun c => Talos_Version (Talos c)) set_Talos_Version d c in
  Provider c' = Provider c /\ ProviderConfig c' = ProviderConfig c
  /\ Network c' = Network c /\ Addons c' = Addons c
  /\ Talos c' = {| Talos_Version := orDefault (Talos_Version (Talos c)) d;
                   Schematic := Schematic (Talos c) |}.
Proof. one_assignment. Qed.

Lemma defaulting_CNI_Type (d : string) : forall c,
  let c' := defaulting (fun c => CNI_Type (Addons c))
              (fun v => set_Addons (set_CNI_Type v)) d c in
  Provider c' = Provider c /\ ProviderConfig c' = ProviderConfig c
  /\ Network c' = Network c /\ Talos c' = Talos c
  /\ Addons c' = set_CNI_Type (orDefault (CNI_Type (Addons c)) d) (Addons c).
Proof. one_assignment. Qed.

Lemma defaulting_Storage_Type (d : string) : forall c,
  let c' := defaulting (fun c => Storage_Type (Addons c))
              (fun v => set_Addons (set_Storage_Type v)) d c in
  Provider c' = Provider c /\ ProviderConfig c' = ProviderConfig c
  /\ Network c' = Network c /\ Talos c' = Talos c
  /\ Addons c' = set_Storage_Type (orDefault (Storage_Type (Addons c)) d) (Addons c).
Proof. one_assignment. Qed.

Lemma defaulting_LoadBalancer_Type (d : string) : forall c,
  let c' := defaulting (fun c => LoadBalancer_Type (LoadBalancer (Addons c)))
              (fun v => set_Addons (set_LoadBalancer_Type v)) d c in
  Provider c' = Provider c /\ ProviderConfig c' = ProviderConfig c
  /\ Network c' = Network c /\ Talos c' = Talos c
  /\ Addons c' = set_LoadBalancer_Type
                   (orDefault (LoadBalancer_Type (LoadBalancer (Addons c))) d)
                   (Addons c).
Proof. one_assignment. Qed.

Lemma defaulting_GitOps_Type (d : string) : forall c,
  let c' := defaulting (fun c => GitOps_Type (Addons c))
              (fun v => set_Addons (set_GitOps_Type v)) d c in
  Provider c' = Provider c /\ ProviderConfig c' = ProviderConfig c
  /\ Network c' = Network c /\ Talos c' = Talos c
  /\ Addons c' = set_GitOps_Type (orDefault (GitOps_Type (Addons c)) d) (Addons c).
Proof. one_assignment. Qed.

(** The "Set defaults" block fills exactly the empty fields. *)
Lemma setDefaults_fields (c : Config) :
  Provider (setDefaults c) = Provider c
  /\ ProviderConfig (setDefaults c) = ProviderConfig c
  /\ Network (setDefaults c) =
       {| PodCIDR := orDefault (PodCIDR (Network c)) "10.244.0.0/16";
          ServiceCIDR := orDefault (ServiceCIDR (Network c)) "10.96.0.0/12";
          VIP := VIP (Network c) |}
  /\ Talos (setDefaults c) =
       {| Talos_Version := orDefault (Talos_Version (Talos c)) "v1.9.0";
          Schematic := Schematic (Talos c) |}
  /\ Addons (setDefaults c) =
       {| CNI_Type := orDefault (CNI_Type (Addons c)) "cilium";
          Storage_Type := orDefault (Storage_Type (Addons c)) "longhorn";
          LoadBalancer :=
            {| LoadBalancer_Type :=
                 orDefault (LoadBalancer_Type (LoadBalancer (Addons c))) "metallb";
               AddressPool := AddressPool (LoadBalancer (Addons c)) |};
          GitOps_Type := orDefault (GitOps_Type (Addons c)) "flux";
          CAPI := CAPI (Addons c);
          ButlerController := ButlerController (Addons c);
          Console := Console (Addons c) |}.
Proof.
  rewrite setDefaults_chain.
  match goal with |- context [defaulting _ _ "flux" ?x] =>
    destruct (defaulting_GitOps_Type "flux" x) as (-> & -> & -> & -> & ->) end.
  match goal with |- context [defaulting _ _ "metallb" ?x] =>
    destruct (defaulting_LoadBalancer_Type "metallb" x) as (-> & -> & -> & -> & ->) end.
  match goal with |- context [defaulting _ _ "longhorn" ?x] =>
    destruct (defaulting_Storage_Type "longhorn" x) as (-> & -> & -> & -> & ->) end.
  match goal with |- context [defaulting _ _ "cilium" ?x] =>
    destruct (defaulting_CNI_Type "cilium" x) as (-> & -> & -> & -> & ->) end.
  match goal with |- context [defaulting _ _ "v1.9.0" ?x] =>
    destruct (defaulting_Talos_Version "v1.9.0" x) as (-> & -> & -> & -> & ->) end.
  match goal with |- context [defaulting _ _ "10.96.0.0/12" ?x] =>
    destruct (defaulting_ServiceCIDR "10.96.0.0/12" x) as (-> & -> & -> & -> & ->) end.
  destruct (defaulting_PodCIDR "10.244.0.0/16" c) as (-> & -> & -> & -> & ->).
  repeat split; reflexivity.
Qed.

(** X1. [LoadConfig] rejects a decoded configuration for its topology
    only: with topology empty, [single-node] or [ha] it succeeds whatever
    the provider, the name, the VIP and the replica counts are (an empty
    topology becoming [ha]); with any other topology it prints nothing and
    returns the error that quotes the topology. *)
Theorem LoadConfig_rejects_only_unknown_topology (raw : Config) :
  let t := Topology (Cluster raw) in
  (t = "" \/ t = "single-node" \/ t = "ha" ->
     exists out cfg,
       load (Ok raw) = (out, Ok cfg)
       /\ Topology (Cluster cfg) = orDefault t "ha"
       /\ Provider cfg = Provider raw)
  /\ (t <> "" -> t <> "single-node" -> t <> "ha" ->
      load (Ok raw) =
        ([], Err (ErrorText ("invalid topology " +:+ Quote t
                             +:+ ", must be 'single-node' or 'ha'")))).
Proof.
  cbv zeta. split.
  - intros Ht.
    assert (Hv : orDefault (Topology (Cluster raw)) "ha" = "single-node"
                 \/ orDefault (Topology (Cluster raw)) "ha" = "ha").
    { destruct Ht as [-> | [-> | ->]]; vm_compute; auto. }
    rewrite LoadConfig_accepted.
    2:{ cbv zeta. rewrite Topology_defaulted. by destruct Hv as [-> | ->]. }
    eexists _, _. split; [reflexivity|].
    rewrite Cluster_expandPaths, Cluster_providerDefaults, Cluster_consoleDefaults.
    split.
    + rewrite <- Topology_defaulted.
      destruct (decide (Topology (Cluster (defaultTopology (setDefaults raw)))
                        = "single-node")) as [E|E].
      * by destruct (enforceSingleNode_single _ E) as [-> _].
      * by rewrite Cluster_enforceSingleNode_other.
    + rewrite (proj1 (expandPaths_frame _)), (proj1 (providerDefaults_frame _)),
        (proj1 (consoleDefaults_frame _)), (proj1 (enforceSingleNode_frame _)),
        (proj1 (defaultTopology_frame _)).
      apply setDefaults_fields.
  - intros H1 H2 H3. unfold LoadConfig. cbv zeta.
    rewrite Topology_defaulted. unfold orDefault.
    destruct (streq (Topology (Cluster raw)) "") eqn:E1;
      [by apply streq_true in E1|].
    destruct (streq (Topology (Cluster raw)) "single-node") eqn:E2;
      [by apply streq_true in E2|].
    destruct (streq (Topology (Cluster raw)) "ha") eqn:E3;
      [by apply streq_true in E3|].
    reflexivity.
Qed.
(** X2. A configuration [LoadConfig] accepts comes back with every
    network, Talos and add-on type field the user set kept as it was, and
    every such field left empty replaced by its default (pod CIDR
    10.244.0.0/16, service CIDR 10.96.0.0/12, Talos v1.9.0, cilium,
    longhorn, metallb, flux); the VIP, the schematic, the address pool and
    the CAPI and controller settings are never touched. *)
Theorem LoadConfig_fills_only_empty_fields (raw cfg : Config) (out : list string) :
  load (Ok raw) = (out, Ok cfg) ->
  Network cfg =
    {| PodCIDR := orDefault (PodCIDR (Network raw)) "10.244.0.0/16";
       ServiceCIDR := orDefault (ServiceCIDR (Network raw)) "10.96.0.0/12";
       VIP := VIP (Network raw) |}
  /\ Talos cfg =
       {| Talos_Version := orDefault (Talos_Version (Talos raw)) "v1.9.0";
          Schematic := Schematic (Talos raw) |}
  /\ CNI_Type (Addons cfg) = orDefault (CNI_Type (Addons raw)) "cilium"
  /\ Storage_Type (Addons cfg) = orDefault (Storage_Type (Addons raw)) "longhorn"
  /\ LoadBalancer (Addons cfg) =
       {| LoadBalancer_Type :=
            orDefault (LoadBalancer_Type (LoadBalancer (Addons raw))) "metallb";
          AddressPool := AddressPool (LoadBalancer (Addons raw)) |}
  /\ GitOps_Type (Addons cfg) = orDefault (GitOps_Type (Addons raw)) "flux"
  /\ CAPI (Addons cfg) = CAPI (Addons raw)
  /\ ButlerController (Addons cfg) = ButlerController (Addons raw).
Proof.
  intros Hl. destruct (LoadConfig_Ok_inv raw cfg out Hl) as (_ & -> & _). clear Hl.
  generalize (setDefaults_fields raw). generalize (setDefaults raw).
  intros cs (_ & _ & Hn & Ht & Ha).
  generalize (defaultTopology_frame cs). generalize (defaultTopology cs).
  intros c0 (_ & Hn0 & Ht0 & Ha0 & _).
  generalize (enforceSingleNode_frame c0). generalize (enforceSingleNode c0).
  intros [o c1] (_ & Hn1 & Ht1 & Ha1 & _). simpl in *.
  generalize (consoleDefaults_frame c1). generalize (consoleDefaults c1).
  intros c2 (_ & Hn2 & Ht2 & _ & Hcni & Hsto & Hlb & Hgit & Hcapi & Hbc).
  generalize (providerDefaults_frame c2). generalize (providerDefaults c2).
  intros c3 (_ & Hn3 & Ht3 & Ha3).
  generalize (expandPaths_frame c3). generalize (expand c3).
  intros c4 (_ & Hn4 & Ht4 & Ha4).
  rewrite Hn4, Hn3, Hn2, Hn1, Hn0, Hn, Ht4, Ht3, Ht2, Ht1, Ht0, Ht, Ha4, Ha3.
  rewrite Hcni, Hsto, Hlb, Hgit, Hcapi, Hbc, Ha1, Ha0, Ha.
  repeat split; reflexivity.
Qed.
(** The cluster block after the two topology blocks. *)
Lemma Cluster_topology_blocks (c : Config) :
  let k := Cluster c in
  let out_cfg := enforceSingleNode (defaultTopology c) in
  Name (Cluster out_cfg.2) = Name k
  /\ Workers (Cluster out_cfg.2) = Workers k
  /\ CPU (ControlPlane (Cluster out_cfg.2)) = CPU (ControlPlane k)
  /\ MemoryMB (ControlPlane (Cluster out_cfg.2)) = MemoryMB (ControlPlane k)
  /\ DiskGB (ControlPlane (Cluster out_cfg.2)) = DiskGB (ControlPlane k)
  /\ ExtraDisks (ControlPlane (Cluster out_cfg.2)) = ExtraDisks (ControlPlane k)
  /\ (Topology k <> "single-node" ->
        Replicas (ControlPlane (Cluster out_cfg.2)) = Replicas (ControlPlane k)
        /\ out_cfg.1 = [])
  /\ (Topology k = "single-node" ->
        Replicas (ControlPlane (Cluster out_cfg.2)) = 1
        /\ out_cfg.1 = if 1 <? Replicas (ControlPlane k)
                       then [replicasWarning (Replicas (ControlPlane k))] else []).
Proof.
  cbv zeta. unfold enforceSingleNode, defaultTopology, replicasWarning.
  destruct c as [p [name topo [r cpu mem disk extra] workers] net tal add pcfg].
  simpl.
  destruct (streq topo "") eqn:E0; simpl.
  - apply streq_true in E0. subst topo.
    change (streq "ha" "single-node") with false. simpl.
    repeat split; try done.
  - destruct (streq topo "single-node") eqn:E1; simpl.
    + apply streq_true in E1. subst topo.
      destruct (Z.eqb_spec r 1) as [->|Hr]; simpl.
      * repeat split; try done.
      * repeat split; try done.
    + apply streq_false in E1. repeat split; try done.
Qed.

(** X3. Of the cluster block, [LoadConfig] changes the control-plane
    replica count in single-node topology and nothing else: the name, the
    workers pool and the control-plane sizing come back as given, and
    outside single-node topology so does the replica count, whatever it is
    (zero and negative counts included), with nothing printed.  In
    single-node topology the warning is printed exactly when the given
    count is above one. *)
Theorem LoadConfig_cluster_block (raw cfg : Config) (out : list string) :
  load (Ok raw) = (out, Ok cfg) ->
  Name (Cluster cfg) = Name (Cluster raw)
  /\ Workers (Cluster cfg) = Workers (Cluster raw)
  /\ CPU (ControlPlane (Cluster cfg)) = CPU (ControlPlane (Cluster raw))
  /\ MemoryMB (ControlPlane (Cluster cfg)) = MemoryMB (ControlPlane (Cluster raw))
  /\ DiskGB (ControlPlane (Cluster cfg)) = DiskGB (ControlPlane (Cluster raw))
  /\ ExtraDisks (ControlPlane (Cluster cfg)) = ExtraDisks (ControlPlane (Cluster raw))
  /\ (Topology (Cluster raw) <> "single-node" ->
        Replicas (ControlPlane (Cluster cfg)) = Replicas (ControlPlane (Cluster raw))
        /\ out = [])
  /\ (Topology (Cluster raw) = "single-node" ->
        Replicas (ControlPlane (Cluster cfg)) = 1
        /\ out = if 1 <? Replicas (ControlPlane (Cluster raw))
                 then [replicasWarning (Replicas (ControlPlane (Cluster raw)))]
                 else []).
Proof.
  intros Hl. destruct (LoadConfig_Ok_inv raw cfg out Hl) as (-> & -> & _). clear Hl.
  rewrite Cluster_expandPaths, Cluster_providerDefaults, Cluster_consoleDefaults.
  rewrite <- (Cluster_setDefaults raw). generalize (setDefaults raw). intros cs.
  exact (Cluster_topology_blocks cs).
Qed.
Lemma orDefault_nonempty (v d : string) : d <> "" -> orDefault v d <> "".
Proof.
  intros Hd. unfold orDefault. destruct (streq v "") eqn:E; [done|].
  by apply streq_false in E.
Qed.

(** Rewrites the tests the hypotheses decide. *)
Local Ltac decide_tests :=
  repeat match goal with
         | H : ?x <> ?y |- context [streq ?x ?y] =>
             rewrite (proj2 (streq_false x y) H); cbv iota
         | H : ?x = ?y |- context [streq ?x ?y] =>
             rewrite (proj2 (streq_true x y) H); cbv iota
         end.

(** On a settled configuration every block but the path expansion is the
    identity, and nothing is printed. *)
Lemma settled_blocks (c : Config) :
  settled c ->
  setDefaults c = c
  /\ defaultTopology c = c
  /\ negb (streq (Topology (Cluster c)) "single-node")
     && negb (streq (Topology (Cluster c)) "ha") = false
  /\ enforceSingleNode c = ([], c)
  /\ consoleDefaults c = c
  /\ providerDefaults c = c.
Proof.
  intros (H1 & H2 & H3 & H4 & H5 & H6 & H7 & Ht & Hc & Hp).
  split; [|split; [|split; [|split; [|split]]]].
  - unfold setDefaults. cbv zeta. by decide_tests.
  - unfold defaultTopology.
    destruct (streq (Topology (Cluster c)) "") eqn:E; [|done].
    apply streq_true in E. rewrite E in Ht. by destruct Ht as [?|[? _]].
  - destruct Ht as [-> | [-> _]]; reflexivity.
  - unfold enforceSingleNode. destruct Ht as [Ht | [Ht Hr]]; rewrite Ht.
    + reflexivity.
    + change (streq "single-node" "single-node") with true. cbv iota zeta.
      rewrite Hr. reflexivity.
  - unfold consoleDefaults.
    destruct (Console_Enabled (Console (Addons c))) eqn:E; [|done].
    destruct (Hc eq_refl) as [Hv Hh]. cbv zeta. decide_tests.
    destruct (Ingress_Enabled (Ingress (Console (Addons c)))) eqn:Ei; [|done].
    specialize (Hh eq_refl). by decide_tests.
  - unfold providerDefaults.
    destruct (Nutanix (ProviderConfig c)) as [n|] eqn:En; [|done].
    destruct (streq (Provider c) "nutanix") eqn:E; [|done].
    apply streq_true in E. specialize (Hp E n eq_refl).
    apply Z.eqb_neq in Hp. by rewrite Hp.
Qed.

(** What [LoadConfig] returns is settled. *)
Lemma LoadConfig_settles (raw cfg : Config) (out : list string) :
  load (Ok raw) = (out, Ok cfg) -> settled cfg.
Proof.
  intros Hl. destruct (LoadConfig_Ok_inv raw cfg out Hl) as (_ & -> & Hv). clear Hl.
  revert Hv.
  generalize (setDefaults_fields raw). generalize (setDefaults raw).
  intros cs (_ & _ & Hn & Ht & Ha).
  generalize (defaultTopology_frame cs). generalize (defaultTopology cs).
  intros c0 (_ & Hn0 & Ht0 & Ha0 & _) Hv.
  pose proof (enforceSingleNode_single c0) as Hsn.
  pose proof (Cluster_enforceSingleNode_other c0) as Hot.
  revert Hsn Hot.
  generalize (enforceSingleNode_frame c0). generalize (enforceSingleNode c0).
  intros [o c1] (_ & Hn1 & Ht1 & Ha1 & _) Hsn Hot. simpl in *.
  assert (Hconsole :
    Console_Enabled (Console (Addons (consoleDefaults c1))) = true ->
    Console_Version (Console (Addons (consoleDefaults c1))) <> ""
    /\ (Ingress_Enabled (Ingress (Console (Addons (consoleDefaults c1)))) = true ->
          Host (Ingress (Console (Addons (consoleDefaults c1)))) <> "")).
  { clear. unfold consoleDefaults.
    destruct c1 as [p cl net tal [cni sto lb git capi bc [en ver [ien host cls tls sec] auth]] pcfg].
    cbn. destruct en; [|done]. cbn.
    destruct (streq ver "") eqn:Ev; cbn;
      destruct ien; cbn; try destruct (streq host "") eqn:Eh; cbn;
      intros _; (split; [try done; by apply streq_false in Ev|]); intros Hi;
      try done; try (by apply streq_false in Eh). }
  revert Hconsole.
  generalize (consoleDefaults_frame c1), (Cluster_consoleDefaults c1).
  generalize (consoleDefaults c1).
  intros c2 (Hp2 & Hn2 & Ht2 & _ & Hcni & Hsto & Hlb & Hgit & _ & _) HcC Hconsole.
  assert (Hport : Provider (providerDefaults c2) = "nutanix" ->
    forall n, Nutanix (ProviderConfig (providerDefaults c2)) = Some n -> Port n <> 0).
  { clear. unfold providerDefaults.
    destruct (Nutanix (ProviderConfig c2)) as [n0|] eqn:En; [|by rewrite En].
    destruct (streq (Provider c2) "nutanix") eqn:E; simpl.
    - destruct (Z.eqb_spec (Port n0) 0) as [E0|E0]; simpl.
      + rewrite En. simpl. by intros _ n [= <-].
      + rewrite En. by intros _ n [= <-].
    - apply streq_false in E. done. }
  revert Hport.
  generalize (providerDefaults_frame c2), (Cluster_providerDefaults c2).
  generalize (providerDefaults c2).
  intros c3 (Hp3 & Hn3 & Ht3 & Ha3) HcC3 Hport.
  assert (Hnut : Nutanix (ProviderConfig (expand c3)) = Nutanix (ProviderConfig c3)).
  { unfold expandPaths. destruct (Harvester (ProviderConfig c3)); [|done].
    by destruct (negb _). }
  revert Hnut.
  generalize (expandPaths_frame c3), (Cluster_expandPaths UserHomeDir filepath_Join c3).
  generalize (expand c3).
  intros c4 (Hp4 & Hn4 & Ht4 & Ha4) HcC4 Hnut.
  unfold settled.
  rewrite Hn4, Hn3, Hn2, Hn1, Hn0, Hn, Ht4, Ht3, Ht2, Ht1, Ht0, Ht, Ha4, Ha3.
  rewrite Hcni, Hsto, Hlb, Hgit, Ha1, Ha0, Ha. simpl.
  repeat (split; [by apply orDefault_nonempty|]).
  split; [|split].
  - rewrite HcC4, HcC3, HcC.
    destruct (decide (Topology (Cluster c0) = "single-node")) as [E|E].
    + right. by apply Hsn.
    + left. specialize (Hot E). injection Hot as _ ->.
      by destruct Hv.
  - exact Hconsole.
  - rewrite Hp4, Hnut. exact Hport.
Qed.

(** X4. Loading is stable: a configuration [LoadConfig] returned, given to
    [LoadConfig] again, comes back unchanged and with nothing printed,
    provided expanding the home directory in it changes nothing (it has no
    Harvester kubeconfig path starting with a tilde). *)
Theorem LoadConfig_idempotent (raw cfg : Config) (out : list string) :
  load (Ok raw) = (out, Ok cfg) ->
  expand cfg = cfg ->
  load (Ok cfg) = ([], Ok cfg).
Proof.
  intros Hl He.
  destruct (settled_blocks cfg (LoadConfig_settles raw cfg out Hl))
    as (H1 & H2 & H3 & H4 & H5 & H6).
  rewrite (LoadConfig_accepted cfg); cbv zeta; rewrite H1, H2; [|exact H3].
  rewrite H4. cbn [fst snd]. by rewrite H5, H6, He.
Qed.

(** ** The console URL *)

Lemma GetConsoleURL_Addons (c c' : Config) :
  Addons c = Addons c' -> GetConsoleURL c = GetConsoleURL c'.
Proof. unfold GetConsoleURL. by intros ->. Qed.

Lemma consoleDefaults_URL (c : Config) :
  Console_Enabled (Console (Addons c)) = true ->
  Ingress_Enabled (Ingress (Console (Addons c))) = true ->
  GetConsoleURL (consoleDefaults c) =
    (if TLS (Ingress (Console (Addons c))) then "https" else "http") +:+ "://"
    +:+ orDefault (Host (Ingress (Console (Addons c))))
          ("butler." +:+ Name (Cluster c) +:+ ".local").
Proof.
  unfold GetConsoleURL, consoleDefaults, orDefault.
  destruct c as [p cl net tal [cni sto lb git capi bc [en ver [ien host cls tls sec] auth]] pcfg].
  cbn. intros -> ->. cbn.
  destruct (streq ver ""); cbn; destruct (streq host ""); reflexivity.
Qed.

(** X5. With the console and its ingress switched on, the console URL of
    a loaded configuration is the scheme ([https] with TLS, [http]
    without), [://] and the host: the host the user gave, or
    [butler.<cluster name>.local] when none was given.  The URL of a
    loaded configuration never has an empty host. *)
Theorem LoadConfig_console_URL (raw cfg : Config) (out : list string) :
  load (Ok raw) = (out, Ok cfg) ->
  Console_Enabled (Console (Addons raw)) = true ->
  Ingress_Enabled (Ingress (Console (Addons raw))) = true ->
  GetConsoleURL cfg =
    (if TLS (Ingress (Console (Addons raw))) then "https" else "http") +:+ "://"
    +:+ orDefault (Host (Ingress (Console (Addons raw))))
          ("butler." +:+ Name (Cluster raw) +:+ ".local").
Proof.
  intros Hl Hen Hin.
  destruct (LoadConfig_Ok_inv raw cfg out Hl) as (_ & -> & _). clear Hl.
  rewrite (GetConsoleURL_Addons _ _
             (proj2 (proj2 (proj2 (expandPaths_frame _))))).
  rewrite (GetConsoleURL_Addons _ _
             (proj2 (proj2 (proj2 (providerDefaults_frame _))))).
  assert (Ha : Addons (enforceSingleNode (defaultTopology (setDefaults raw))).2
               = Addons (setDefaults raw)).
  { destruct (enforceSingleNode_frame (defaultTopology (setDefaults raw)))
      as (_ & _ & _ & -> & _).
    by destruct (defaultTopology_frame (setDefaults raw)) as (_ & _ & _ & -> & _). }
  assert (Hc : Console (Addons (setDefaults raw)) = Console (Addons raw)).
  { by destruct (setDefaults_fields raw) as (_ & _ & _ & _ & ->). }
  assert (Hn : Name (Cluster (enforceSingleNode (defaultTopology (setDefaults raw))).2)
               = Name (Cluster raw)).
  { rewrite <- (Cluster_setDefaults raw).
    exact (proj1 (Cluster_topology_blocks (setDefaults raw))). }
  revert Ha Hn. generalize (enforceSingleNode (defaultTopology (setDefaults raw))).
  revert Hc. generalize (setDefaults raw). intros cs Hc [o c1] Ha Hn. simpl in *.
  rewrite consoleDefaults_URL; rewrite Ha, Hc; [|done..].
  by rewrite Hn.
Qed.
End LoadConfigMore.

(** X6. Whenever the console URL of a configuration is not empty, the dry
    run prints it, on its own line after the label [URL: ]. *)
Theorem dryRun_prints_console_URL (caCerts : list string) (cfg : Config)
    (lines : list Line) :
  dryRun caCerts cfg = Some lines ->
  GetConsoleURL cfg <> "" ->
  In (Text ("URL: " +:+ GetConsoleURL cfg)) lines.
Proof.
  unfold dryRun. destruct (buildProviderConfigUnstructured cfg) as [pc|]; [|done].
  unfold mbind, option_bind. cbv zeta. intros H. apply (inj Some) in H. subst lines.
  intros Hurl. unfold GetConsoleURL in *.
  destruct (Console_Enabled (Console (Addons cfg))); [|done].
  destruct (Ingress_Enabled (Ingress (Console (Addons cfg)))); [|done].
  unfold negb in *.
  do 7 (apply in_or_app; right). apply in_or_app; left. by left.
Qed.

(** ** The further theorems at concrete inputs *)

(** The HA sample, which leaves every defaulted field empty. *)
Lemma load_defaults_sample :
  exists out cfg,
    LoadConfig (Ok "/home/op") sampleJoin sampleQuote (Ok (sampleConfig "ha" 3 2))
      = (out, Ok cfg)
    /\ Network cfg = {| PodCIDR := "10.244.0.0/16"; ServiceCIDR := "10.96.0.0/12";
                        VIP := "10.0.0.10" |}
    /\ Talos_Version (Talos cfg) = "v1.9.0"
    /\ CNI_Type (Addons cfg) = "cilium"
    /\ Storage_Type (Addons cfg) = "longhorn"
    /\ GitOps_Type (Addons cfg) = "flux".
Proof.
  eexists _, _. split; [vm_compute; reflexivity|].
  pose proof (LoadConfig_fills_only_empty_fields (Ok "/home/op") sampleJoin
                sampleQuote (sampleConfig "ha" 3 2) _ _ eq_refl) as H.
  destruct H as (Hn & Ht & Hc & Hs & _ & Hg & _).
  repeat split; (etrans; [first [exact Hn | exact (f_equal Talos_Version Ht)
                               | exact Hc | exact Hs | exact Hg]|reflexivity]).
Defined.

(** The single-node sample asking for three control-plane replicas. *)
Lemma load_cluster_sample :
  exists out cfg,
    LoadConfig (Ok "/home/op") sampleJoin sampleQuote
      (Ok (sampleConfig "single-node" 3 2)) = (out, Ok cfg)
    /\ Name (Cluster cfg) = "mgmt"
    /\ Workers (Cluster cfg) = samplePool 2
    /\ Replicas (ControlPlane (Cluster cfg)) = 1
    /\ out = ["Warning: single-node topology forces controlPlane.replicas=1 (was 3)"].
Proof.
  eexists _, _. split; [vm_compute; reflexivity|].
  pose proof (LoadConfig_cluster_block (Ok "/home/op") sampleJoin
                sampleQuote (sampleConfig "single-node" 3 2) _ _ eq_refl) as H.
  destruct H as (Hn & Hw & _ & _ & _ & _ & _ & Hs).
  destruct (Hs eq_refl) as [Hr Ho].
  repeat split; (etrans; [first [exact Hn | exact Hw | exact Hr | exact Ho]
                         |reflexivity]).
Defined.

(** Loading the HA sample, and loading what that returned. *)
Lemma load_twice_sample :
  exists out cfg,
    LoadConfig (Ok "/home/op") sampleJoin sampleQuote (Ok (sampleConfig "ha" 3 2))
      = (out, Ok cfg)
    /\ expandPaths (Ok "/home/op") sampleJoin cfg = cfg
    /\ LoadConfig (Ok "/home/op") sampleJoin sampleQuote (Ok cfg) = ([], Ok cfg).
Proof.
  eexists _, _. split; [vm_compute; reflexivity|].
  split; [vm_compute; reflexivity|].
  exact (LoadConfig_idempotent (Ok "/home/op") sampleJoin sampleQuote
           (sampleConfig "ha" 3 2) _ _ eq_refl eq_refl).
Defined.

(** The console sample without a host, served over TLS. *)
Lemma console_URL_sample :
  exists out cfg,
    LoadConfig (Ok "/home/op") sampleJoin sampleQuote
      (Ok (sampleConsoleConfig "" true)) = (out, Ok cfg)
    /\ GetConsoleURL cfg = "https://butler.mgmt.local".
Proof.
  eexists _, _. split; [vm_compute; reflexivity|].
  exact (LoadConfig_console_URL (Ok "/home/op") sampleJoin sampleQuote
           (sampleConsoleConfig "" true) _ _ eq_refl eq_refl eq_refl).
Defined.

(** The dry run of the loaded console sample. *)
Lemma dryRun_console_sample :
  exists lines,
    dryRun [] (sampleConsoleConfig "console.example.org" false) = Some lines
    /\ GetConsoleURL (sampleConsoleConfig "console.example.org" false) <> ""
    /\ In (Text "URL: http://console.example.org") lines.
Proof.
  eexists. split; [vm_compute; reflexivity|]. split; [done|].
  exact (dryRun_prints_console_URL [] (sampleConsoleConfig "console.example.org" false)
           _ eq_refl ltac:(done)).
Defined.

(** ** Manifest deployer: requests, files and documents *)

Lemma Get_cases (c : ResourceInterface) (name : string) (s : APIServer) :
  let k := keyOf c name in
  let out := Get c name s in
  actions out.1 = actions s ++ [ActGet k]
  /\ objects out.1 = objects s
  /\ revision out.1 = revision s
  /\ faults out.1 = tail (faults s)
  /\ out.2 = match mjoin (head (faults s)), objects s !! k with
             | Some e, _ => Err e
             | None, Some obj => Ok obj
             | None, None => Err (StatusError ReasonNotFound)
             end.
Proof.
  unfold Get, receive. cbv zeta.
  destruct (mjoin (head (faults s))) as [e|]; simpl; [done|].
  by destruct (objects s !! keyOf c name).
Qed.

Lemma Update_cases (c : ResourceInterface) (obj : Unstructured) (s : APIServer) :
  let k := keyOf c (GetName obj) in
  let out := Update c obj s in
  actions out.1 = actions s ++ [ActUpdate k (GetResourceVersion obj)]
  /\ faults out.1 = tail (faults s)
  /\ match out.2 with
     | Err _ => objects out.1 = objects s /\ revision out.1 = revision s
     | Ok _ =>
         objects out.1
         = <[k := SetResourceVersion (pretty (N.succ (revision s))) obj]> (objects s)
         /\ revision out.1 = N.succ (revision s)
         /\ is_Some (objects s !! k)
     end.
Proof.
  unfold Update, receive. cbv zeta.
  destruct (mjoin (head (faults s))) as [e|]; simpl; [done|].
  destruct (objects s !! keyOf c (GetName obj)) eqn:E; simpl; [|done].
  destruct (streq _ _); simpl; [|done]. repeat split; try done.
Qed.

Lemma Create_effect (c : ResourceInterface) (obj : Unstructured) (s : APIServer) :
  let k := keyOf c (GetName obj) in
  let out := Create c obj s in
  actions out.1 = actions s ++ [ActCreate k]
  /\ faults out.1 = tail (faults s)
  /\ match out.2 with
     | Err _ => objects out.1 = objects s /\ revision out.1 = revision s
     | Ok _ =>
         objects out.1
         = <[k := SetResourceVersion (pretty (N.succ (revision s))) obj]> (objects s)
         /\ revision out.1 = N.succ (revision s)
         /\ objects s !! k = None
     end.
Proof.
  unfold Create, receive. cbv zeta.
  destruct (mjoin (head (faults s))) as [e|]; simpl; [done|].
  destruct (objects s !! keyOf c (GetName obj)) eqn:E; simpl; [done|]. done.
Qed.

Lemma applyResource_effect (obj : Unstructured) (s : APIServer) :
  let k := applyKey obj in
  let out := applyResource obj s in
  (exists reqs,
     actions out.1 = actions s ++ reqs
     /\ ((reqs = [ActCreate k]
          /\ (out.2 = None
              \/ exists e, out.2 = Some (Wrap "creating resource" e)
                           /\ IsAlreadyExists e = false))
         \/ (reqs = [ActCreate k; ActGet k]
             /\ exists e, out.2 = Some (Wrap "getting existing resource" e))
         \/ (exists rv, reqs = [ActCreate k; ActGet k; ActUpdate k rv]
             /\ (out.2 = None
                 \/ exists e, out.2 = Some (Wrap "updating resource" e)))))
  /\ match out.2 with
     | Some _ => objects out.1 = objects s /\ revision out.1 = revision s
     | None =>
         objects out.1
         = <[k := SetResourceVersion (pretty (N.succ (revision s))) obj]> (objects s)
         /\ revision out.1 = N.succ (revision s)
     end.
Proof.
  cbv zeta. unfold applyResource. cbv zeta.
  pose proof (Create_effect
    (if negb (streq (GetNamespace obj) "")
     then Namespaced (gvkToGVR (ObjectGroupVersionKind obj)) (GetNamespace obj)
     else ClusterScoped (gvkToGVR (ObjectGroupVersionKind obj))) obj s) as Hc.
  cbv zeta in Hc. rewrite keyOf_apply_client in Hc.
  destruct (Create _ obj s) as [s1 r1]. simpl in Hc.
  destruct Hc as (Ha1 & Hf1 & Hr1).
  destruct r1 as [v|e]; simpl.
  { destruct Hr1 as (Ho & Hr & _). split; [|done].
    eexists. split; [exact Ha1|]. left. auto. }
  destruct Hr1 as [Ho1 Hrev1].
  destruct (IsAlreadyExists e) eqn:Hae; simpl.
  2:{ split; [|done]. eexists. split; [exact Ha1|]. left. split; [done|]. right. eauto. }
  pose proof (Get_cases
    (if negb (streq (GetNamespace obj) "")
     then Namespaced (gvkToGVR (ObjectGroupVersionKind obj)) (GetNamespace obj)
     else ClusterScoped (gvkToGVR (ObjectGroupVersionKind obj))) (GetName obj) s1) as Hg.
  cbv zeta in Hg. rewrite keyOf_apply_client in Hg.
  destruct (Get _ (GetName obj) s1) as [s2 r2]. simpl in Hg.
  destruct Hg as (Ha2 & Ho2 & Hrev2 & Hf2 & Hr2).
  destruct r2 as [existing|e2]; simpl.
  2:{ split; [|by rewrite Ho2, Hrev2].
      eexists. split; [rewrite Ha2, Ha1, <- (assoc_L (++)); reflexivity|].
      right. left. eauto. }
  pose proof (Update_cases
    (if negb (streq (GetNamespace obj) "")
     then Namespaced (gvkToGVR (ObjectGroupVersionKind obj)) (GetNamespace obj)
     else ClusterScoped (gvkToGVR (ObjectGroupVersionKind obj)))
    (SetResourceVersion (GetResourceVersion existing) obj) s2) as Hu.
  cbv zeta in Hu. rewrite GetName_SetResourceVersion, keyOf_apply_client in Hu.
  destruct (Update _ _ s2) as [s3 r3]. simpl in Hu.
  destruct Hu as (Ha3 & Hf3 & Hr3).
  destruct r3 as [v|e3]; simpl.
  - destruct Hr3 as (Ho3 & Hrev3 & _). split.
    + eexists. split; [rewrite Ha3, Ha2, Ha1, <- !(assoc_L (++)); reflexivity|].
      right. right. eexists. split; [reflexivity|]. by left.
    + by rewrite Ho3, Hrev3, Ho2, Hrev2, Ho1, Hrev1, SetResourceVersion_twice.
  - destruct Hr3 as [Ho3 Hrev3]. split.
    + eexists. split; [rewrite Ha3, Ha2, Ha1, <- !(assoc_L (++)); reflexivity|].
      right. right. eexists. split; [reflexivity|]. right. by eexists.
    + by rewrite Ho3, Hrev3, Ho2, Hrev2.
Qed.

(** A healthy server stays healthy. *)
Lemma applyResource_healthy (obj : Unstructured) (s : APIServer) :
  faults s = [] -> faults (applyResource obj s).1 = [].
Proof.
  intros Hf. unfold applyResource, Create, Get, Update, receive, store. cbv zeta.
  rewrite Hf. simpl.
  destruct (objects s !! _); simpl; [|done].
  destruct (objects s !! _); simpl; [|done].
  destruct (objects s !! _); simpl; [|done].
  by destruct (streq _ _).
Qed.

Lemma GetResourceVersion_SetResourceVersion (rv : string) (obj : Unstructured) :
  metadataWritable obj = true ->
  GetResourceVersion (SetResourceVersion rv obj) = rv.
Proof.
  unfold metadataWritable, GetResourceVersion, SetResourceVersion, nestedString,
    mapSet, mapLit.
  destruct (Object obj !! "metadata") as [[]|]; try done; intros _; simpl;
    rewrite lookup_insert_eq; simpl; by rewrite lookup_insert_eq.
Qed.

(** On a healthy server that stores anything under the object's key,
    [applyResource] replaces it, whatever it is. *)
Lemma applyResource_overwrites (obj : Unstructured) (s : APIServer) :
  faults s = [] ->
  metadataWritable obj = true ->
  is_Some (objects s !! applyKey obj) ->
  (applyResource obj s).2 = None
  /\ dom (objects (applyResource obj s).1) = dom (objects s).
Proof.
  intros Hf Hw [old Hk]. unfold applyResource, Create. cbv zeta.
  rewrite keyOf_apply_client. unfold receive. rewrite Hf. simpl.
  rewrite Hk. simpl. unfold Get. rewrite keyOf_apply_client.
  unfold receive. simpl. rewrite Hk.
  unfold Update. rewrite GetName_SetResourceVersion, keyOf_apply_client.
  unfold receive. simpl. rewrite Hk.
  rewrite GetResourceVersion_SetResourceVersion, streq_refl by done.
  simpl. split; [done|].
  rewrite dom_insert_L. apply subseteq_union_1_L, singleton_subseteq_l.
  by apply elem_of_dom_2 in Hk.
Qed.

(** X7. A failed [applyResource] changes nothing: when it returns an
    error the stored objects and the revision counter are as before.
    Whatever it returns, it touches no object but the one under the key
    of the object applied; and when it returns no error that object is
    stored with the newest [resourceVersion]. *)
Theorem applyResource_is_atomic (obj : Unstructured) (s : APIServer) :
  let out := applyResource obj s in
  (is_Some out.2 -> objects out.1 = objects s /\ revision out.1 = revision s)
  /\ (forall k, k <> applyKey obj -> objects out.1 !! k = objects s !! k)
  /\ (out.2 = None ->
        objects out.1 !! applyKey obj
        = Some (SetResourceVersion (pretty (revision out.1)) obj)).
Proof.
  cbv zeta. destruct (applyResource_effect obj s) as [_ He]. cbv zeta in He.
  destruct (applyResource obj s) as [s' [e|]]; simpl in *.
  - destruct He as [-> ->]. split; [done|]. split; [done|]. done.
  - destruct He as [-> ->]. split; [by intros [? ?]|].
    split; [by intros k Hk; rewrite lookup_insert_ne|].
    intros _. by rewrite lookup_insert_eq.
Qed.



Section DeployerFacts.
Variable YAMLReader_Read : bytes -> list (result bytes).
Variable yaml_Unmarshal : bytes -> result (gmap string Value).
Variable TrimSpace : bytes -> bytes.

Local Abbreviation documents := (applyDocuments yaml_Unmarshal TrimSpace).
Local Abbreviation apply_yaml := (applyYAML YAMLReader_Read yaml_Unmarshal TrimSpace).

Lemma writable_cons (d : result bytes) (docs : list (result bytes)) :
  writable yaml_Unmarshal (d :: docs) -> writable yaml_Unmarshal docs.
Proof. intros H doc object Hin. apply H. by right. Qed.

(** A clean first pass leaves the server healthy and only adds keys; any
    healthy server holding at least those keys then takes the documents
    again, without an error and without a new key. *)
Lemma applyDocuments_again (docs : list (result bytes)) :
  forall s s1,
  faults s = [] -> writable yaml_Unmarshal docs ->
  documents docs s = (s1, None) ->
  faults s1 = []
  /\ dom (objects s) ⊆ dom (objects s1)
  /\ forall t, faults t = [] -> dom (objects s1) ⊆ dom (objects t) ->
       exists t', documents docs t = (t', None)
                  /\ faults t' = [] /\ dom (objects t') = dom (objects t).
Proof.
  induction docs as [|[doc|e] rest IH]; intros s s1 Hf Hw; simpl.
  - intros [= <-]. split; [done|]. split; [done|]. intros t Ht _. by exists t.
  - destruct (length (TrimSpace doc) =? 0)%nat.
    { apply IH; [done|by apply writable_cons in Hw]. }
    destruct (yaml_Unmarshal doc) as [object|e] eqn:Hu; [|done].
    destruct (streq (GetKind {| Object := object |}) "").
    { apply IH; [done|by apply writable_cons in Hw]. }
    pose proof (applyResource_healthy {| Object := object |} s Hf) as Hh.
    pose proof (applyResource_effect {| Object := object |} s) as [_ He].
    cbv zeta in He.
    destruct (applyResource {| Object := object |} s) as [s' [e|]]; [done|].
    simpl in Hh, He. destruct He as [Ho _].
    intros H1. destruct (IH s' s1 Hh (writable_cons _ _ Hw) H1) as (Hf1 & Hd & Hre).
    assert (Hkey : applyKey {| Object := object |} ∈ dom (objects s')).
    { rewrite Ho. apply elem_of_dom. rewrite lookup_insert_eq. by eexists. }
    split; [done|]. split.
    { etrans; [|exact Hd]. rewrite Ho, dom_insert_L. apply union_subseteq_r. }
    intros t Ht Hsub.
    assert (Hwr : metadataWritable {| Object := object |} = true).
    { apply (Hw doc); [by left|done]. }
    assert (Hin : is_Some (objects t !! applyKey {| Object := object |})).
    { apply elem_of_dom, Hsub, Hd, Hkey. }
    destruct (applyResource_overwrites _ t Ht Hwr Hin) as [Hr Hdom].
    pose proof (applyResource_healthy {| Object := object |} t Ht) as Hht.
    destruct (applyResource {| Object := object |} t) as [t1 r1].
    simpl in Hr, Hdom, Hht. subst r1.
    destruct (Hre t1 Hht) as (t' & H2 & Hf2 & Hd2); [by rewrite Hdom|].
    exists t'. split; [done|]. split; [done|]. by rewrite Hd2.
  - done.
Qed.

(** X9. Deploying a manifest file again is safe.  On an API server that
    fails no request, once [applyYAML] has applied a file without an
    error, applying the same file again returns no error either and adds
    no object: every document is updated in place.  The documents are
    supposed to carry a [metadata] mapping (or none), so that the stored
    [resourceVersion] can be written onto them. *)
Theorem applyYAML_rerun_succeeds (data : bytes) (s s1 : APIServer) :
  faults s = [] ->
  writable yaml_Unmarshal (YAMLReader_Read data) ->
  apply_yaml data s = (s1, None) ->
  exists s2, apply_yaml data s1 = (s2, None)
             /\ dom (objects s2) = dom (objects s1).
Proof.
  intros Hf Hw H1. unfold applyYAML in *.
  destruct (applyDocuments_again _ s s1 Hf Hw H1) as (Hf1 & _ & Hre).
  destruct (Hre s1 Hf1) as (s2 & H2 & _ & Hd); [done|]. by exists s2.
Qed.

(** Composition of the loop over the documents. *)
Lemma applyDocuments_app (docs1 docs2 : list (result bytes)) (s : APIServer) :
  documents (docs1 ++ docs2) s =
    match documents docs1 s with
    | (s1, None) => documents docs2 s1
    | (s1, Some e) => (s1, Some e)
    end.
Proof.
  revert s. induction docs1 as [|[doc|e] rest IH]; intros s; simpl; [done| |done].
  destruct (length (TrimSpace doc) =? 0)%nat; [apply IH|].
  destruct (yaml_Unmarshal doc) as [object|e]; [|done].
  destruct (streq (GetKind {| Object := object |}) ""); [apply IH|].
  destruct (applyResource {| Object := object |} s) as [s' [e|]]; [done|apply IH].
Qed.

(** X10. [applyYAML] stops at the first document that fails: whatever the
    reader returns after it changes neither the error, nor the stored
    objects, nor the requests sent. *)
Theorem applyYAML_stops_at_first_failure (docs1 docs2 : list (result bytes))
    (s : APIServer) :
  is_Some (documents docs1 s).2 ->
  documents (docs1 ++ docs2) s = documents docs1 s.
Proof.
  intros [e He]. rewrite applyDocuments_app.
  destruct (documents docs1 s) as [s1 r]. simpl in He. by subst r.
Qed.

(** X11. Blank documents and documents without a [kind] are passed over
    in silence: [applyYAML] does on a file exactly what it does on the file
    without them, so such a document sends no request and raises no error,
    whatever else it holds. *)
Theorem applyYAML_ignores_blank_and_kindless (docs : list (result bytes))
    (s : APIServer) :
  documents docs s = documents (filter (fun d => negb (passedOver yaml_Unmarshal TrimSpace d)) docs) s.
Proof.
  revert s. induction docs as [|[doc|e] rest IH]; intros s; [done| |done].
  rewrite filter_cons. unfold passedOver at 1. simpl.
  destruct (length (TrimSpace doc) =? 0)%nat eqn:Hb; simpl; [apply IH|].
  destruct (yaml_Unmarshal doc) as [object|e] eqn:Hu; simpl.
  - destruct (streq (GetKind {| Object := object |}) "") eqn:Hk; simpl; [apply IH|].
    rewrite Hb, Hu, Hk.
    destruct (applyResource {| Object := object |} s) as [s' [e|]]; [done|apply IH].
  - by rewrite Hb, Hu.
Qed.
End DeployerFacts.

(** ** Manifest deployer: directories *)

Section DirectoryFacts.
Variable YAMLReader_Read : bytes -> list (result bytes).
Variable yaml_Unmarshal : bytes -> result (gmap string Value).
Variable TrimSpace : bytes -> bytes.

Local Abbreviation deploy_file := (deployFile YAMLReader_Read yaml_Unmarshal TrimSpace).
Local Abbreviation deploy_entries :=
  (deployEntries YAMLReader_Read yaml_Unmarshal TrimSpace).
Local Abbreviation deploy_dir := (deployFromFS YAMLReader_Read yaml_Unmarshal TrimSpace).

(** X12. [deployFromFS] deploys the files of the directory whose name
    ends in [.yaml] or [.yml], in the order of the listing, and nothing
    else: sub-directories and other files are not even read. *)
Theorem deployFromFS_only_manifest_files (fsys : FS) (dir : string)
    (entries : list DirEntry) (s : APIServer) :
  deploy_entries fsys dir entries s
  = deploy_entries fsys dir (List.filter isManifest entries) s.
Proof.
  revert s. induction entries as [|entry rest IH]; intros s; [done|].
  simpl. unfold isManifest at 1.
  destruct (entry_IsDir entry) eqn:Hd; simpl; [apply IH|].
  destruct (HasSuffix (entry_Name entry) ".yaml") eqn:H1; simpl.
  - rewrite Hd, H1. simpl.
    destruct (deploy_file fsys _ s) as [s' [e|]]; [done|apply IH].
  - destruct (HasSuffix (entry_Name entry) ".yml") eqn:H2; simpl; [|apply IH].
    rewrite Hd, H1, H2. simpl.
    destruct (deploy_file fsys _ s) as [s' [e|]]; [done|apply IH].
Qed.

(** X13. When [deployFromFS] fails after listing the directory, its error
    names the file: it wraps, under [deploying <dir>/<name>], the error
    [deployFile] returned for a manifest file of the listing, and the
    server is left as that file left it. *)
Theorem deployFromFS_error_names_the_file (fsys : FS) (dir : string)
    (entries : list DirEntry) (s s' : APIServer) (e : error) :
  fs_ReadDir fsys dir = Ok entries ->
  deploy_dir fsys dir s = (s', Some e) ->
  exists entry cause s0,
    In entry entries /\ isManifest entry = true
    /\ deploy_file fsys (dir +:+ "/" +:+ entry_Name entry) s0 = (s', Some cause)
    /\ e = Wrap ("deploying " +:+ dir +:+ "/" +:+ entry_Name entry) cause.
Proof.
  intros Hl. unfold deployFromFS. rewrite Hl. clear Hl.
  revert s. induction entries as [|entry rest IH]; intros s; simpl; [done|].
  assert (Hrest : forall s1, deploy_entries fsys dir rest s1 = (s', Some e) ->
    exists entry0 cause s0,
      (entry = entry0 \/ In entry0 rest) /\ isManifest entry0 = true
      /\ deploy_file fsys (dir +:+ "/" +:+ entry_Name entry0) s0 = (s', Some cause)
      /\ e = Wrap ("deploying " +:+ dir +:+ "/" +:+ entry_Name entry0) cause).
  { intros s1 H. destruct (IH s1 H) as (entry0 & cause & s0 & Hin & Hrest).
    exists entry0, cause, s0. split; [by right|done]. }
  destruct (entry_IsDir entry) eqn:Hd; [apply Hrest|].
  destruct (negb (HasSuffix (entry_Name entry) ".yaml")
            && negb (HasSuffix (entry_Name entry) ".yml")) eqn:Hs; [apply Hrest|].
  destruct (deploy_file fsys _ s) as [s1 [cause|]] eqn:Hf; [|apply Hrest].
  intros [= <- <-]. exists entry, cause, s.
  split; [by left|]. split; [|done].
  unfold isManifest. rewrite Hd. simpl.
  apply andb_false_iff in Hs as [Hs|Hs]; apply negb_false_iff in Hs; rewrite Hs;
    [done|by rewrite orb_true_r].
Qed.
End DirectoryFacts.

(** An apply on an empty API server, and the same apply again. *)
Lemma apply_yaml_again_sample :
  exists s1 s2,
    faults emptyServer = []
    /\ applyYAML sampleReader sampleParse sampleTrim (bytesOf "manifest") emptyServer
       = (s1, None)
    /\ applyYAML sampleReader sampleParse sampleTrim (bytesOf "manifest") s1
       = (s2, None)
    /\ dom (objects s2) = dom (objects s1).
Proof.
  eexists _. 
  assert (Hw : writable sampleParse (sampleReader (bytesOf "manifest"))).
  { intros doc object _ [= <-]. reflexivity. }
  destruct (applyYAML_rerun_succeeds sampleReader sampleParse sampleTrim
              (bytesOf "manifest") emptyServer _ eq_refl Hw eq_refl)
    as (s2 & H2 & Hd).
  exists s2. split; [reflexivity|]. split; [reflexivity|]. split; [exact H2|exact Hd].
Defined.

(** A document that fails to decode, with a valid one after it. *)
Lemma apply_stops_sample :
  let decode := fun doc : bytes =>
    match doc with [] => Err (Foreign "yaml: bad document") | _ => sampleParse doc end in
  is_Some (applyDocuments decode (fun _ => bytesOf "x") [Ok []] emptyServer).2
  /\ applyDocuments decode (fun _ => bytesOf "x")
       ([Ok []] ++ [Ok (bytesOf "manifest")]) emptyServer
     = applyDocuments decode (fun _ => bytesOf "x") [Ok []] emptyServer.
Proof.
  cbv zeta. split; [by eexists|].
  apply (applyYAML_stops_at_first_failure
           (fun doc : bytes =>
              match doc with [] => Err (Foreign "yaml: bad document")
                        | _ => sampleParse doc end)
           (fun _ => bytesOf "x")).
  by eexists.
Defined.

(** ** The deployer's wait loops return [nil] only on what they wait for *)

(** When the inner loop of [WaitForCRDs] leaves by its [break], the poll
    it consumed last showed the definition established. *)
Lemma awaitEstablished_break (name : string) (script remaining : list Poll)
    (tr : list Event) :
  awaitEstablished name script = (tr, Returned (Ok remaining)) ->
  exists used p,
    script = used ++ p :: remaining
    /\ showsEstablished p = true
    /\ In (EvGet (crdGVR, "", name)) tr.
Proof.
  revert tr. induction script as [|p script IH]; intros tr; simpl; [done|].
  unfold showsEstablished at 1.
  destruct (ctxErr p) as [e|] eqn:Hc; [done|].
  destruct (awaitEstablished name script) as [tr0 r0] eqn:E0.
  assert (Hagain :
    (EvCtxCheck :: EvGet (crdGVR, "", name) :: tr0, r0)
      = (tr, Returned (Ok remaining)) ->
    exists used q,
      p :: script = used ++ q :: remaining
      /\ showsEstablished q = true
      /\ In (EvGet (crdGVR, "", name)) tr).
  { intros [= <- ->]. destruct (IH tr0 eq_refl) as (used & q & -> & Hq & Hin).
    exists (p :: used), q. split; [done|]. split; [done|]. right. by left. }
  destruct (response p) as [crd|e] eqn:Hr; [|by apply Hagain].
  destruct (nestedSlice _ _ _) as [conditions|] eqn:Hn; [|by apply Hagain].
  destruct (existsb _ _) eqn:He; [|by apply Hagain].
  intros [= <- <-]. exists [], p. split; [done|]. split.
  - unfold showsEstablished. by rewrite Hc, Hr, Hn.
  - right. by left.
Qed.

Lemma WaitForCRDs_nil_polls (names : list string) (script : list Poll)
    (tr : list Event) :
  WaitForCRDs names script = (tr, Returned None) ->
  exists polls,
    length polls = length names
    /\ sublist polls script
    /\ forallb showsEstablished polls = true.
Proof.
  revert script tr. induction names as [|name names IH]; intros script tr; simpl.
  - intros _. exists []. split; [done|]. split; [|done]. apply sublist_nil_l.
  - destruct (awaitEstablished name script) as [tr0 [[remaining|e]|]] eqn:E0;
      [|done..].
    destruct (awaitEstablished_break _ _ _ _ E0) as (used & p & -> & Hp & _).
    destruct (WaitForCRDs names remaining) as [tr1 r1] eqn:E1.
    intros [= <- ->]. destruct (IH remaining tr1 E1) as (polls & Hl & Hs & Hall).
    exists (p :: polls). split; [simpl; by rewrite Hl|]. split.
    + apply sublist_inserts_l. by apply sublist_skip.
    + simpl. by rewrite Hp, Hall.
Qed.

(** X14. [WaitForCRDs] returns [nil] only after it has seen every
    definition established: the script then holds, in order, one poll per
    name at which the context was not done and the answer carried an
    [Established] condition with status [True], and a Get request was
    sent for each name. *)
Theorem WaitForCRDs_nil_only_when_established (names : list string)
    (script : list Poll) (tr : list Event) :
  WaitForCRDs names script = (tr, Returned None) ->
  (exists polls,
     length polls = length names
     /\ sublist polls script
     /\ forallb showsEstablished polls = true)
  /\ forall name, In name names -> In (EvGet (crdGVR, "", name)) tr.
Proof.
  intros H. split; [by apply WaitForCRDs_nil_polls in H|].
  revert script tr H. induction names as [|name names IH]; intros script tr; simpl;
    [done|].
  destruct (awaitEstablished name script) as [tr0 [[remaining|e]|]] eqn:E0;
    [|done..].
  destruct (awaitEstablished_break _ _ _ _ E0) as (used & p & -> & _ & Hin).
  destruct (WaitForCRDs names remaining) as [tr1 r1] eqn:E1.
  intros [= <- ->] n [<-|Hn]; apply in_or_app; [by left|right].
  by apply (IH remaining tr1).
Qed.

Lemma WaitForDeployment_nil_poll (namespace name : string)
    (script : list Poll) (tr : list Event) :
  WaitForDeployment namespace name script = (tr, Returned None) ->
  exists p, In p script /\ showsReady p = true.
Proof.
  revert tr. induction script as [|p script IH]; intros tr; simpl; [done|].
  unfold showsReady at 1.
  destruct (ctxErr p) as [e|] eqn:Hc; [done|].
  destruct (WaitForDeployment namespace name script) as [tr0 r0] eqn:E0.
  assert (Hagain :
    (EvCtxCheck :: EvGet (deployGVR, namespace, name) :: tr0, r0)
      = (tr, Returned None) ->
    exists q, (p = q \/ In q script) /\ showsReady q = true).
  { intros [= <- ->]. destruct (IH tr0 eq_refl) as (q & Hin & Hq).
    exists q. split; [by right|done]. }
  destruct (response p) as [deploy|e] eqn:Hr; [|by apply Hagain].
  destruct (_ && _) eqn:Hready; [|by apply Hagain].
  intros _. exists p. split; [by left|].
  unfold showsReady. by rewrite Hc, Hr.
Qed.

(** X15. [WaitForDeployment] returns [nil] only on a poll at which the
    context was not done and the deployment showed at least one desired
    replica and no fewer ready replicas than desired.  A deployment whose
    [spec.replicas] is zero or missing is therefore never ready. *)
Theorem WaitForDeployment_nil_only_when_ready (namespace name : string)
    (script : list Poll) (tr : list Event) :
  WaitForDeployment namespace name script = (tr, Returned None) ->
  exists p deploy,
    In p script /\ ctxErr p = None /\ response p = Ok deploy
    /\ 0 < nestedInt64 (Object deploy) ["spec"] "replicas"
         <= nestedInt64 (Object deploy) ["status"] "readyReplicas".
Proof.
  intros H. apply WaitForDeployment_nil_poll in H as (p & Hin & Hp).
  unfold showsReady in Hp.
  destruct (ctxErr p) eqn:Hc; [done|].
  destruct (response p) as [deploy|e] eqn:Hr; [|done].
  exists p, deploy. split; [done|]. split; [done|]. split; [done|].
  apply andb_true_iff in Hp as [H1 H2]. lia.
Qed.

Section DeployPhases.
Variable YAMLReader_Read : bytes -> list (result bytes).
Variable yaml_Unmarshal : bytes -> result (gmap string Value).
Variable TrimSpace : bytes -> bytes.
Variable CRDs : FS.
Variable Controllers : FS.

(** X28. The two deployment phases of the orchestrator return [nil] only
    when what they deployed is up: [deployCRDs] only when the manifests
    were all applied and the three definitions were seen established,
    [deployControllers] only when both controller manifests were applied
    and both deployments, the bootstrap controller's and the provider's,
    were seen ready. *)
Theorem deploy_phases_return_nil_only_when_up :
  (forall s script s' tr,
     deployCRDs_phase YAMLReader_Read yaml_Unmarshal TrimSpace CRDs s script
       = (s', tr, Returned None) ->
     Deployer_DeployCRDs YAMLReader_Read yaml_Unmarshal TrimSpace CRDs s = (s', None)
     /\ exists polls, length polls = 3%nat /\ sublist polls script
                      /\ forallb showsEstablished polls = true)
  /\ (forall cfg s script1 script2 s' tr,
        deployControllers_phase YAMLReader_Read yaml_Unmarshal TrimSpace Controllers
          cfg s script1 script2 = (s', tr, Returned None) ->
        Deployer_DeployControllers YAMLReader_Read yaml_Unmarshal TrimSpace
          Controllers (Provider cfg) s = (s', None)
        /\ (exists p, In p script1 /\ showsReady p = true)
        /\ (exists p, In p script2 /\ showsReady p = true)).
Proof.
  split.
  - intros s script s' tr. unfold deployCRDs_phase.
    destruct (Deployer_DeployCRDs _ _ _ _ s) as [s1 [e|]]; [done|].
    destruct (WaitForCRDs crdNames script) as [tr1 [[e|]|]] eqn:E; [done| |done].
    intros [= <- <-]. split; [done|]. by apply WaitForCRDs_nil_polls in E.
  - intros cfg s script1 script2 s' tr. unfold deployControllers_phase.
    destruct (Deployer_DeployControllers _ _ _ _ _ s) as [s1 [e|]]; [done|].
    destruct (WaitForDeployment _ _ script1) as [tr1 [[e|]|]] eqn:E1; [done| |done].
    destruct (WaitForDeployment _ _ script2) as [tr2 [[e|]|]] eqn:E2; [done| |done].
    intros [= <- <-]. split; [done|].
    split; [by apply WaitForDeployment_nil_poll in E1
           |by apply WaitForDeployment_nil_poll in E2].
Qed.
End DeployPhases.

(** ** The watcher's log of phase changes *)

Section WatcherLog.
Variable DecodeString : string -> result bytes.

Lemma phaseLog_cons_other (e : Event) (tr : list Event) :
  (forall phase, e <> EvPhaseChanged phase) -> phaseLog (e :: tr) = phaseLog tr.
Proof.
  intros H. unfold phaseLog. simpl. destruct e as [| |k|p]; try done.
  by destruct (H p).
Qed.

Lemma watchLoop_phaseLog (name : string) (script : list Wake) :
  forall lastPhase,
  distinctNeighbours
    (lastPhase :: phaseLog (watchLoop DecodeString name lastPhase script).1).
Proof.
  induction script as [|[e|[cb|e]] script IH]; intros lastPhase; simpl; try done.
  - destruct (asMap (Object cb !! "status")) as [status|]; cbv zeta.
    + set (phase := stringOrZero (status !! "phase")).
      assert (Hlog : forall tr,
        distinctNeighbours
          ((if negb (streq phase lastPhase) then phase else lastPhase) :: phaseLog tr) ->
        distinctNeighbours
          (lastPhase ::
           phaseLog (EvWait :: EvGet (clusterBootstrapGVR, butlerNamespace, name)
                     :: (if negb (streq phase lastPhase)
                         then [EvPhaseChanged phase] else []) ++ tr))).
      { intros tr H. rewrite !phaseLog_cons_other by done.
        destruct (streq phase lastPhase) eqn:E; simpl in *; [done|].
        apply streq_false in E. split; [congruence|done]. }
      assert (Hdone : distinctNeighbours
          (lastPhase ::
           phaseLog (EvWait :: EvGet (clusterBootstrapGVR, butlerNamespace, name)
                     :: (if negb (streq phase lastPhase)
                         then [EvPhaseChanged phase] else [])))).
      { specialize (Hlog []). rewrite app_nil_r in Hlog. apply Hlog.
        by destruct (negb _). }
      destruct (streq phase "Ready").
      { destruct (DecodeString _); [|exact Hdone].
        by destruct (DecodeString _). }
      destruct (streq phase "Failed"); [exact Hdone|].
      specialize (IH (if negb (streq phase lastPhase) then phase else lastPhase)).
      destruct (watchLoop _ _ _ script) as [tr r]. simpl in *. by apply Hlog.
    + specialize (IH lastPhase).
      destruct (watchLoop _ _ _ script) as [tr r]. exact IH.
  - specialize (IH lastPhase).
    destruct (watchLoop _ _ _ script) as [tr r]. exact IH.
Qed.

(** X16. The watcher logs a phase only when it changes: in the log of a
    run of [watchBootstrap] no two successive lines carry the same phase,
    and the first line never carries the empty phase. *)
Theorem watchBootstrap_logs_phase_changes_only (cfg : Config) (script : list Wake) :
  distinctNeighbours ("" :: phaseLog (watchBootstrap DecodeString cfg script).1).
Proof. apply watchLoop_phaseLog. Qed.
End WatcherLog.

(** ** The orchestrator's run *)

(** Takes the next phase of [Run] both ways: a failing phase settles the
    goal, a passing one goes on. *)
Local Ltac next_phase x :=
  destruct x eqn:?; cbn [phase phases_bind phases_ret app];
  try (split; [done | intros; naive_solver]).

(** X17. Outside dry-run mode [Run] returns [nil] exactly when every
    phase it cannot do without succeeded: the substrate was created, the
    images were built (in local development mode), the clients, the
    definitions, the namespace and secrets and the controllers were set
    up, the provider configuration could be built and both intent objects
    were submitted, the watch returned credentials and they were saved.
    A failure to inject the host aliases or to delete the substrate
    afterwards does not make the run fail. *)
Theorem Run_succeeds_iff_every_phase_does (options : Options) (w : World)
    (cfg : Config) :
  DryRun options = false ->
  (Run options w cfg).2 = Return None <->
    (exists path, createKINDCluster w = Ok path)
    /\ (LocalDev options = true -> buildAndLoadImages w = None)
    /\ createClients w = None
    /\ deployCRDs w = None
    /\ createNamespaceAndSecrets w = None
    /\ deployControllers w = None
    /\ is_Some (buildProviderConfigUnstructured cfg)
    /\ submitProviderConfig w = None
    /\ submitClusterBootstrap w = None
    /\ (exists creds, watchOutcome w = Ok creds)
    /\ saveOutcome w = None.
Proof.
  intros Hd. unfold Run. rewrite Hd.
  next_phase (createKINDCluster w).
  destruct (0 <? length (getHostAliases cfg))%nat; cbn [phase phases_bind phases_ret app].
  all: destruct (LocalDev options); cbn [phase phases_bind phases_ret app].
  all: try next_phase (buildAndLoadImages w).
  all: next_phase (createClients w).
  all: next_phase (deployCRDs w).
  all: next_phase (createNamespaceAndSecrets w).
  all: next_phase (deployControllers w).
  all: next_phase (buildProviderConfigUnstructured cfg).
  all: next_phase (submitProviderConfig w).
  all: next_phase (submitClusterBootstrap w).
  all: next_phase (watchOutcome w).
  all: next_phase (saveOutcome w).
  all: simpl; split; [intros _|done]; naive_solver.
Qed.

(** Takes the next phase of [Run] both ways, for the steps of the body
    [E] describes. *)
Local Ltac next_step E x :=
  destruct x eqn:?; cbn [phase phases_bind phases_ret app] in E;
  try (injection E as <- _; simpl; intuition discriminate).

(** X18. [Run] cleans up what it created, however it leaves.  Outside
    dry-run mode, once the substrate has been created, deleting it is the
    last step of the run unless cleanup is switched off, on success, on
    the error of any phase and on a panic alike, and it happens once.
    When creating the substrate failed, nothing is deleted. *)
Theorem Run_cleans_up_what_it_created (options : Options) (w : World) (cfg : Config) :
  DryRun options = false ->
  match createKINDCluster w with
  | Err _ => (Run options w cfg).1 = [CreateKINDCluster]
  | Ok _ =>
      exists body,
        (Run options w cfg).1
        = CreateKINDCluster :: body
          ++ (if SkipCleanup options then [] else [DeleteKINDCluster])
        /\ ~ In DeleteKINDCluster body
  end.
Proof.
  intros Hd. unfold Run. rewrite Hd.
  destruct (createKINDCluster w) as [path|e]; [|done].
  match goal with
  | |- context [let '(tr, r) := ?chain in _] => destruct chain as [body r] eqn:E
  end.
  exists body. split; [by destruct (SkipCleanup options)|].
  destruct (0 <? length (getHostAliases cfg))%nat;
    cbn [phase phases_bind phases_ret app] in E.
  all: destruct (LocalDev options); cbn [phase phases_bind phases_ret app] in E.
  all: try next_step E (buildAndLoadImages w).
  all: next_step E (createClients w).
  all: next_step E (deployCRDs w).
  all: next_step E (createNamespaceAndSecrets w).
  all: next_step E (deployControllers w).
  all: next_step E (buildProviderConfigUnstructured cfg).
  all: next_step E (submitProviderConfig w).
  all: next_step E (submitClusterBootstrap w).
  all: next_step E (watchOutcome w).
  all: next_step E (saveOutcome w).
Qed.

(** ** The KIND cluster *)

(** X19. When KIND already lists the bootstrap cluster,
    [createKINDCluster] reuses it: it creates neither a cluster nor a
    configuration file, it only fetches the kubeconfig and, when that
    worked, patches CoreDNS as its last step. *)
Theorem createKINDCluster_reuses_existing_cluster (w : KindWorld)
    (clusters : list string) :
  kind_List w = Ok clusters ->
  In kindClusterName clusters ->
  forallb reusesCluster (createKINDCluster_phase w).1 = true
  /\ forall path, (createKINDCluster_phase w).2 = Ok path ->
       last (createKINDCluster_phase w).1 = Some (KindPatchCoreDNS path).
Proof.
  intros Hl Hin. unfold createKINDCluster_phase. rewrite Hl.
  assert (He : clusterExists clusters = true).
  { unfold clusterExists. apply existsb_exists. exists kindClusterName.
    split; [done|apply streq_refl]. }
  rewrite He. unfold getKINDKubeconfig.
  destruct (kind_KubeConfig w); simpl; [|done].
  destruct (kind_WriteKubeconfig w); simpl; [done|].
  split; [done|]. by intros path [= <-].
Qed.

(** X20. The temporary configuration file never outlives
    [createKINDCluster]: once it has been created, removing it is the
    last step of the function, whether the cluster came up or any later
    step failed. *)
Theorem createKINDCluster_removes_its_temp_file (w : KindWorld) :
  kind_CreateTemp w = None ->
  In KindCreateTemp (createKINDCluster_phase w).1 ->
  last (createKINDCluster_phase w).1 = Some KindRemoveTemp.
Proof.
  intros Ht. unfold createKINDCluster_phase, getKINDKubeconfig. rewrite Ht.
  destruct (kind_List w) as [clusters|e0]; simpl; [|intuition discriminate].
  destruct (clusterExists clusters); simpl.
  { destruct (kind_KubeConfig w); simpl; [|intuition discriminate].
    destruct (kind_WriteKubeconfig w); simpl; intuition discriminate. }
  intros _.
  destruct (kind_WriteString w); simpl; [done|].
  destruct (kind_Create w); simpl; [done|].
  destruct (0 <? length (kind_caCerts w))%nat; simpl;
    destruct (kind_KubeConfig w); simpl;
    try destruct (kind_WriteKubeconfig w); done.
Qed.

(** ** Namespace and secrets *)

Lemma Create_keeps (c : ResourceInterface) (obj : Unstructured) (s : APIServer)
    (k : GroupVersionResource * string * string) (old : Unstructured) :
  objects s !! k = Some old -> objects (Create c obj s).1 !! k = Some old.
Proof.
  intros Hk. unfold Create, receive, store. cbv zeta.
  destruct (mjoin (head (faults s))); simpl; [done|].
  destruct (objects s !! keyOf c (GetName obj)) eqn:E; simpl; [done|].
  rewrite lookup_insert_ne; [done|]. intros Heq. rewrite <- Heq in Hk. congruence.
Qed.

Lemma Create_request (c : ResourceInterface) (obj : Unstructured) (s : APIServer) :
  actions (Create c obj s).1 = actions s ++ [ActCreate (keyOf c (GetName obj))].
Proof. exact (proj1 (Create_cases c obj s)). Qed.

Lemma Create_healthy (c : ResourceInterface) (obj : Unstructured) (s : APIServer) :
  faults s = [] ->
  faults (Create c obj s).1 = []
  /\ ((exists stamped, (Create c obj s).2 = Ok stamped)
      \/ (Create c obj s).2 = Err (StatusError ReasonAlreadyExists)).
Proof.
  intros Hf. unfold Create, receive, store. cbv zeta. rewrite Hf. simpl.
  destruct (objects s !! keyOf c (GetName obj)); simpl; eauto.
Qed.

Section SecretsFacts.
Variable ReadFile : string -> result bytes.

(** X21. [createNamespaceAndSecrets] only ever creates: it sends at most
    two requests, both creations, and every object the server stored
    before is stored unchanged after, so a namespace or a credentials
    secret that already exists is kept as it is, not updated.  On a server
    that fails no request the only error it can return is that of an
    unreadable Harvester kubeconfig file. *)
Theorem createNamespaceAndSecrets_only_creates (cfg : Config) (s s' : APIServer)
    (r : option error) :
  createNamespaceAndSecrets_phase ReadFile cfg s = Some (s', r) ->
  (forall k old, objects s !! k = Some old -> objects s' !! k = Some old)
  /\ (exists reqs, actions s' = actions s ++ reqs
                   /\ forallb isCreateRequest reqs = true
                   /\ (length reqs <= 2)%nat)
  /\ (faults s = [] ->
      r = None
      \/ exists h e, Provider cfg = "harvester"
           /\ Harvester (ProviderConfig cfg) = Some h
           /\ ReadFile (KubeconfigPath h) = Err e
           /\ r = Some (Wrap "reading Harvester kubeconfig" e)).
Proof.
  unfold createNamespaceAndSecrets_phase.
  pose proof (Create_keeps (ClusterScoped namespacesGVR) butlerNamespaceObject s) as Hk1.
  pose proof (Create_request (ClusterScoped namespacesGVR) butlerNamespaceObject s) as Ha1.
  pose proof (Create_healthy (ClusterScoped namespacesGVR) butlerNamespaceObject s) as Hh1.
  destruct (Create (ClusterScoped namespacesGVR) butlerNamespaceObject s) as [s1 r1].
  simpl in Hk1, Ha1, Hh1.
  assert (Hone : forall s2 r2,
    (forall k old, objects s !! k = Some old -> objects s2 !! k = Some old)
    /\ (exists reqs, actions s2 = actions s ++ reqs
                     /\ forallb isCreateRequest reqs = true
                     /\ (length reqs <= 2)%nat)
    -> (faults s = [] -> r2 = None \/
          exists h e, Provider cfg = "harvester"
            /\ Harvester (ProviderConfig cfg) = Some h
            /\ ReadFile (KubeconfigPath h) = Err e
            /\ r2 = Some (Wrap "reading Harvester kubeconfig" e))
    -> Some (s2, r2) = Some (s', r) ->
    (forall k old, objects s !! k = Some old -> objects s' !! k = Some old)
    /\ (exists reqs, actions s' = actions s ++ reqs
                     /\ forallb isCreateRequest reqs = true
                     /\ (length reqs <= 2)%nat)
    /\ (faults s = [] -> r = None \/
          exists h e, Provider cfg = "harvester"
            /\ Harvester (ProviderConfig cfg) = Some h
            /\ ReadFile (KubeconfigPath h) = Err e
            /\ r = Some (Wrap "reading Harvester kubeconfig" e))).
  { intros s2 r2 [H1 H2] H3 [= <- <-]. done. }
  assert (Hfirst :
    (forall k old, objects s !! k = Some old -> objects s1 !! k = Some old)
    /\ (exists reqs, actions s1 = actions s ++ reqs
                     /\ forallb isCreateRequest reqs = true
                     /\ (length reqs <= 2)%nat)).
  { split; [done|]. eexists. split; [exact Ha1|]. split; [done|simpl; lia]. }
  assert (Hsecond : forall secret,
    let out := Create (Namespaced secretsGVR butlerNamespace) secret s1 in
    (forall k old, objects s !! k = Some old -> objects out.1 !! k = Some old)
    /\ (exists reqs, actions out.1 = actions s ++ reqs
                     /\ forallb isCreateRequest reqs = true
                     /\ (length reqs <= 2)%nat)).
  { intros secret. cbv zeta. split.
    - intros k old Hk. by apply Create_keeps, Hk1.
    - eexists. split; [rewrite Create_request, Ha1, <- (assoc_L (++)); reflexivity|].
      split; [done|simpl; lia]. }
  assert (Hfail1 : faults s = [] -> createFailed r1 = None).
  { intros Hf. destruct (Hh1 Hf) as [_ [[v ->]| ->]]; reflexivity. }
  assert (Hfail2 : forall secret, faults s = [] ->
    createFailed (Create (Namespaced secretsGVR butlerNamespace) secret s1).2 = None).
  { intros secret Hf. destruct (Hh1 Hf) as [Hf1 _].
    destruct (Create_healthy (Namespaced secretsGVR butlerNamespace) secret s1 Hf1)
      as [_ [[v ->]| ->]]; reflexivity. }
  destruct (createFailed r1) as [e1|] eqn:E1.
  { apply Hone; [done|]. intros Hf. by specialize (Hfail1 Hf). }
  destruct (streq (Provider cfg) "harvester") eqn:Ep.
  - apply streq_true in Ep.
    destruct (Harvester (ProviderConfig cfg)) as [h|] eqn:Eh; simpl; [|done].
    destruct (ReadFile (KubeconfigPath h)) as [data|e] eqn:Er.
    + specialize (Hsecond (harvesterSecret cfg data)).
      specialize (Hfail2 (harvesterSecret cfg data)). cbv zeta in Hsecond.
      destruct (Create _ (harvesterSecret cfg data) s1) as [s2 r2]. simpl in *.
      destruct (createFailed r2) eqn:E2; apply Hone; try done.
      * intros Hf. by specialize (Hfail2 Hf).
      * by left.
    + apply Hone; [done|]. intros _. right. by exists h, e.
  - destruct (streq (Provider cfg) "nutanix") eqn:En.
    + destruct (Nutanix (ProviderConfig cfg)) as [n|] eqn:Enn; simpl; [|done].
      specialize (Hsecond (nutanixSecret cfg n)).
      specialize (Hfail2 (nutanixSecret cfg n)). cbv zeta in Hsecond.
      destruct (Create _ (nutanixSecret cfg n) s1) as [s2 r2]. simpl in *.
      destruct (createFailed r2) eqn:E2; apply Hone; try done.
      * intros Hf. by specialize (Hfail2 Hf).
      * by left.
    + apply Hone; [done|]. by left.
Qed.
End SecretsFacts.

(** ** The intent objects *)

(** The three shapes of a ProviderConfig object. *)
Local Ltac provider_cases cfg pc :=
  unfold buildProviderConfigUnstructured;
  destruct (streq (Provider cfg) "harvester") eqn:?;
    [destruct (Harvester (ProviderConfig cfg)) eqn:?; [|done]|
     destruct (streq (Provider cfg) "nutanix") eqn:?;
       [destruct (Nutanix (ProviderConfig cfg)) eqn:?; [|done]|]];
  cbn [mbind option_bind]; intros [= <-].

(** X22. The objects the orchestrator submits refer to each other by the
    right names.  The [providerRef] of the ClusterBootstrap is the name
    and namespace of the ProviderConfig built from the same configuration,
    and both carry the same provider.  For Harvester and Nutanix the
    [credentialsRef] of the ProviderConfig is the name and namespace of the
    secret [createNamespaceAndSecrets] creates, and for Harvester the key
    it names is a key of that secret's data; for any other provider the
    ProviderConfig has no [credentialsRef]. *)
Theorem intent_objects_refer_to_each_other (cfg : Config) (pc : Unstructured) :
  buildProviderConfigUnstructured cfg = Some pc ->
  let cb := buildClusterBootstrapUnstructured cfg in
  nestedString (Object cb) ["spec"; "providerRef"] "name" = GetName pc
  /\ nestedString (Object cb) ["spec"; "providerRef"] "namespace" = GetNamespace pc
  /\ nestedString (Object cb) ["spec"] "provider"
     = nestedString (Object pc) ["spec"] "provider"
  /\ (Provider cfg = "harvester" -> forall data,
        nestedString (Object pc) ["spec"; "credentialsRef"] "name"
        = GetName (harvesterSecret cfg data)
        /\ nestedString (Object pc) ["spec"; "credentialsRef"] "namespace"
           = GetNamespace (harvesterSecret cfg data)
        /\ is_Some (nestedMap (Object (harvesterSecret cfg data)) ["data"]
                    ≫= (.!! nestedString (Object pc) ["spec"; "credentialsRef"] "key")))
  /\ (Provider cfg = "nutanix" -> forall n,
        nestedString (Object pc) ["spec"; "credentialsRef"] "name"
        = GetName (nutanixSecret cfg n)
        /\ nestedString (Object pc) ["spec"; "credentialsRef"] "namespace"
           = GetNamespace (nutanixSecret cfg n))
  /\ (Provider cfg <> "harvester" -> Provider cfg <> "nutanix" ->
        nestedMap (Object pc) ["spec"; "credentialsRef"] = None).
Proof.
  cbv zeta. provider_cases cfg pc; split_and!; try reflexivity.
  - intros _ data. split_and!; try reflexivity. by eexists.
  - intros Hp. apply streq_true in Heqb. congruence.
  - intros Hp. by apply streq_true in Heqb.
  - intros Hp. by apply streq_false in Heqb.
  - intros _ n0. by split.
  - intros _ Hn. by apply streq_true in Heqb0.
  - intros Hp. by apply streq_false in Heqb.
  - intros Hp. by apply streq_false in Heqb0.
Qed.

(** X23. The deployer's mapping from kinds to resources agrees with the
    resources the orchestrator addresses: applied as manifests, the two
    intent objects would land under the very keys
    [createProviderConfig] and [createClusterBootstrap] create them
    under, and the definitions of both resources are among those
    [deployCRDs] waits for. *)
Theorem intent_objects_sit_where_the_orchestrator_creates_them (cfg : Config)
    (pc : Unstructured) :
  buildProviderConfigUnstructured cfg = Some pc ->
  applyKey pc = (providerConfigGVR, butlerNamespace, Name (Cluster cfg) +:+ "-provider")
  /\ applyKey (buildClusterBootstrapUnstructured cfg)
     = (clusterBootstrapGVR, butlerNamespace, Name (Cluster cfg))
  /\ In (Resource providerConfigGVR +:+ "." +:+ Group providerConfigGVR) crdNames
  /\ In (Resource clusterBootstrapGVR +:+ "." +:+ Group clusterBootstrapGVR) crdNames.
Proof.
  provider_cases cfg pc; (split; [reflexivity|]); (split; [reflexivity|]);
    (split; [right; by left|right; right; by left]).
Qed.

Lemma getHostAliases_redacted (cfg : Config) :
  getHostAliases (redacted cfg) = getHostAliases cfg.
Proof.
  unfold getHostAliases. simpl.
  destruct (streq (Provider cfg) "nutanix");
    [by destruct (Nutanix (ProviderConfig cfg))|].
  destruct (streq (Provider cfg) "proxmox"); [|done].
  by destruct (Proxmox (ProviderConfig cfg)).
Qed.

Lemma buildProviderConfigUnstructured_redacted (cfg : Config) :
  buildProviderConfigUnstructured (redacted cfg) = buildProviderConfigUnstructured cfg.
Proof.
  unfold buildProviderConfigUnstructured. simpl.
  destruct (streq (Provider cfg) "harvester"); [done|].
  destruct (streq (Provider cfg) "nutanix"); [|done].
  by destruct (Nutanix (ProviderConfig cfg)).
Qed.

(** X24. No secret of the configuration reaches the intent objects or
    the dry run: the ProviderConfig, the ClusterBootstrap and every line
    [dryRun] prints are the same for a configuration and for that
    configuration with the providers' user names and passwords and the
    console's admin password and token secret blanked. *)
Theorem secrets_stay_out_of_the_intent_objects (caCerts : list string) (cfg : Config) :
  buildProviderConfigUnstructured (redacted cfg) = buildProviderConfigUnstructured cfg
  /\ buildClusterBootstrapUnstructured (redacted cfg)
     = buildClusterBootstrapUnstructured cfg
  /\ dryRun caCerts (redacted cfg) = dryRun caCerts cfg.
Proof.
  split; [apply buildProviderConfigUnstructured_redacted|].
  split; [reflexivity|].
  unfold dryRun.
  rewrite buildProviderConfigUnstructured_redacted, getHostAliases_redacted.
  reflexivity.
Qed.

(** X25. The cluster block of the ClusterBootstrap has a [workers] entry
    exactly when the topology is not single-node and the configuration
    asks for at least one worker: an HA configuration with zero (or a
    negative number of) workers gets none.  The entry carries the
    configured replica count, and an [extraDisks] list exactly when the
    configuration lists extra disks, one element per disk. *)
Theorem cluster_spec_workers_block (cfg : Config) :
  exists cs,
    clusterSpecOf (buildClusterBootstrapUnstructured cfg) = Some cs
    /\ (is_Some (cs !! "workers") <->
          IsSingleNode cfg = false /\ 0 < Replicas (Workers (Cluster cfg)))
    /\ forall ws, cs !! "workers" = Some (VMap ws) ->
         ws !! "replicas" = Some (VInt (Replicas (Workers (Cluster cfg))))
         /\ (is_Some (ws !! "extraDisks") <-> ExtraDisks (Workers (Cluster cfg)) <> [])
         /\ (ws !! "extraDisks" = None
             \/ ws !! "extraDisks"
                = Some (VList (extraDiskValue <$> ExtraDisks (Workers (Cluster cfg))))).
Proof.
  unfold buildClusterBootstrapUnstructured.
  destruct (IsSingleNode cfg) eqn:Hs; simpl.
  { eexists. split; [reflexivity|]. split.
    - split; [by intros [? ?]|by intros [? _]].
    - intros ws. done. }
  destruct (Z.ltb_spec 0 (Replicas (Workers (Cluster cfg)))) as [Hr|Hr]; simpl.
  2:{ eexists. split; [reflexivity|]. split.
      - split; [by intros [? ?]|]. intros [_ ?]. lia.
      - intros ws. done. }
  eexists. split; [reflexivity|]. split.
  - split; [done|]. intros _. by eexists.
  - intros ws. unfold mapSet. rewrite lookup_insert_eq. intros [= <-].
    destruct (ExtraDisks (Workers (Cluster cfg))) as [|d ds]; simpl.
    + split; [reflexivity|]. split; [|by left].
      split; [by intros [? ?]|done].
    + split; [reflexivity|]. split; [|by right].
      split; [done|]. intros _. by eexists.
Qed.

(** ** Saving the credentials *)

Section PersistErrors.
Variable yaml_Unmarshal : bytes -> result (gmap string Value).
Variable yaml_Marshal : gmap string Value -> result bytes.
Variable UserHomeDir : result string.
Variable filepath_Join : string -> string -> string.
Variable MkdirAll : string -> option error.
Variable WriteFile_error : string -> option error.

Local Abbreviation save :=
  (saveClusterCredentials yaml_Unmarshal yaml_Marshal UserHomeDir filepath_Join
     MkdirAll WriteFile_error).
Local Abbreviation fix_endpoints := (fixTalosconfigEndpoints yaml_Unmarshal yaml_Marshal).

End PersistErrors.

(** ** CA certificates *)

Section CertificateFacts.
Variable Getenv : string -> string.
Variable Stat_IsDir : string -> result bool.
Variable ReadDir : string -> result (list DirEntry).
Variable UserHomeDir : result string.
Variable filepath_Join : string -> string -> string.

Lemma certEntries_from (dir : string) (entries : list DirEntry) (acc : list string) :
  fold_left (fun certs entry =>
    if entry_IsDir entry then certs
    else
      let name := entry_Name entry in
      if HasSuffix name ".crt" || HasSuffix name ".pem"
      then certs ++ [filepath_Join dir name]
      else certs) entries acc
  = acc ++ map (fun entry => filepath_Join dir (entry_Name entry))
             (List.filter isCertificate entries).
Proof.
  revert acc. induction entries as [|entry rest IH]; intros acc; simpl.
  - by rewrite app_nil_r.
  - rewrite IH. unfold isCertificate at 2.
    destruct (entry_IsDir entry); simpl; [done|].
    destruct (_ || _); simpl; [|done]. by rewrite <- (assoc_L (++)).
Qed.

(** X27. [scanCertDirectory] returns the files of the directory whose
    name ends in [.crt] or [.pem], joined to the directory, in the order
    of the listing; sub-directories and other files are left out, and a
    directory that cannot be read gives no certificate. *)
Theorem scanCertDirectory_takes_the_certificate_files (dir : string) :
  scanCertDirectory ReadDir filepath_Join dir =
    match ReadDir dir with
    | Ok entries =>
        map (fun entry => filepath_Join dir (entry_Name entry))
          (List.filter isCertificate entries)
    | Err _ => []
    end.
Proof.
  unfold scanCertDirectory, certEntries. destruct (ReadDir dir); [|done].
  by rewrite certEntries_from.
Qed.

End CertificateFacts.

(** ** More theorems at concrete inputs *)

(** Deploying the sample directory: the note is passed over, the manifest
    cannot be read. *)
Lemma deploy_error_sample :
  fs_ReadDir sampleFS "crds" = Ok sampleEntries
  /\ deployFromFS sampleReader sampleParse sampleTrim sampleFS "crds" emptyServer
     = (emptyServer,
        Some (Wrap "deploying crds/crd.yaml"
                (Wrap "reading file" (Foreign "file does not exist"))))
  /\ exists entry cause s0,
       In entry sampleEntries /\ isManifest entry = true
       /\ deployFile sampleReader sampleParse sampleTrim sampleFS
            ("crds" +:+ "/" +:+ entry_Name entry) s0 = (emptyServer, Some cause)
       /\ Wrap "deploying crds/crd.yaml"
            (Wrap "reading file" (Foreign "file does not exist"))
          = Wrap ("deploying " +:+ "crds" +:+ "/" +:+ entry_Name entry) cause.
Proof.
  split; [reflexivity|]. split; [reflexivity|].
  exact (deployFromFS_error_names_the_file sampleReader sampleParse sampleTrim
           sampleFS "crds" sampleEntries emptyServer emptyServer _ eq_refl eq_refl).
Defined.

(** The three definitions, the first one missing at the first poll. *)
Lemma wait_for_crds_sample :
  exists tr,
    WaitForCRDs crdNames sampleCRDScript = (tr, Returned None)
    /\ (exists polls,
          length polls = length crdNames
          /\ sublist polls sampleCRDScript
          /\ forallb showsEstablished polls = true)
    /\ forall name, In name crdNames -> In (EvGet (crdGVR, "", name)) tr.
Proof.
  eexists. split; [reflexivity|].
  exact (WaitForCRDs_nil_only_when_established crdNames sampleCRDScript _ eq_refl).
Defined.

(** A deployment with one of two replicas ready, then both. *)
Lemma wait_for_deployment_sample :
  exists tr,
    WaitForDeployment butlerNamespace "butler-bootstrap-controller"
      sampleDeploymentScript = (tr, Returned None)
    /\ exists p deploy,
         In p sampleDeploymentScript /\ ctxErr p = None /\ response p = Ok deploy
         /\ 0 < nestedInt64 (Object deploy) ["spec"] "replicas"
              <= nestedInt64 (Object deploy) ["status"] "readyReplicas".
Proof.
  eexists. split; [reflexivity|].
  exact (WaitForDeployment_nil_only_when_ready butlerNamespace
           "butler-bootstrap-controller" sampleDeploymentScript _ eq_refl).
Defined.

(** A run in which every phase succeeds. *)
Lemma run_succeeds_sample :
  DryRun (sampleOptions false) = false
  /\ (Run (sampleOptions false) sampleWorld (sampleConfig "ha" 3 2)).2 = Return None.
Proof.
  split; [reflexivity|].
  apply (Run_succeeds_iff_every_phase_does (sampleOptions false) sampleWorld
           (sampleConfig "ha" 3 2) eq_refl).
  split; [by eexists|]. split; [done|]. do 4 (split; [reflexivity|]).
  split; [by eexists|]. do 2 (split; [reflexivity|]).
  split; [by eexists|reflexivity].
Defined.

(** The same run: the substrate is deleted at the end. *)
Lemma run_cleanup_sample :
  DryRun (sampleOptions false) = false
  /\ exists body,
       (Run (sampleOptions false) sampleWorld (sampleConfig "ha" 3 2)).1
       = CreateKINDCluster :: body ++ [DeleteKINDCluster]
       /\ ~ In DeleteKINDCluster body.
Proof.
  split; [reflexivity|].
  exact (Run_cleans_up_what_it_created (sampleOptions false) sampleWorld
           (sampleConfig "ha" 3 2) eq_refl).
Defined.

(** A host on which the bootstrap cluster exists already. *)
Lemma kind_reuse_sample :
  let w := sampleKindWorld ["kind"; kindClusterName] in
  kind_List w = Ok ["kind"; kindClusterName]
  /\ In kindClusterName ["kind"; kindClusterName]
  /\ forallb reusesCluster (createKINDCluster_phase w).1 = true
  /\ forall path, (createKINDCluster_phase w).2 = Ok path ->
       last (createKINDCluster_phase w).1 = Some (KindPatchCoreDNS path).
Proof.
  cbv zeta. split; [reflexivity|]. split; [right; by left|].
  apply (createKINDCluster_reuses_existing_cluster
           (sampleKindWorld ["kind"; kindClusterName]) ["kind"; kindClusterName]
           eq_refl).
  right. by left.
Defined.

(** A host without the bootstrap cluster. *)
Lemma kind_temp_file_sample :
  let w := sampleKindWorld ["kind"] in
  kind_CreateTemp w = None
  /\ In KindCreateTemp (createKINDCluster_phase w).1
  /\ last (createKINDCluster_phase w).1 = Some KindRemoveTemp.
Proof.
  cbv zeta. split; [reflexivity|]. split; [right; by left|].
  apply (createKINDCluster_removes_its_temp_file (sampleKindWorld ["kind"]) eq_refl).
  right. by left.
Defined.

(** The namespace and the Nutanix secret on an empty API server. *)
Lemma secrets_sample :
  exists s' r,
    createNamespaceAndSecrets_phase sampleReadFile
      (sampleNutanixConfig "admin" "secret") emptyServer = Some (s', r)
    /\ (forall k old, objects emptyServer !! k = Some old -> objects s' !! k = Some old)
    /\ (exists reqs, actions s' = actions emptyServer ++ reqs
                     /\ forallb isCreateRequest reqs = true
                     /\ (length reqs <= 2)%nat)
    /\ (faults emptyServer = [] ->
        r = None
        \/ exists h e, Provider (sampleNutanixConfig "admin" "secret") = "harvester"
             /\ Harvester (ProviderConfig (sampleNutanixConfig "admin" "secret")) = Some h
             /\ sampleReadFile (KubeconfigPath h) = Err e
             /\ r = Some (Wrap "reading Harvester kubeconfig" e)).
Proof.
  eexists _, _. split; [reflexivity|].
  exact (createNamespaceAndSecrets_only_creates sampleReadFile
           (sampleNutanixConfig "admin" "secret") emptyServer _ _ eq_refl).
Defined.

(** The intent objects of the Harvester sample. *)
Lemma references_sample :
  exists pc,
    buildProviderConfigUnstructured (sampleConfig "ha" 3 2) = Some pc
    /\ nestedString (Object (buildClusterBootstrapUnstructured (sampleConfig "ha" 3 2)))
         ["spec"; "providerRef"] "name" = GetName pc
    /\ GetName pc = "mgmt-provider"
    /\ nestedString (Object pc) ["spec"; "credentialsRef"] "name"
       = "mgmt-harvester-credentials".
Proof.
  eexists. split; [reflexivity|].
  pose proof (intent_objects_refer_to_each_other (sampleConfig "ha" 3 2) _ eq_refl)
    as (H1 & _).
  split; [exact H1|]. split; reflexivity.
Defined.

Lemma resources_sample :
  exists pc,
    buildProviderConfigUnstructured (sampleConfig "ha" 3 2) = Some pc
    /\ applyKey pc = (providerConfigGVR, butlerNamespace, "mgmt-provider")
    /\ applyKey (buildClusterBootstrapUnstructured (sampleConfig "ha" 3 2))
       = (clusterBootstrapGVR, butlerNamespace, "mgmt").
Proof.
  eexists. split; [reflexivity|].
  pose proof (intent_objects_sit_where_the_orchestrator_creates_them
                (sampleConfig "ha" 3 2) _ eq_refl) as (H1 & H2 & _).
  split; [exact H1|exact H2].
Defined.
